(** * moogle: an in-memory fake of the Google Cloud Storage client

    Shallow embedding of [moogle/storage/models.py] and verification of
    its specification.  The Python objects ([FakeClient], [FakeBucket],
    [FakeBlob], [FakeBlobUpload]) are mutable and shared by reference, so
    the embedding keeps one store per class, addresses objects by their
    index in the store and threads the stores through every method in a
    state-and-exception monad.  An exception never rolls the stores back:
    what a method mutated before it raised stays mutated, as in Python. *)

From Stdlib Require Import ZArith List String Ascii Strings.Byte Bool Lia.
From stdpp Require Import base option list strings.

Local Open Scope string_scope.
Local Open Scope list_scope.
Local Open Scope nat_scope.

(** ** Python values *)

Definition bytes := list byte.

(** A Python [str] is a sequence of Unicode code points. *)
Definition str := list N.

(** The exceptions that the modelled code can raise.  [InvalidHandle] is
    not a Python exception: the embedding raises it when a reference does
    not point into its store, which Python's object model rules out. *)
Inductive exn : Type :=
| NotFound (msg : string)
| Conflict (msg : string)
| KeyError (key : string)
| ValueError (msg : string)
| AttributeError (msg : string)
| IndexError (msg : string)
| UnicodeEncodeError
| InvalidHandle.

Definition result (A : Type) : Type := exn + A.

(** *** [bytes(data, 'utf8')] *)

Definition byte_of_N (n : N) : byte :=
  default x00 (Byte.of_N (n mod 256)).

(** UTF-8 encoding of one code point; surrogates and values above
    U+10FFFF are rejected, as CPython's encoder does. *)
Definition utf8_encode_cp (c : N) : option bytes :=
  if (c <? 128)%N then Some [byte_of_N c]
  else if (c <? 2048)%N then
    Some [byte_of_N (192 + c / 64); byte_of_N (128 + c mod 64)]
  else if (c <? 65536)%N then
    if ((55296 <=? c) && (c <=? 57343))%N then None
    else Some [byte_of_N (224 + c / 4096);
               byte_of_N (128 + (c / 64) mod 64);
               byte_of_N (128 + c mod 64)]
  else if (c <? 1114112)%N then
    Some [byte_of_N (240 + c / 262144);
          byte_of_N (128 + (c / 4096) mod 64);
          byte_of_N (128 + (c / 64) mod 64);
          byte_of_N (128 + c mod 64)]
  else None.

Fixpoint utf8_encode (s : str) : result bytes :=
  match s with
  | [] => inr []
  | c :: s' =>
      match utf8_encode_cp c, utf8_encode s' with
      | Some b, inr bs => inr (b ++ bs)
      | None, _ => inl UnicodeEncodeError
      | _, inl e => inl e
      end
  end.

(** What [upload_from_string] accepts: [bytes] or [str]. *)
Inductive pydata : Type :=
| PyBytes (b : bytes)
| PyStr (s : str).

(** ** [io.BytesIO] *)

Module BytesIO.

Record t : Type := mk { getvalue : bytes; tell : nat }.

(** [io.BytesIO(initial)]: the stream starts at offset 0. *)
Definition new (initial : bytes) : t := mk initial 0.

(** [seek(offset)] from the start of the stream. *)
Definition seek (offset : Z) (io : t) : result t :=
  if (offset <? 0)%Z then inl (ValueError "negative seek value")
  else inr (mk (getvalue io) (Z.to_nat offset)).

(** [seek(0, io.SEEK_END)] *)
Definition seek_end (io : t) : t :=
  mk (getvalue io) (length (getvalue io)).

(** [read(size)]: a negative or missing size reads up to the end of the
    stream; reading at or past the end returns nothing and does not
    move. *)
Definition read (size : option Z) (io : t) : bytes * t :=
  let rest := drop (tell io) (getvalue io) in
  let chunk :=
    match size with
    | None => rest
    | Some n => if (n <? 0)%Z then rest else take (Z.to_nat n) rest
    end in
  (chunk, mk (getvalue io) (tell io + length chunk)).

(** [write(data)] overwrites from the current offset, zero-filling a gap
    when the offset lies past the end; an empty write does nothing. *)
Definition write (data : bytes) (io : t) : t :=
  match data with
  | [] => io
  | _ =>
      let v := getvalue io in
      let p := tell io in
      mk (take p v ++ replicate (p - length v) x00 ++ data
            ++ drop (p + length data) v)
         (p + length data)
  end.

End BytesIO.

(** ** [collections.OrderedDict] with string keys

    An association list in insertion order.  Assigning to a key that is
    present replaces the value in place, a new key goes to the end. *)

Section odict.
Context {V : Type}.

Definition odict : Type := list (string * V).

Fixpoint odict_get (k : string) (d : odict) : option V :=
  match d with
  | [] => None
  | (k', v) :: d' => if decide (k = k') then Some v else odict_get k d'
  end.

Definition odict_contains (k : string) (d : odict) : bool :=
  match odict_get k d with Some _ => true | None => false end.

Fixpoint odict_set (k : string) (v : V) (d : odict) : odict :=
  match d with
  | [] => [(k, v)]
  | (k', v') :: d' =>
      if decide (k = k') then (k, v) :: d' else (k', v') :: odict_set k v d'
  end.

(** [del d[k]]; [None] stands for the [KeyError]. *)
Fixpoint odict_del (k : string) (d : odict) : option odict :=
  match d with
  | [] => None
  | (k', v) :: d' =>
      if decide (k = k') then Some d'
      else match odict_del k d' with
           | Some d'' => Some ((k', v) :: d'')
           | None => None
           end
  end.

(** [d.pop(k)] *)
Definition odict_pop (k : string) (d : odict) : option (V * odict) :=
  match odict_get k d, odict_del k d with
  | Some v, Some d' => Some (v, d')
  | _, _ => None
  end.

(** The effect of [d.setdefault(k, v)] on [d]. *)
Definition odict_setdefault (k : string) (v : V) (d : odict) : odict :=
  if odict_contains k d then d else odict_set k v d.

Definition odict_keys (d : odict) : list string := map fst d.
Definition odict_values (d : odict) : list V := map snd d.

End odict.

Arguments odict : clear implicits.

(** [s.endswith(suffix)] *)
Definition str_endswith (s suffix : string) : bool :=
  let n := String.length s in
  let m := String.length suffix in
  if m <=? n then String.eqb (String.substring (n - m) m s) suffix else false.

(** ** The objects

    A reference is the index of the object in the store of its class;
    Python's default [==] on these classes is identity, that is equality
    of references. *)

Abbreviation ref := nat.

Record FakeCredentials : Type := mkFakeCredentials {
  FakeCredentials_client : ref
}.

Record FakeClient : Type := mkFakeClient {
  FakeClient__credentials : FakeCredentials;
  FakeClient_uploads : odict ref;
  FakeClient___buckets : odict ref
}.

Record FakeBucket : Type := mkFakeBucket {
  FakeBucket_client : ref;
  FakeBucket_name : string;
  FakeBucket_blobs : odict ref;
  FakeBucket__exists : bool
}.

Record FakeBlob : Type := mkFakeBlob {
  FakeBlob_name : string;
  FakeBlob__bucket : ref;
  FakeBlob__exists : bool;
  FakeBlob___contents : BytesIO.t
}.

(** [__contents] becomes [None] once the upload is terminated. *)
Record FakeBlobUpload : Type := mkFakeBlobUpload {
  FakeBlobUpload_url : string;
  FakeBlobUpload_blob : ref;
  FakeBlobUpload__finished : bool;
  FakeBlobUpload___contents : option BytesIO.t
}.

Record FakeResponse : Type := mkFakeResponse {
  status_code : Z;
  text : option string
}.

Record FakeAuthorizedSession : Type := mkFakeAuthorizedSession {
  FakeAuthorizedSession__credentials : FakeCredentials
}.

(** ** The stores and the monad *)

Record heap : Type := mkHeap {
  client_store : list FakeClient;
  bucket_store : list FakeBucket;
  blob_store : list FakeBlob;
  upload_store : list FakeBlobUpload
}.

Definition empty_heap : heap := mkHeap [] [] [] [].

Definition M (A : Type) : Type := heap -> heap * result A.

Definition ret {A : Type} (a : A) : M A := fun h => (h, inr a).

Definition raise {A : Type} (e : exn) : M A := fun h => (h, inl e).

Definition bind {A B : Type} (m : M A) (k : A -> M B) : M B :=
  fun h =>
    match m h with
    | (h', inr a) => k a h'
    | (h', inl e) => (h', inl e)
    end.

Definition lift {A : Type} (r : result A) : M A := fun h => (h, r).

Notation "'let*' x ':=' m 'in' k" := (bind m (fun x => k))
  (at level 10, x name, m at level 100, k at level 200).
Notation "'let*' ' pat ':=' m 'in' k" :=
  (bind m (fun x => match x with pat => k end))
  (at level 10, pat pattern, m at level 100, k at level 200).
Notation "'do*' m 'in' k" := (bind m (fun _ => k))
  (at level 10, m at level 100, k at level 200).

(** Dereferencing, assignment to an object and allocation. *)

Definition load_client (r : ref) : M FakeClient :=
  fun h => (h, from_option inr (inl InvalidHandle) (client_store h !! r)).
Definition load_bucket (r : ref) : M FakeBucket :=
  fun h => (h, from_option inr (inl InvalidHandle) (bucket_store h !! r)).
Definition load_blob (r : ref) : M FakeBlob :=
  fun h => (h, from_option inr (inl InvalidHandle) (blob_store h !! r)).
Definition load_upload (r : ref) : M FakeBlobUpload :=
  fun h => (h, from_option inr (inl InvalidHandle) (upload_store h !! r)).

Definition put_client (r : ref) (o : FakeClient) (h : heap) : heap :=
  mkHeap (<[r:=o]> (client_store h)) (bucket_store h)
         (blob_store h) (upload_store h).
Definition put_bucket (r : ref) (o : FakeBucket) (h : heap) : heap :=
  mkHeap (client_store h) (<[r:=o]> (bucket_store h))
         (blob_store h) (upload_store h).
Definition put_blob (r : ref) (o : FakeBlob) (h : heap) : heap :=
  mkHeap (client_store h) (bucket_store h)
         (<[r:=o]> (blob_store h)) (upload_store h).
Definition put_upload (r : ref) (o : FakeBlobUpload) (h : heap) : heap :=
  mkHeap (client_store h) (bucket_store h)
         (blob_store h) (<[r:=o]> (upload_store h)).

Definition store_client (r : ref) (o : FakeClient) : M unit :=
  fun h => (put_client r o h, inr tt).
Definition store_bucket (r : ref) (o : FakeBucket) : M unit :=
  fun h => (put_bucket r o h, inr tt).
Definition store_blob (r : ref) (o : FakeBlob) : M unit :=
  fun h => (put_blob r o h, inr tt).
Definition store_upload (r : ref) (o : FakeBlobUpload) : M unit :=
  fun h => (put_upload r o h, inr tt).

Definition alloc_client (o : FakeClient) : M ref :=
  fun h => (mkHeap (client_store h ++ [o]) (bucket_store h)
                   (blob_store h) (upload_store h),
            inr (length (client_store h))).
Definition alloc_bucket (o : FakeBucket) : M ref :=
  fun h => (mkHeap (client_store h) (bucket_store h ++ [o])
                   (blob_store h) (upload_store h),
            inr (length (bucket_store h))).
Definition alloc_blob (o : FakeBlob) : M ref :=
  fun h => (mkHeap (client_store h) (bucket_store h)
                   (blob_store h ++ [o]) (upload_store h),
            inr (length (blob_store h))).
Definition alloc_upload (o : FakeBlobUpload) : M ref :=
  fun h => (mkHeap (client_store h) (bucket_store h)
                   (blob_store h) (upload_store h ++ [o]),
            inr (length (upload_store h))).

(** Attribute assignments. *)

Definition set_uploads (d : odict ref) (c : FakeClient) : FakeClient :=
  mkFakeClient (FakeClient__credentials c) d (FakeClient___buckets c).
Definition set___buckets (d : odict ref) (c : FakeClient) : FakeClient :=
  mkFakeClient (FakeClient__credentials c) (FakeClient_uploads c) d.
Definition set_blobs (d : odict ref) (b : FakeBucket) : FakeBucket :=
  mkFakeBucket (FakeBucket_client b) (FakeBucket_name b) d
               (FakeBucket__exists b).
Definition set_bucket__exists (x : bool) (b : FakeBucket) : FakeBucket :=
  mkFakeBucket (FakeBucket_client b) (FakeBucket_name b) (FakeBucket_blobs b) x.
Definition set_blob__exists (x : bool) (b : FakeBlob) : FakeBlob :=
  mkFakeBlob (FakeBlob_name b) (FakeBlob__bucket b) x (FakeBlob___contents b).
Definition set_blob___contents (io : BytesIO.t) (b : FakeBlob) : FakeBlob :=
  mkFakeBlob (FakeBlob_name b) (FakeBlob__bucket b) (FakeBlob__exists b) io.
Definition set__finished (x : bool) (u : FakeBlobUpload) : FakeBlobUpload :=
  mkFakeBlobUpload (FakeBlobUpload_url u) (FakeBlobUpload_blob u) x
                   (FakeBlobUpload___contents u).
Definition set_upload___contents (io : option BytesIO.t) (u : FakeBlobUpload)
  : FakeBlobUpload :=
  mkFakeBlobUpload (FakeBlobUpload_url u) (FakeBlobUpload_blob u)
                   (FakeBlobUpload__finished u) io.

(** ** [FakeClient] *)

(** [FakeClient()]: the default credentials point back at the client. *)
Definition FakeClient_init : M ref :=
  fun h =>
    alloc_client
      (mkFakeClient (mkFakeCredentials (length (client_store h))) [] []) h.

Definition FakeClient_bucket (self : ref) (bucket_id : string) : M ref :=
  let* c := load_client self in
  match odict_get bucket_id (FakeClient___buckets c) with
  | Some b => ret b
  | None => raise (NotFound ("Bucket " +:+ bucket_id +:+ " not found"))
  end.

Definition FakeClient_get_bucket (self : ref) (bucket_id : string) : M ref :=
  FakeClient_bucket self bucket_id.

Definition FakeClient_register_bucket (self bucket : ref) : M unit :=
  let* b := load_bucket bucket in
  let* c := load_client self in
  if odict_contains (FakeBucket_name b) (FakeClient___buckets c)
  then raise (Conflict ("Bucket " +:+ FakeBucket_name b +:+ " already exists"))
  else store_client self
         (set___buckets
            (odict_set (FakeBucket_name b) bucket (FakeClient___buckets c)) c).

Definition FakeClient_delete_bucket (self bucket : ref) : M unit :=
  let* b := load_bucket bucket in
  let* c := load_client self in
  match odict_del (FakeBucket_name b) (FakeClient___buckets c) with
  | Some d => store_client self (set___buckets d c)
  | None => raise (KeyError (FakeBucket_name b))
  end.

Definition FakeClient_register_upload (self upload : ref) : M unit :=
  let* u := load_upload upload in
  let* c := load_client self in
  store_client self
    (set_uploads (odict_set (FakeBlobUpload_url u) upload (FakeClient_uploads c)) c).

(** ** [FakeBucket] *)

(** [FakeBucket(client, name)]: the attributes are assigned first, then
    the bucket registers itself; when that raises, no reference is
    returned and the client is as before. *)
Definition FakeBucket_init (client : ref) (name : string) : M ref :=
  let* self := alloc_bucket (mkFakeBucket client name [] true) in
  do* FakeClient_register_bucket client self in
  ret self.

Definition FakeClient_create_bucket (self : ref) (bucket_id : string) : M ref :=
  let* bucket := FakeBucket_init self bucket_id in
  ret bucket.

Definition FakeBucket_exists (self : ref) : M bool :=
  let* b := load_bucket self in
  ret (FakeBucket__exists b).

Definition FakeBucket_get_blob (self : ref) (blob_id : string) : M ref :=
  let* b := load_bucket self in
  match odict_get blob_id (FakeBucket_blobs b) with
  | Some blob => ret blob
  | None => raise (NotFound ("Blob " +:+ blob_id +:+ " not found"))
  end.

Definition FakeBucket_list_blobs (self : ref) : M (list ref) :=
  let* b := load_bucket self in
  ret (odict_values (FakeBucket_blobs b)).

Definition FakeBucket_delete_blob (self blob : ref) : M unit :=
  let* bl := load_blob blob in
  let* b := load_bucket self in
  match odict_del (FakeBlob_name bl) (FakeBucket_blobs b) with
  | Some d => store_bucket self (set_blobs d b)
  | None => raise (KeyError (FakeBlob_name bl))
  end.

Definition FakeBucket_register_blob (self blob : ref) : M unit :=
  let* bl := load_blob blob in
  let* b := load_bucket self in
  if odict_contains (FakeBlob_name bl) (FakeBucket_blobs b)
  then ret tt
  else store_bucket self
         (set_blobs (odict_set (FakeBlob_name bl) blob (FakeBucket_blobs b)) b).

Definition FakeBucket_register_upload (self upload : ref) : M unit :=
  let* b := load_bucket self in
  FakeClient_register_upload (FakeBucket_client b) upload.

(** ** [FakeBlob] *)

Definition FakeBlob__create_if_not_exists (self : ref) : M unit :=
  let* bl := load_blob self in
  do* FakeBucket_register_blob (FakeBlob__bucket bl) self in
  let* bl := load_blob self in
  store_blob self (set_blob__exists true bl).

(** [FakeBlob(name, bucket)] *)
Definition FakeBlob_init (name : string) (bucket : ref) : M ref :=
  let* self := alloc_blob (mkFakeBlob name bucket false (BytesIO.new [])) in
  do* FakeBlob__create_if_not_exists self in
  ret self.

Definition FakeBlob_delete (self : ref) : M unit :=
  let* bl := load_blob self in
  do* FakeBucket_delete_blob (FakeBlob__bucket bl) self in
  let* bl := load_blob self in
  store_blob self (set_blob__exists false bl).

(** [download_as_bytes(start=0, end=None)]: the default for [end] is read
    off the stream before the seek. *)
Definition FakeBlob_download_as_bytes (self : ref) (start : Z) (end_ : option Z)
  : M bytes :=
  let* bl := load_blob self in
  let e := match end_ with
           | None => Z.of_nat (BytesIO.tell (FakeBlob___contents bl))
           | Some e => e
           end in
  let* io := lift (BytesIO.seek start (FakeBlob___contents bl)) in
  let '(chunk, io') := BytesIO.read (Some (e - start)%Z) io in
  do* store_blob self (set_blob___contents io' bl) in
  ret chunk.

Definition FakeBlob_exists (self : ref) : M bool :=
  let* bl := load_blob self in
  ret (FakeBlob__exists bl).

(** [if isinstance(data, str): data = bytes(data, 'utf8')] *)
Definition as_bytes (data : pydata) : result bytes :=
  match data with
  | PyStr s => utf8_encode s
  | PyBytes b => inr b
  end.

Definition FakeBlob_upload_from_string (self : ref) (data : pydata) : M unit :=
  let* data := lift (as_bytes data) in
  let* bl := load_blob self in
  store_blob self
    (set_blob___contents (BytesIO.seek_end (BytesIO.new data)) bl).

Definition FakeBlob_write (self : ref) (data : pydata) : M unit :=
  FakeBlob_upload_from_string self data.

Definition FakeBlob_bucket (self : ref) : M ref :=
  let* bl := load_blob self in
  ret (FakeBlob__bucket bl).

(** The [size] property. *)
Definition FakeBlob_size (self : ref) : M (option nat) :=
  let* bl := load_blob self in
  if BytesIO.tell (FakeBlob___contents bl) =? 0 then ret None
  else ret (Some (BytesIO.tell (FakeBlob___contents bl))).

(** [bucket.blob(blob_id)]: Python evaluates the default argument of
    [dict.get] first, so a [FakeBlob] is constructed on every call. *)
Definition FakeBucket_blob (self : ref) (blob_id : string) : M ref :=
  let* fresh := FakeBlob_init blob_id self in
  let* b := load_bucket self in
  ret (default fresh (odict_get blob_id (FakeBucket_blobs b))).

(** [for blob in list(self.blobs.values()): blob.delete()] *)
Fixpoint delete_each (blobs : list ref) : M unit :=
  match blobs with
  | [] => ret tt
  | blob :: rest => do* FakeBlob_delete blob in delete_each rest
  end.

Definition FakeBucket_delete (self : ref) : M unit :=
  let* b := load_bucket self in
  do* FakeClient_delete_bucket (FakeBucket_client b) self in
  let* b := load_bucket self in
  do* store_bucket self (set_bucket__exists false b) in
  let* b := load_bucket self in
  delete_each (odict_values (FakeBucket_blobs b)).

(** ** [FakeBlobUpload] *)

Definition FakeBlobUpload_init (url : string) (blob : ref) : M ref :=
  alloc_upload (mkFakeBlobUpload url blob false (Some (BytesIO.new []))).

Definition FakeBlobUpload_write (self : ref) (data : bytes) : M unit :=
  let* u := load_upload self in
  match FakeBlobUpload___contents u with
  | None => raise (AttributeError "'NoneType' object has no attribute 'write'")
  | Some io => store_upload self (set_upload___contents (Some (BytesIO.write data io)) u)
  end.

Definition FakeBlobUpload_finish (self : ref) : M unit :=
  let* u := load_upload self in
  if FakeBlobUpload__finished u then ret tt
  else
    match FakeBlobUpload___contents u with
    | None => raise (AttributeError "'NoneType' object has no attribute 'seek'")
    | Some io =>
        let* io := lift (BytesIO.seek 0 io) in
        let '(data, io') := BytesIO.read None io in
        do* store_upload self (set_upload___contents (Some io') u) in
        do* FakeBlob_upload_from_string (FakeBlobUpload_blob u) (PyBytes data) in
        let* u := load_upload self in
        store_upload self (set__finished true u)
    end.

Definition FakeBlobUpload_terminate (self : ref) : M unit :=
  let* u := load_upload self in
  do* FakeBlob_delete (FakeBlobUpload_blob u) in
  let* u := load_upload self in
  store_upload self (set_upload___contents None u).

(** ** The resumable-upload protocol

    Three names that the module takes from outside the repository are
    parameters here: the URL template (as the function that fills in the
    bucket name and the upload id), [smart_open.gcs._UNKNOWN] and
    [smart_open.gcs._UPLOAD_INCOMPLETE_STATUS_CODES]. *)

(** The body of a [put]: raw bytes, or an object with a [read] method. *)
Inductive put_data : Type :=
| RawData (b : bytes)
| FileData (f : BytesIO.t).

Section protocol.
Variable RESUMABLE_SESSION_URI_TEMPLATE : string -> string -> string.
Variable _UNKNOWN : string.
Variable _UPLOAD_INCOMPLETE_STATUS_CODES : list Z.

(** [upload_id] is the value of [str(uuid.uuid4())]. *)
Definition FakeBlob_create_resumable_upload_session
    (self : ref) (upload_id : string) : M string :=
  let* bl := load_blob self in
  let* b := load_bucket (FakeBlob__bucket bl) in
  let resumeable_upload_url :=
    RESUMABLE_SESSION_URI_TEMPLATE (FakeBucket_name b) upload_id in
  let* upload := FakeBlobUpload_init resumeable_upload_url self in
  do* FakeBucket_register_upload (FakeBlob__bucket bl) upload in
  ret resumeable_upload_url.

Definition FakeAuthorizedSession_delete
    (self : FakeAuthorizedSession) (upload_url : string) : M unit :=
  let client := FakeCredentials_client (FakeAuthorizedSession__credentials self) in
  let* c := load_client client in
  match odict_pop upload_url (FakeClient_uploads c) with
  | None => raise (KeyError upload_url)
  | Some (upload, d) =>
      do* store_client client (set_uploads d c) in
      FakeBlobUpload_terminate upload
  end.

Definition FakeAuthorizedSession_put
    (self : FakeAuthorizedSession) (url : string) (data : option put_data)
    (headers : option (odict string)) : M FakeResponse :=
  let client := FakeCredentials_client (FakeAuthorizedSession__credentials self) in
  let* c := load_client client in
  match odict_get url (FakeClient_uploads c) with
  | None => raise (KeyError url)
  | Some upload =>
      do* match data with
          | None => ret tt
          | Some (FileData f) =>
              FakeBlobUpload_write upload (fst (BytesIO.read None f))
          | Some (RawData b) => FakeBlobUpload_write upload b
          end in
      match headers with
      | None => raise (AttributeError "'NoneType' object has no attribute 'get'")
      | Some hd =>
          if negb (str_endswith (default "" (odict_get "Content-Range" hd)) _UNKNOWN)
          then
            do* FakeBlobUpload_finish upload in
            ret (mkFakeResponse 200 None)
          else
            match _UPLOAD_INCOMPLETE_STATUS_CODES with
            | code :: _ => ret (mkFakeResponse code None)
            | [] => raise (IndexError "tuple index out of range")
            end
      end
  end.

Definition FakeAuthorizedSession__blob_with_url
    (url : string) (client : ref) : M (option ref) :=
  let* c := load_client client in
  ret (odict_get url (FakeClient_uploads c)).

End protocol.

(** ** Example values *)

Definition b_ (s : string) : bytes := list_byte_of_string s.

Definition example_template (bucket upload_id : string) : string :=
  "https://www.googleapis.com/upload/storage/v1/b/" +:+ bucket
    +:+ "/o?uploadType=resumable&upload_id=" +:+ upload_id.

Definition example_session : FakeAuthorizedSession :=
  mkFakeAuthorizedSession (mkFakeCredentials 0).

Definition example_url : string := example_template "test-bucket" "0001".

(** The [setUp] of the module's test cases: a client and the bucket
    ["test-bucket"]. *)
Definition setUp : M (ref * ref) :=
  let* client := FakeClient_init in
  let* bucket := FakeBucket_init client "test-bucket" in
  ret (client, bucket).

(** What a test observes: the value returned, or the exception. *)
Definition outcome {A : Type} (test : M A) : result A := snd (test empty_heap).

(** ** Vocabulary of the specification *)

(** [content[start:end]] for [0 <= start <= end]. *)
Definition slice (start end_ : nat) (v : bytes) : bytes :=
  take (end_ - start) (drop start v).

(** The bytes a blob holds, whatever its stream position. *)
Definition blob_content (h : heap) (blob : ref) : option bytes :=
  (fun bl => BytesIO.getvalue (FakeBlob___contents bl)) <$> blob_store h !! blob.

(** The staging buffer of an upload; [None] once terminated. *)
Definition upload_buffer (h : heap) (upload : ref) : option bytes :=
  match upload_store h !! upload with
  | Some u => BytesIO.getvalue <$> FakeBlobUpload___contents u
  | None => None
  end.

(** The bytes that a [put] appends. *)
Definition chunk_of (data : option put_data) : bytes :=
  match data with
  | None => []
  | Some (RawData b) => b
  | Some (FileData f) => fst (BytesIO.read None f)
  end.

(** A content-range descriptor declares the total length unknown when the
    [Content-Range] header ends with [_UNKNOWN]. *)
Definition declares_unknown (_UNKNOWN : string) (headers : odict string) : bool :=
  str_endswith (default "" (odict_get "Content-Range" headers)) _UNKNOWN.

(** ** Well-formed heaps

    What Python's object model and the constructors guarantee of every
    heap the methods can produce: references point into their stores, a
    dictionary has each key once, a blob registered in a bucket carries
    the name it is registered under and belongs to that bucket, and an
    upload session registered in a client is the one minted for that URL
    and client, with its staging buffer in place and the stream at the
    end of the buffer. *)

(** The client in which an upload session registers: that of its blob's
    bucket. *)
Definition upload_owner (h : heap) (up : FakeBlobUpload) : option ref :=
  match blob_store h !! FakeBlobUpload_blob up with
  | Some bl => FakeBucket_client <$> bucket_store h !! FakeBlob__bucket bl
  | None => None
  end.

Definition live_upload (up : FakeBlobUpload) : Prop :=
  exists io, FakeBlobUpload___contents up = Some io
             /\ BytesIO.tell io = length (BytesIO.getvalue io).

Definition blob_at (h : heap) (l : ref) (n : string) (b : ref) : Prop :=
  exists bl, blob_store h !! l = Some bl
             /\ FakeBlob_name bl = n /\ FakeBlob__bucket bl = b.

Definition upload_at (h : heap) (u : ref) (url : string) (c : ref) : Prop :=
  exists up, upload_store h !! u = Some up
             /\ FakeBlobUpload_url up = url
             /\ upload_owner h up = Some c
             /\ live_upload up.

Definition client_ok (h : heap) (c : ref) (cl : FakeClient) : Prop :=
  (forall n b, (n, b) ∈ FakeClient___buckets cl -> is_Some (bucket_store h !! b))
  /\ NoDup (odict_keys (FakeClient_uploads cl))
  /\ (forall url u, (url, u) ∈ FakeClient_uploads cl -> upload_at h u url c).

Definition bucket_ok (h : heap) (b : ref) (bk : FakeBucket) : Prop :=
  is_Some (client_store h !! FakeBucket_client bk)
  /\ NoDup (odict_keys (FakeBucket_blobs bk))
  /\ (forall n l, (n, l) ∈ FakeBucket_blobs bk -> blob_at h l n b).

Definition blob_ok (h : heap) (bl : FakeBlob) : Prop :=
  is_Some (bucket_store h !! FakeBlob__bucket bl).

Definition upload_ok (h : heap) (up : FakeBlobUpload) : Prop :=
  is_Some (blob_store h !! FakeBlobUpload_blob up).

Record wf (h : heap) : Prop := mk_wf {
  wf_clients : forall c cl, client_store h !! c = Some cl -> client_ok h c cl;
  wf_buckets : forall b bk, bucket_store h !! b = Some bk -> bucket_ok h b bk;
  wf_blobs : forall l bl, blob_store h !! l = Some bl -> blob_ok h bl;
  wf_uploads : forall u up, upload_store h !! u = Some up -> upload_ok h up
}.

(** [h'] keeps every object of [h] in place, with the attributes that no
    method assigns after construction. *)
Record extends (h h' : heap) : Prop := mk_extends {
  ext_client : forall c,
    is_Some (client_store h !! c) -> is_Some (client_store h' !! c);
  ext_bucket : forall b bk,
    bucket_store h !! b = Some bk ->
    exists bk', bucket_store h' !! b = Some bk'
                /\ FakeBucket_client bk' = FakeBucket_client bk;
  ext_blob : forall l bl,
    blob_store h !! l = Some bl ->
    exists bl', blob_store h' !! l = Some bl'
                /\ FakeBlob_name bl' = FakeBlob_name bl
                /\ FakeBlob__bucket bl' = FakeBlob__bucket bl
}.

(** No client has the upload in its registry. *)
Definition unregistered (h : heap) (u : ref) : Prop :=
  forall c cl url, client_store h !! c = Some cl ->
                   (url, u) ∉ FakeClient_uploads cl.

(** The registries hold live objects only: a bucket registered in a
    client carries the name it is registered under, belongs to that
    client and has its [_exists] flag set, and a blob registered in a
    bucket has its flag set. *)
Definition bucket_at (h : heap) (b : ref) (n : string) (c : ref) : Prop :=
  exists bk, bucket_store h !! b = Some bk
             /\ FakeBucket_name bk = n /\ FakeBucket_client bk = c
             /\ FakeBucket__exists bk = true.

Definition blob_live (h : heap) (l : ref) : Prop :=
  exists bl, blob_store h !! l = Some bl /\ FakeBlob__exists bl = true.

Record live (h : heap) : Prop := mk_live {
  live_keys : forall c cl,
    client_store h !! c = Some cl -> NoDup (odict_keys (FakeClient___buckets cl));
  live_buckets : forall c cl n b,
    client_store h !! c = Some cl ->
    (n, b) ∈ FakeClient___buckets cl -> bucket_at h b n c;
  live_blobs : forall b bk n l,
    bucket_store h !! b = Some bk ->
    (n, l) ∈ FakeBucket_blobs bk -> blob_live h l
}.

(** ** Reachable heaps

    The calls of the public interface that change the heap; the
    arguments are references that exist, as they do in Python. *)

Inductive call : Type :=
| NewClient
| NewBucket (client : ref) (name : string)
| NewBlob (name : string) (bucket : ref)
| BucketBlob (bucket : ref) (blob_id : string)
| BucketDelete (bucket : ref)
| BlobDelete (blob : ref)
| BlobDownload (blob : ref) (start : Z) (end_ : option Z)
| BlobUpload (blob : ref) (data : pydata)
| BlobOpenSession (blob : ref) (upload_id : string)
| SessionPut (session : FakeAuthorizedSession) (url : string)
    (data : option put_data) (headers : option (odict string))
| SessionDelete (session : FakeAuthorizedSession) (url : string).

Definition call_ok (h : heap) (c : call) : Prop :=
  match c with
  | NewClient => True
  | NewBucket client _ => is_Some (client_store h !! client)
  | NewBlob _ bucket | BucketBlob bucket _ | BucketDelete bucket =>
      is_Some (bucket_store h !! bucket)
  | BlobDelete blob | BlobDownload blob _ _ | BlobUpload blob _
  | BlobOpenSession blob _ =>
      is_Some (blob_store h !! blob)
  | SessionPut session _ _ _ | SessionDelete session _ =>
      is_Some (client_store h
                 !! FakeCredentials_client (FakeAuthorizedSession__credentials session))
  end.

Section reachability.
Variable RESUMABLE_SESSION_URI_TEMPLATE : string -> string -> string.
Variable _UNKNOWN : string.
Variable _UPLOAD_INCOMPLETE_STATUS_CODES : list Z.

(** The heap after a call, whether it returned or raised. *)
Definition exec (c : call) (h : heap) : heap :=
  match c with
  | NewClient => fst (FakeClient_init h)
  | NewBucket client name => fst (FakeBucket_init client name h)
  | NewBlob name bucket => fst (FakeBlob_init name bucket h)
  | BucketBlob bucket blob_id => fst (FakeBucket_blob bucket blob_id h)
  | BucketDelete bucket => fst (FakeBucket_delete bucket h)
  | BlobDelete blob => fst (FakeBlob_delete blob h)
  | BlobDownload blob start end_ =>
      fst (FakeBlob_download_as_bytes blob start end_ h)
  | BlobUpload blob data => fst (FakeBlob_upload_from_string blob data h)
  | BlobOpenSession blob upload_id =>
      fst (FakeBlob_create_resumable_upload_session
             RESUMABLE_SESSION_URI_TEMPLATE blob upload_id h)
  | SessionPut session url data headers =>
      fst (FakeAuthorizedSession_put _UNKNOWN _UPLOAD_INCOMPLETE_STATUS_CODES
             session url data headers h)
  | SessionDelete session url => fst (FakeAuthorizedSession_delete session url h)
  end.

Inductive reachable : heap -> Prop :=
| reachable_empty : reachable empty_heap
| reachable_step h c :
    reachable h -> call_ok h c -> reachable (exec c h).

(** A script of calls, run from a heap, and the condition that each call
    is made on references that exist. *)
Fixpoint run_from (h : heap) (calls : list call) : heap :=
  match calls with
  | [] => h
  | c :: calls' => run_from (exec c h) calls'
  end.

Fixpoint calls_ok (h : heap) (calls : list call) : Prop :=
  match calls with
  | [] => True
  | c :: calls' => call_ok h c /\ calls_ok (exec c h) calls'
  end.

End reachability.

(** ** Example scripts

    The values that [smart_open.gcs] gives the two constants, and the
    fixtures of the module's unit tests as scripts. *)

Definition example_UNKNOWN : string := "*".
Definition example_STATUS_CODES : list Z := [308%Z].

Definition run (calls : list call) : heap :=
  run_from example_template example_UNKNOWN example_STATUS_CODES empty_heap calls.

Definition example_put :=
  FakeAuthorizedSession_put example_UNKNOWN example_STATUS_CODES example_session.

Definition script_blob : list call :=
  [NewClient; NewBucket 0 "test-bucket"; NewBlob "test-blob" 0].

(** The blob with the content [b"test"]. *)
Definition script_written : list call :=
  script_blob ++ [BlobUpload 0 (PyBytes (b_ "test"))].

Definition script_session : list call :=
  script_blob ++ [BlobOpenSession 0 "0001"].

Definition headers_unknown : odict string :=
  [("Content-Range", "bytes 0-3/*"); ("Content-Length", "4")].

Definition headers_known : odict string :=
  [("Content-Range", "bytes 0-3/4"); ("Content-Length", "4")].


(** A session that has finished with the content [b"a"]. *)
Definition script_finished : list call :=
  script_session
    ++ [SessionPut example_session example_url
          (Some (RawData (b_ "a"))) (Some headers_known)].

(** A bucket deleted once, to which a blob was added afterwards. *)
Definition script_deleted_bucket : list call :=
  [NewClient; NewBucket 0 "test-bucket"; BucketDelete 0; NewBlob "blob.txt" 0].

(** A bucket (number 1) that was never deleted, but whose name was taken
    out of the client by a second [delete()] of its deleted namesake
    (number 0), and a blob constructed in it. *)
Definition script_shadowed_bucket : list call :=
  [NewClient; NewBucket 0 "test-bucket"; BucketDelete 0;
   NewBucket 0 "test-bucket"; BucketDelete 0; NewBlob "blob.txt" 1].

(** A session whose target blob was deleted behind its back. *)
Definition script_orphan_session : list call :=
  script_session ++ [BlobDelete 0].

(** ** A chunked upload

    The caller's side of the protocol: the chunks are sent one [put] after
    the other under the same headers, and the responses are collected. *)
Fixpoint put_each (_UNKNOWN : string) (_UPLOAD_INCOMPLETE_STATUS_CODES : list Z)
    (session : FakeAuthorizedSession) (url : string) (headers : odict string)
    (chunks : list (option put_data)) : M (list FakeResponse) :=
  match chunks with
  | [] => ret []
  | data :: rest =>
      let* response :=
        FakeAuthorizedSession_put _UNKNOWN _UPLOAD_INCOMPLETE_STATUS_CODES
          session url data (Some headers) in
      let* responses :=
        put_each _UNKNOWN _UPLOAD_INCOMPLETE_STATUS_CODES session url headers rest in
      ret (response :: responses)
  end.

(** * Verification *)

(** ** The module's unit tests, replayed on the embedding *)

Example test_blob_registers_with_bucket :
  outcome (let* '(client, bucket) := setUp in
           let* expected := FakeBlob_init "blob.txt" bucket in
           let* actual := FakeBucket_blob bucket "blob.txt" in
           ret (bool_decide (actual = expected)))
  = inr true.
Proof. reflexivity. Qed.

Example test_bucket_delete :
  outcome (let* '(client, bucket) := setUp in
           let* blob := FakeBlob_init "blob.txt" bucket in
           do* FakeBucket_delete bucket in
           let* b := FakeBucket_exists bucket in
           let* e := FakeBlob_exists blob in
           ret (b, e))
  = inr (false, false).
Proof. reflexivity. Qed.

Example test_get_nonexistent_blob :
  outcome (let* '(client, bucket) := setUp in
           FakeBucket_get_blob bucket "test-blob")
  = inl (NotFound "Blob test-blob not found").
Proof. reflexivity. Qed.

Example test_list_blobs :
  outcome (let* '(client, bucket) := setUp in
           let* blob_one := FakeBucket_blob bucket "blob_one.avro" in
           let* blob_two := FakeBucket_blob bucket "blob_two.parquet" in
           let* actual := FakeBucket_list_blobs bucket in
           ret (bool_decide (actual = [blob_one; blob_two])))
  = inr true.
Proof. reflexivity. Qed.

Example test_blob_delete :
  outcome (let* '(client, bucket) := setUp in
           let* blob := FakeBlob_init "fake-blob" bucket in
           do* FakeBlob_delete blob in
           let* e := FakeBlob_exists blob in
           let* l := FakeBucket_list_blobs bucket in
           ret (e, l))
  = inr (false, []).
Proof. reflexivity. Qed.

Example test_upload_download :
  outcome (let* '(client, bucket) := setUp in
           let* blob := FakeBlob_init "fake-blob" bucket in
           do* FakeBlob_upload_from_string blob (PyBytes (b_ "test")) in
           let* r1 := FakeBlob_download_as_bytes blob 0 None in
           let* r2 := FakeBlob_download_as_bytes blob 2 None in
           let* r3 := FakeBlob_download_as_bytes blob 0 (Some 2%Z) in
           let* r4 := FakeBlob_download_as_bytes blob 2 (Some 3%Z) in
           ret [r1; r2; r3; r4])
  = inr [b_ "test"; b_ "st"; b_ "te"; b_ "s"].
Proof. reflexivity. Qed.

Example test_size :
  outcome (let* '(client, bucket) := setUp in
           let* blob := FakeBlob_init "fake-blob" bucket in
           let* before := FakeBlob_size blob in
           do* FakeBlob_upload_from_string blob (PyBytes (b_ "test")) in
           let* after := FakeBlob_size blob in
           ret (before, after))
  = inr (None, Some 4).
Proof. reflexivity. Qed.

Example test_nonexistent_bucket :
  outcome (let* client := FakeClient_init in
           FakeClient_bucket client "test-bucket")
  = inl (NotFound "Bucket test-bucket not found").
Proof. reflexivity. Qed.

Example test_duplicate_bucket :
  outcome (let* '(client, bucket) := setUp in
           FakeBucket_init client "test-bucket")
  = inl (Conflict "Bucket test-bucket already exists").
Proof. reflexivity. Qed.

Example test_create_bucket :
  outcome (let* client := FakeClient_init in
           let* bucket := FakeClient_create_bucket client "test-bucket" in
           let* actual := FakeClient_get_bucket client "test-bucket" in
           ret (bool_decide (actual = bucket)))
  = inr true.
Proof. reflexivity. Qed.

Example test_session_delete :
  outcome (let* '(client, bucket) := setUp in
           let* blob := FakeBlob_init "test-blob" bucket in
           let* upload_url :=
             FakeBlob_create_resumable_upload_session example_template blob "0001" in
           do* FakeAuthorizedSession_delete example_session upload_url in
           let* e := FakeBlob_exists blob in
           let* c := load_client client in
           ret (e, FakeClient_uploads c))
  = inr (false, []).
Proof. reflexivity. Qed.

Example test_unfinished_put_does_not_write_to_blob :
  outcome (let* '(client, bucket) := setUp in
           let* blob := FakeBlob_init "test-blob" bucket in
           let* upload_url :=
             FakeBlob_create_resumable_upload_session example_template blob "0001" in
           let* response :=
             example_put upload_url (Some (FileData (BytesIO.new (b_ "test"))))
               (Some headers_unknown) in
           let* blob_contents := FakeBlob_download_as_bytes blob 0 None in
           ret (bool_decide (status_code response ∈ example_STATUS_CODES),
                blob_contents))
  = inr (true, []).
Proof. reflexivity. Qed.

Example test_finished_put_writes_to_blob :
  outcome (let* '(client, bucket) := setUp in
           let* blob := FakeBlob_init "test-blob" bucket in
           let* upload_url :=
             FakeBlob_create_resumable_upload_session example_template blob "0001" in
           let* response :=
             example_put upload_url (Some (FileData (BytesIO.new (b_ "test"))))
               (Some headers_known) in
           let* blob_contents := FakeBlob_download_as_bytes blob 0 None in
           ret (status_code response, blob_contents))
  = inr (200%Z, b_ "test").
Proof. reflexivity. Qed.

(** ** Well-formedness, unfolded *)

Lemma wf_bucket_keys h :
  wf h -> forall b bk,
  bucket_store h !! b = Some bk -> NoDup (odict_keys (FakeBucket_blobs bk)).
Proof. intros Hwf b bk Hbk. apply (wf_buckets h Hwf b bk Hbk). Qed.

Lemma wf_bucket_blobs h :
  wf h -> forall b bk n l,
  bucket_store h !! b = Some bk ->
  (n, l) ∈ FakeBucket_blobs bk ->
  exists bl, blob_store h !! l = Some bl
             /\ FakeBlob_name bl = n /\ FakeBlob__bucket bl = b.
Proof.
  intros Hwf b bk n l Hbk Hin.
  destruct (wf_buckets h Hwf b bk Hbk) as (_ & _ & H). apply (H n l Hin).
Qed.

Lemma wf_upload_blob h :
  wf h -> forall u up,
  upload_store h !! u = Some up ->
  is_Some (blob_store h !! FakeBlobUpload_blob up).
Proof. intros Hwf u up Hup. apply (wf_uploads h Hwf u up Hup). Qed.

Lemma wf_uploads_keys h :
  wf h -> forall c cl,
  client_store h !! c = Some cl -> NoDup (odict_keys (FakeClient_uploads cl)).
Proof. intros Hwf c cl Hcl. apply (wf_clients h Hwf c cl Hcl). Qed.

Lemma wf_client_uploads h :
  wf h -> forall c cl url u,
  client_store h !! c = Some cl ->
  (url, u) ∈ FakeClient_uploads cl ->
  exists up, upload_store h !! u = Some up
             /\ FakeBlobUpload_url up = url
             /\ upload_owner h up = Some c
             /\ live_upload up.
Proof.
  intros Hwf c cl url u Hcl Hin.
  destruct (wf_clients h Hwf c cl Hcl) as (_ & _ & H). apply (H url u Hin).
Qed.

(** ** The monad and the stores *)

Lemma bind_ok {A B : Type} (m : M A) (k : A -> M B) h h' a :
  m h = (h', inr a) -> bind m k h = k a h'.
Proof. unfold bind. now intros ->. Qed.

Lemma bind_raise {A B : Type} (m : M A) (k : A -> M B) h h' e :
  m h = (h', inl e) -> bind m k h = (h', inl e).
Proof. unfold bind. now intros ->. Qed.

Lemma load_client_ok h r o :
  client_store h !! r = Some o -> load_client r h = (h, inr o).
Proof. unfold load_client. now intros ->. Qed.

Lemma load_bucket_ok h r o :
  bucket_store h !! r = Some o -> load_bucket r h = (h, inr o).
Proof. unfold load_bucket. now intros ->. Qed.

Lemma load_blob_ok h r o :
  blob_store h !! r = Some o -> load_blob r h = (h, inr o).
Proof. unfold load_blob. now intros ->. Qed.

Lemma load_upload_ok h r o :
  upload_store h !! r = Some o -> load_upload r h = (h, inr o).
Proof. unfold load_upload. now intros ->. Qed.

Lemma lookup_insert_Some {A : Type} (l : list A) i x y :
  l !! i = Some y -> <[i:=x]> l !! i = Some x.
Proof. intros H. apply list_lookup_insert_eq. eapply lookup_lt_Some, H. Qed.

Lemma lookup_alloc {A : Type} (l : list A) x : (l ++ [x]) !! length l = Some x.
Proof. rewrite lookup_app_r by lia. now rewrite Nat.sub_diag. Qed.

Lemma lookup_alloc_old {A : Type} (l : list A) x i y :
  l !! i = Some y -> (l ++ [x]) !! i = Some y.
Proof. intros H. rewrite lookup_app_l; [exact H|]. eapply lookup_lt_Some, H. Qed.

(** ** [io.BytesIO] *)

Lemma seek_ok offset io :
  (0 <= offset)%Z ->
  BytesIO.seek offset io = inr (BytesIO.mk (BytesIO.getvalue io) (Z.to_nat offset)).
Proof.
  intros H. unfold BytesIO.seek.
  destruct (Z.ltb_spec offset 0) as [Hlt|_]; [lia|reflexivity].
Qed.

Lemma seek_negative offset io :
  (offset < 0)%Z ->
  BytesIO.seek offset io = inl (ValueError "negative seek value").
Proof.
  intros H. unfold BytesIO.seek.
  destruct (Z.ltb_spec offset 0) as [_|Hge]; [reflexivity|lia].
Qed.

(** Reading a non-negative count moves to the requested end, or to the end
    of the data when that comes first. *)
Lemma read_tell (n : Z) io :
  (0 <= n)%Z ->
  BytesIO.tell io <= length (BytesIO.getvalue io) ->
  BytesIO.tell (snd (BytesIO.read (Some n) io))
  = Nat.min (BytesIO.tell io + Z.to_nat n) (length (BytesIO.getvalue io)).
Proof.
  intros Hn Hp. unfold BytesIO.read. simpl.
  destruct (Z.ltb_spec n 0) as [Hlt|_]; [lia|].
  rewrite length_take, length_drop. lia.
Qed.

(** A write at the end of the data appends. *)
Lemma write_at_end data io :
  BytesIO.tell io = length (BytesIO.getvalue io) ->
  BytesIO.write data io
  = BytesIO.mk (BytesIO.getvalue io ++ data)
               (length (BytesIO.getvalue io ++ data)).
Proof.
  intros Hp. destruct io as [v p]. simpl in *. subst p.
  unfold BytesIO.write. simpl. destruct data as [|d data].
  - now rewrite app_nil_r.
  - rewrite firstn_all, Nat.sub_diag. simpl.
    rewrite skipn_all2 by lia. rewrite app_nil_r.
    f_equal. rewrite length_app. reflexivity.
Qed.

(** Rewinding and reading everything returns the whole buffer and leaves
    the stream at its end. *)
Lemma read_all io io0 :
  BytesIO.seek 0 io = inr io0 ->
  BytesIO.read None io0
  = (BytesIO.getvalue io,
     BytesIO.mk (BytesIO.getvalue io) (length (BytesIO.getvalue io))).
Proof.
  unfold BytesIO.seek. simpl. intros [= <-].
  unfold BytesIO.read. simpl. reflexivity.
Qed.

(** ** [OrderedDict] *)

Section odict_facts.
Context {V : Type}.
Implicit Types (d : odict V) (k : string) (v : V).

Lemma odict_contains_true k d :
  odict_contains k d = true <-> is_Some (odict_get k d).
Proof.
  unfold odict_contains. destruct (odict_get k d); split; intros H;
    try done; try (by eexists).
Qed.

Lemma odict_contains_false k d :
  odict_contains k d = false <-> odict_get k d = None.
Proof. unfold odict_contains. destruct (odict_get k d); by split. Qed.

Lemma odict_get_set k v d : odict_get k (odict_set k v d) = Some v.
Proof.
  induction d as [|[k' v'] d IH]; simpl.
  - by rewrite decide_True.
  - destruct (decide (k = k')) as [->|Hne]; simpl.
    + by rewrite decide_True.
    + by rewrite decide_False.
Qed.

Lemma odict_get_set_ne k k' v d :
  k <> k' -> odict_get k' (odict_set k v d) = odict_get k' d.
Proof.
  intros Hne. induction d as [|[k0 v0] d IH]; simpl.
  - by rewrite decide_False.
  - destruct (decide (k = k0)) as [->|Hne0]; simpl.
    + by rewrite !decide_False.
    + by rewrite IH.
Qed.

Lemma odict_set_absent k v d :
  odict_get k d = None -> odict_set k v d = d ++ [(k, v)].
Proof.
  induction d as [|[k' v'] d IH]; simpl; [done|].
  destruct (decide (k = k')); [done|]. intros H. by rewrite IH.
Qed.

Lemma odict_get_setdefault k v d :
  odict_get k (odict_setdefault k v d) = Some (default v (odict_get k d)).
Proof.
  unfold odict_setdefault, odict_contains.
  destruct (odict_get k d) as [v'|] eqn:E; simpl; [done|].
  apply odict_get_set.
Qed.

Lemma odict_get_setdefault_ne k k' v d :
  k <> k' -> odict_get k' (odict_setdefault k v d) = odict_get k' d.
Proof.
  intros Hne. unfold odict_setdefault.
  destruct (odict_contains k d); [done|]. by apply odict_get_set_ne.
Qed.

Lemma odict_setdefault_present k v d :
  is_Some (odict_get k d) -> odict_setdefault k v d = d.
Proof.
  intros H. unfold odict_setdefault.
  by rewrite (proj2 (odict_contains_true k d) H).
Qed.

Lemma odict_del_is_Some k d :
  is_Some (odict_get k d) -> is_Some (odict_del k d).
Proof.
  induction d as [|[k' v'] d IH]; simpl; [by intros []|].
  destruct (decide (k = k')); [by eexists|].
  intros H. destruct (IH H) as [d' ->]. by eexists.
Qed.

Lemma odict_del_None k d :
  odict_get k d = None -> odict_del k d = None.
Proof.
  induction d as [|[k' v'] d IH]; simpl; [done|].
  destruct (decide (k = k')); [done|]. intros H. by rewrite IH.
Qed.

Lemma odict_get_del_ne k k' d d' :
  odict_del k d = Some d' -> k <> k' -> odict_get k' d' = odict_get k' d.
Proof.
  revert d'. induction d as [|[k0 v0] d IH]; simpl; intros d' Hd Hne; [done|].
  destruct (decide (k = k0)) as [->|Hne0].
  - injection Hd as <-. by rewrite decide_False.
  - destruct (odict_del k d) as [d''|] eqn:E; [|done].
    injection Hd as <-. simpl. by rewrite (IH d'' eq_refl Hne).
Qed.

Lemma odict_get_None_keys k d :
  odict_get k d = None <-> k ∉ odict_keys d.
Proof.
  unfold odict_keys. induction d as [|[k' v'] d IH]; simpl.
  - split; [intros _; apply not_elem_of_nil|done].
  - rewrite not_elem_of_cons. destruct (decide (k = k')) as [->|Hne].
    + split; [done|]. by intros [? _].
    + rewrite IH. split; [by split|by intros [_ ?]].
Qed.

Lemma odict_get_del k d d' :
  NoDup (odict_keys d) -> odict_del k d = Some d' -> odict_get k d' = None.
Proof.
  unfold odict_keys. revert d'.
  induction d as [|[k0 v0] d IH]; simpl; intros d' Hnd Hd; [done|].
  apply NoDup_cons in Hnd as [Hk0 Hnd].
  destruct (decide (k = k0)) as [->|Hne0].
  - injection Hd as <-. by apply odict_get_None_keys.
  - destruct (odict_del k d) as [d''|] eqn:E; [|done].
    injection Hd as <-. simpl. rewrite decide_False by done. by apply IH.
Qed.

End odict_facts.

Section odict_membership.
Context {V : Type}.
Implicit Types (d : odict V) (k : string) (v : V).

Lemma odict_get_elem_of k v d : odict_get k d = Some v -> (k, v) ∈ d.
Proof.
  induction d as [|[k' v'] d IH]; simpl; [done|].
  destruct (decide (k = k')) as [->|Hne].
  - intros [= ->]. apply list_elem_of_here.
  - intros H. apply list_elem_of_further, IH, H.
Qed.

Lemma elem_of_keys k v d : (k, v) ∈ d -> k ∈ odict_keys d.
Proof.
  intros H. unfold odict_keys. apply list_elem_of_fmap.
  exists (k, v). by split.
Qed.

Lemma elem_of_odict_get k v d :
  NoDup (odict_keys d) -> (k, v) ∈ d -> odict_get k d = Some v.
Proof.
  unfold odict_keys.
  induction d as [|[k' v'] d IH]; simpl; intros Hnd Hin.
  - by apply elem_of_nil in Hin.
  - apply NoDup_cons in Hnd as [Hk' Hnd].
    apply elem_of_cons in Hin as [[= -> ->]|Hin].
    + by rewrite decide_True.
    + destruct (decide (k = k')) as [->|Hne]; [|by apply IH].
      exfalso. apply Hk'. eapply elem_of_keys, Hin.
Qed.

Lemma odict_del_subseteq k d d' :
  odict_del k d = Some d' -> d' ⊆ d.
Proof.
  revert d'. induction d as [|[k0 v0] d IH]; simpl; intros d' Hd; [done|].
  destruct (decide (k = k0)) as [->|Hne0].
  - injection Hd as <-. intros x Hx. by apply list_elem_of_further.
  - destruct (odict_del k d) as [d''|] eqn:E; [|done].
    injection Hd as <-. intros x Hx.
    apply elem_of_cons in Hx as [->|Hx].
    + apply list_elem_of_here.
    + apply list_elem_of_further. by apply (IH d'').
Qed.

Lemma odict_del_keys_NoDup k d d' :
  NoDup (odict_keys d) -> odict_del k d = Some d' -> NoDup (odict_keys d').
Proof.
  unfold odict_keys. revert d'.
  induction d as [|[k0 v0] d IH]; simpl; intros d' Hnd Hd; [done|].
  apply NoDup_cons in Hnd as [Hk0 Hnd].
  destruct (decide (k = k0)) as [->|Hne0].
  - by injection Hd as <-.
  - destruct (odict_del k d) as [d''|] eqn:E; [|done].
    injection Hd as <-. simpl. apply NoDup_cons. split; [|by apply IH].
    intros Hin. apply Hk0.
    apply list_elem_of_fmap in Hin as [[k1 v1] [-> Hin]].
    apply (elem_of_keys _ v1). by apply (odict_del_subseteq k d d'').
Qed.

Lemma odict_set_elem_of k v k' v' d :
  (k', v') ∈ odict_set k v d -> (k' = k /\ v' = v) \/ (k', v') ∈ d.
Proof.
  induction d as [|[k0 v0] d IH]; simpl.
  - intros H. apply list_elem_of_singleton in H as [= -> ->]. by left.
  - destruct (decide (k = k0)) as [->|Hne].
    + intros H. apply elem_of_cons in H as [[= -> ->]|H]; [by left|].
      right. by apply list_elem_of_further.
    + intros H. apply elem_of_cons in H as [[= -> ->]|H].
      * right. apply list_elem_of_here.
      * destruct (IH H) as [?|?]; [by left|].
        right. by apply list_elem_of_further.
Qed.

Lemma odict_set_elem_of_ne k v k' v' d :
  (k', v') ∈ odict_set k v d -> k' <> k -> (k', v') ∈ d.
Proof.
  induction d as [|[k0 v0] d IH]; simpl.
  - intros H Hne. apply list_elem_of_singleton in H as [= -> ->]. done.
  - destruct (decide (k = k0)) as [->|Hne0].
    + intros H Hne. apply elem_of_cons in H as [[= -> ->]|H]; [done|].
      by apply list_elem_of_further.
    + intros H Hne. apply elem_of_cons in H as [[= -> ->]|H].
      * apply list_elem_of_here.
      * apply list_elem_of_further. by apply IH.
Qed.

Lemma odict_set_keys_NoDup k v d :
  NoDup (odict_keys d) -> NoDup (odict_keys (odict_set k v d)).
Proof.
  unfold odict_keys. induction d as [|[k0 v0] d IH]; simpl; intros Hnd.
  - apply NoDup_singleton.
  - apply NoDup_cons in Hnd as [Hk0 Hnd].
    destruct (decide (k = k0)) as [->|Hne]; simpl.
    + by apply NoDup_cons.
    + apply NoDup_cons. split; [|by apply IH].
      intros Hin. apply Hk0.
      apply list_elem_of_fmap in Hin as [[k1 v1] [-> Hin]]. simpl in *.
      apply (elem_of_keys _ v1). apply (odict_set_elem_of_ne k v); [done|].
      simpl. congruence.
Qed.

End odict_membership.

Lemma odict_setdefault_elem_of {V : Type} k (v : V) k' v' d :
  (k', v') ∈ odict_setdefault k v d -> (k' = k /\ v' = v) \/ (k', v') ∈ d.
Proof.
  unfold odict_setdefault. destruct (odict_contains k d); [by right|].
  apply odict_set_elem_of.
Qed.

Lemma odict_setdefault_keys_NoDup {V : Type} k (v : V) d :
  NoDup (odict_keys d) -> NoDup (odict_keys (odict_setdefault k v d)).
Proof.
  unfold odict_setdefault. destruct (odict_contains k d); [done|].
  apply odict_set_keys_NoDup.
Qed.

(** ** [FakeBlob]: reading and writing *)

Lemma FakeBlob_exists_ok h self bl :
  blob_store h !! self = Some bl ->
  FakeBlob_exists self h = (h, inr (FakeBlob__exists bl)).
Proof.
  intros H. unfold FakeBlob_exists.
  now rewrite (bind_ok _ _ _ _ _ (load_blob_ok _ _ _ H)).
Qed.

Lemma FakeBlob_size_ok h self bl :
  blob_store h !! self = Some bl ->
  FakeBlob_size self h
  = (h, inr (if BytesIO.tell (FakeBlob___contents bl) =? 0 then None
             else Some (BytesIO.tell (FakeBlob___contents bl)))).
Proof.
  intros H. unfold FakeBlob_size.
  rewrite (bind_ok _ _ _ _ _ (load_blob_ok _ _ _ H)).
  now destruct (BytesIO.tell (FakeBlob___contents bl) =? 0).
Qed.

Lemma FakeBlob_download_as_bytes_ok h self bl start end_ :
  blob_store h !! self = Some bl ->
  (0 <= start)%Z ->
  let e := match end_ with
           | None => Z.of_nat (BytesIO.tell (FakeBlob___contents bl))
           | Some e => e
           end in
  let r := BytesIO.read (Some (e - start)%Z)
             (BytesIO.mk (BytesIO.getvalue (FakeBlob___contents bl))
                         (Z.to_nat start)) in
  FakeBlob_download_as_bytes self start end_ h
  = (put_blob self (set_blob___contents (snd r) bl) h, inr (fst r)).
Proof.
  intros H Hs e r. unfold FakeBlob_download_as_bytes.
  rewrite (bind_ok _ _ _ _ _ (load_blob_ok _ _ _ H)).
  fold e. unfold lift. unfold bind at 1. rewrite seek_ok by exact Hs.
  fold r. now destruct r.
Qed.

Lemma FakeBlob_download_as_bytes_negative h self bl start end_ :
  blob_store h !! self = Some bl ->
  (start < 0)%Z ->
  FakeBlob_download_as_bytes self start end_ h
  = (h, inl (ValueError "negative seek value")).
Proof.
  intros H Hs. unfold FakeBlob_download_as_bytes.
  rewrite (bind_ok _ _ _ _ _ (load_blob_ok _ _ _ H)).
  unfold lift, bind. now rewrite seek_negative.
Qed.

Lemma FakeBlob_upload_from_string_ok h self bl data bs :
  blob_store h !! self = Some bl ->
  as_bytes data = inr bs ->
  FakeBlob_upload_from_string self data h
  = (put_blob self (set_blob___contents (BytesIO.mk bs (length bs)) bl) h,
     inr tt).
Proof.
  intros H Hd. unfold FakeBlob_upload_from_string.
  unfold lift, bind at 1. rewrite Hd.
  now rewrite (bind_ok _ _ _ _ _ (load_blob_ok _ _ _ H)).
Qed.

Lemma put_blob_lookup h self bl bl' :
  blob_store h !! self = Some bl ->
  blob_store (put_blob self bl' h) !! self = Some bl'.
Proof. intros H. simpl. eapply lookup_insert_Some, H. Qed.





(** C9 (amended): a range read moves the stream, and [size] reports the
    stream position.  For a blob whose content has length [L > 0], right
    after [download_as_bytes(start, end)] with [0 <= start <= end <= L]
    the [size] property is [end] when [end > 0] and [None] when
    [end = 0], while the stored content is what it was. *)
Theorem C9_size_after_download h self bl start end_ L :
  blob_store h !! self = Some bl ->
  length (BytesIO.getvalue (FakeBlob___contents bl)) = L ->
  0 < L ->
  (0 <= start <= end_)%Z ->
  (end_ <= Z.of_nat L)%Z ->
  exists h' chunk,
    FakeBlob_download_as_bytes self start (Some end_) h = (h', inr chunk)
    /\ FakeBlob_size self h'
       = (h', inr (if (end_ =? 0)%Z then None else Some (Z.to_nat end_)))
    /\ blob_content h' self = Some (BytesIO.getvalue (FakeBlob___contents bl)).
Proof.
  intros H HL Hpos [Hs He] HeL.
  rewrite (FakeBlob_download_as_bytes_ok _ _ _ _ _ H Hs). cbv zeta.
  set (io := BytesIO.mk _ (Z.to_nat start)).
  set (r := BytesIO.read _ io).
  exists (put_blob self (set_blob___contents (snd r) bl) h), (fst r).
  split; [reflexivity|].
  assert (Ht : BytesIO.tell (snd r) = Z.to_nat end_).
  { unfold r. rewrite read_tell; subst io; simpl; lia. }
  split.
  - rewrite (FakeBlob_size_ok _ _ _ (put_blob_lookup _ _ _ _ H)).
    unfold set_blob___contents. cbn [FakeBlob___contents].
    rewrite Ht. f_equal. f_equal.
    destruct (Z.eqb_spec end_ 0) as [->|Hne]; [reflexivity|].
    destruct (Nat.eqb_spec (Z.to_nat end_) 0); [lia|reflexivity].
  - unfold blob_content. now rewrite (put_blob_lookup _ _ _ _ H).
Qed.

Lemma C9_witness :
  exists h' chunk,
    FakeBlob_download_as_bytes 0 2 (Some 3%Z) (run script_written)
    = (h', inr chunk)
    /\ FakeBlob_size 0 h' = (h', inr (Some 3))
    /\ blob_content h' 0 = Some (b_ "test").
Proof.
  apply (C9_size_after_download (run script_written) 0
           (mkFakeBlob "test-blob" 0 true (BytesIO.mk (b_ "test") 4))
           2%Z 3%Z 4); [reflexivity|reflexivity|lia|lia|lia].
Defined.

(** C9, as stated, fails: it bounds [end] only.  On the content [b"test"]
    ([L = 4]), [download_as_bytes(3, 2)] has [0 <= end <= L], reads up to
    the end of the data because the count [end - start] is negative, and
    leaves [size] at 4, not at [end = 2]. *)
Lemma C9_counterexample :
  snd ((do* FakeBlob_download_as_bytes 0 3 (Some 2%Z) in FakeBlob_size 0)
         (run script_written))
  = inr (Some 4).
Proof. reflexivity. Qed.

(** ** [FakeBlob]: construction and deletion *)

Lemma set_blobs_id bk : set_blobs (FakeBucket_blobs bk) bk = bk.
Proof. by destruct bk. Qed.

Lemma put_bucket_id h b bk :
  bucket_store h !! b = Some bk -> put_bucket b bk h = h.
Proof.
  intros H. unfold put_bucket. rewrite (list_insert_id _ _ _ H). by destruct h.
Qed.

Lemma insert_alloc {A : Type} (l : list A) x y :
  <[length l:=y]> (l ++ [x]) = l ++ [y].
Proof.
  rewrite insert_app_r_alt by lia. by rewrite Nat.sub_diag.
Qed.

Lemma FakeBucket_register_blob_ok h self blob bl bk :
  blob_store h !! blob = Some bl ->
  bucket_store h !! self = Some bk ->
  FakeBucket_register_blob self blob h
  = (put_bucket self
       (set_blobs (odict_setdefault (FakeBlob_name bl) blob (FakeBucket_blobs bk)) bk)
       h, inr tt).
Proof.
  intros Hbl Hbk. unfold FakeBucket_register_blob.
  rewrite (bind_ok _ _ _ _ _ (load_blob_ok _ _ _ Hbl)).
  rewrite (bind_ok _ _ _ _ _ (load_bucket_ok _ _ _ Hbk)).
  unfold odict_setdefault.
  destruct (odict_contains (FakeBlob_name bl) (FakeBucket_blobs bk)); [|done].
  by rewrite set_blobs_id, (put_bucket_id _ _ _ Hbk).
Qed.

Lemma FakeBlob__create_if_not_exists_ok h self bl bk :
  blob_store h !! self = Some bl ->
  bucket_store h !! FakeBlob__bucket bl = Some bk ->
  FakeBlob__create_if_not_exists self h
  = (put_blob self (set_blob__exists true bl)
       (put_bucket (FakeBlob__bucket bl)
          (set_blobs
             (odict_setdefault (FakeBlob_name bl) self (FakeBucket_blobs bk)) bk)
          h),
     inr tt).
Proof.
  intros Hbl Hbk. unfold FakeBlob__create_if_not_exists.
  rewrite (bind_ok _ _ _ _ _ (load_blob_ok _ _ _ Hbl)).
  rewrite (bind_ok _ _ _ _ _ (FakeBucket_register_blob_ok _ _ _ _ _ Hbl Hbk)).
  by rewrite (bind_ok _ _ _ _ _ (load_blob_ok (put_bucket _ _ h) _ _ Hbl)).
Qed.

(** The constructor of a blob always succeeds on a live bucket
    reference: the new object is allocated at the next free index, is
    marked existing, and takes the name in the bucket only when the name
    is free. *)
Lemma FakeBlob_init_ok h name bucket bk :
  bucket_store h !! bucket = Some bk ->
  FakeBlob_init name bucket h
  = (mkHeap (client_store h)
       (<[bucket:=set_blobs
            (odict_setdefault name (length (blob_store h)) (FakeBucket_blobs bk)) bk]>
          (bucket_store h))
       (blob_store h ++ [mkFakeBlob name bucket true (BytesIO.new [])])
       (upload_store h),
     inr (length (blob_store h))).
Proof.
  intros Hbk. unfold FakeBlob_init, alloc_blob. unfold bind at 1.
  set (new := mkFakeBlob name bucket false (BytesIO.new [])).
  set (h0 := mkHeap _ _ (blob_store h ++ [new]) _).
  assert (Hnew : blob_store h0 !! length (blob_store h) = Some new)
    by apply lookup_alloc.
  rewrite (bind_ok _ _ _ _ _
             (FakeBlob__create_if_not_exists_ok h0 _ new bk Hnew Hbk)).
  unfold ret, put_blob, put_bucket. cbn -[odict_setdefault].
  by rewrite insert_alloc.
Qed.

(** C2 (amended): [size] is [None] on a blob as constructed, before any
    write or range read has touched its stream, and right after every
    [write(data)] / [upload_from_string(data)] it is the exact byte
    length of [data] when that length is positive and [None] when [data]
    is zero-length: [size] reads the stream position, and position 0 is
    reported as absent. *)
Theorem C2_size_absent_then_byte_length :
  (forall h name bucket bk,
     bucket_store h !! bucket = Some bk ->
     exists h' self,
       FakeBlob_init name bucket h = (h', inr self)
       /\ FakeBlob_size self h' = (h', inr None))
  /\ (forall h self bl data bs,
        blob_store h !! self = Some bl ->
        as_bytes data = inr bs ->
        exists h',
          FakeBlob_write self data h = (h', inr tt)
          /\ FakeBlob_upload_from_string self data h = (h', inr tt)
          /\ FakeBlob_size self h'
             = (h', inr (if length bs =? 0 then None else Some (length bs)))).
Proof.
  split.
  - intros h name bucket bk Hbk. do 2 eexists. split.
    + apply (FakeBlob_init_ok _ _ _ _ Hbk).
    + apply (FakeBlob_size_ok _ _ (mkFakeBlob name bucket true (BytesIO.new []))).
      apply lookup_alloc.
  - intros h self bl data bs Hbl Hd. eexists. unfold FakeBlob_write.
    split; [|split]; try apply (FakeBlob_upload_from_string_ok _ _ _ _ _ Hbl Hd).
    by rewrite (FakeBlob_size_ok _ _ _ (put_blob_lookup _ _ _ _ Hbl)).
Qed.

Lemma C2_witness :
  (exists h' self,
     FakeBlob_init "fake-blob" 0 (run script_blob) = (h', inr self)
     /\ FakeBlob_size self h' = (h', inr None))
  /\ (exists h',
        FakeBlob_write 0 (PyBytes (b_ "test")) (run script_blob) = (h', inr tt)
        /\ FakeBlob_upload_from_string 0 (PyBytes (b_ "test")) (run script_blob)
           = (h', inr tt)
        /\ FakeBlob_size 0 h' = (h', inr (Some 4))).
Proof.
  destruct C2_size_absent_then_byte_length as [A B]. split.
  - apply (A (run script_blob) "fake-blob" 0
             (mkFakeBucket 0 "test-bucket" [("test-blob", 0)] true)).
    reflexivity.
  - apply (B (run script_blob) 0
             (mkFakeBlob "test-blob" 0 true (BytesIO.new []))
             (PyBytes (b_ "test")) (b_ "test")); reflexivity.
Defined.

(** C2, as stated, fails twice.  A zero-length write leaves [size] absent,
    not present: after [write(b"")] the property is [None].  And a blob
    that was never written has a present [size] once a range read has
    moved its stream: after [download_as_bytes(3, 5)] on the new blob the
    property is [3]. *)
Lemma C2_counterexample :
  snd ((do* FakeBlob_write 0 (PyBytes []) in FakeBlob_size 0) (run script_blob))
  = inr None
  /\ snd ((do* FakeBlob_download_as_bytes 0 3 (Some 5%Z) in FakeBlob_size 0)
            (run script_blob))
     = inr (Some 3).
Proof. split; reflexivity. Qed.

(** ** [FakeBucket]: access to blobs *)

Lemma FakeBucket_get_blob_ok h self bk blob_id blob :
  bucket_store h !! self = Some bk ->
  odict_get blob_id (FakeBucket_blobs bk) = Some blob ->
  FakeBucket_get_blob self blob_id h = (h, inr blob).
Proof.
  intros Hbk Hget. unfold FakeBucket_get_blob.
  rewrite (bind_ok _ _ _ _ _ (load_bucket_ok _ _ _ Hbk)). by rewrite Hget.
Qed.

Lemma FakeBucket_get_blob_NotFound h self bk blob_id :
  bucket_store h !! self = Some bk ->
  odict_get blob_id (FakeBucket_blobs bk) = None ->
  FakeBucket_get_blob self blob_id h
  = (h, inl (NotFound ("Blob " +:+ blob_id +:+ " not found"))).
Proof.
  intros Hbk Hget. unfold FakeBucket_get_blob.
  rewrite (bind_ok _ _ _ _ _ (load_bucket_ok _ _ _ Hbk)). by rewrite Hget.
Qed.

(** The heap that [FakeBlob(name, bucket)] leaves. *)
Lemma FakeBucket_blob_ok h self bk blob_id :
  bucket_store h !! self = Some bk ->
  exists h',
    FakeBucket_blob self blob_id h
    = (h', inr (default (length (blob_store h))
                  (odict_get blob_id (FakeBucket_blobs bk))))
    /\ FakeBlob_init blob_id self h = (h', inr (length (blob_store h))).
Proof.
  intros Hbk. eexists. split; [|apply (FakeBlob_init_ok _ _ _ _ Hbk)].
  unfold FakeBucket_blob.
  rewrite (bind_ok _ _ _ _ _ (FakeBlob_init_ok _ _ _ _ Hbk)).
  erewrite bind_ok; [|apply load_bucket_ok; cbn [bucket_store];
                       apply (lookup_insert_Some _ _ _ _ Hbk)].
  unfold ret. cbn [FakeBucket_blobs set_blobs].
  by rewrite odict_get_setdefault.
Qed.

(** C8: two calls of [bucket.blob(n)] in a row return the same handle.
    The handle is registered under [n] after each call, the object it
    refers to is the same stored blob after the second call as after the
    first, and when [n] was free the first call created that blob: a new
    object, empty, marked existing and registered.  When [n] was taken the
    handle is the one already registered. *)
Theorem C8_blob_twice_same_handle h bucket bk n :
  wf h ->
  bucket_store h !! bucket = Some bk ->
  exists h1 h2 blob,
    FakeBucket_blob bucket n h = (h1, inr blob)
    /\ FakeBucket_blob bucket n h1 = (h2, inr blob)
    /\ FakeBucket_get_blob bucket n h1 = (h1, inr blob)
    /\ FakeBucket_get_blob bucket n h2 = (h2, inr blob)
    /\ is_Some (blob_store h1 !! blob)
    /\ blob_store h2 !! blob = blob_store h1 !! blob
    /\ (odict_get n (FakeBucket_blobs bk) = None ->
        blob = length (blob_store h)
        /\ blob_store h1 !! blob
           = Some (mkFakeBlob n bucket true (BytesIO.new [])))
    /\ (forall l, odict_get n (FakeBucket_blobs bk) = Some l -> blob = l).
Proof.
  intros Hwf Hbk.
  destruct (FakeBucket_blob_ok h bucket bk n Hbk) as (h1 & E1 & I1).
  rewrite (FakeBlob_init_ok _ _ _ _ Hbk) in I1. injection I1 as I1.
  set (blob := default (length (blob_store h)) (odict_get n (FakeBucket_blobs bk))) in *.
  set (bk1 := set_blobs (odict_setdefault n (length (blob_store h))
                           (FakeBucket_blobs bk)) bk) in *.
  assert (Hbk1 : bucket_store h1 !! bucket = Some bk1).
  { subst h1. apply (lookup_insert_Some _ _ _ _ Hbk). }
  assert (Hget1 : odict_get n (FakeBucket_blobs bk1) = Some blob).
  { unfold bk1. cbn [FakeBucket_blobs set_blobs]. apply odict_get_setdefault. }
  destruct (FakeBucket_blob_ok h1 bucket bk1 n Hbk1) as (h2 & E2 & I2).
  rewrite (FakeBlob_init_ok _ _ _ _ Hbk1) in I2. injection I2 as I2.
  rewrite Hget1 in E2. cbn [default] in E2.
  assert (Hbk2 : bucket_store h2 !! bucket = Some bk1).
  { subst h2. cbn [bucket_store].
    rewrite (odict_setdefault_present n _ (FakeBucket_blobs bk1)) by by eexists.
    rewrite set_blobs_id. apply (lookup_insert_Some _ _ _ _ Hbk1). }
  assert (Hval : is_Some (blob_store h1 !! blob)).
  { subst h1. cbn [blob_store]. unfold blob.
    destruct (odict_get n (FakeBucket_blobs bk)) as [l|] eqn:Hl; cbn [default].
    - destruct (wf_bucket_blobs h Hwf bucket bk n l Hbk
                  (odict_get_elem_of _ _ _ Hl)) as (bl & Hbl & _).
      exists bl. by apply lookup_alloc_old.
    - eexists. apply lookup_alloc. }
  exists h1, h2, blob. split; [exact E1|]. split; [exact E2|].
  split; [by apply (FakeBucket_get_blob_ok _ _ bk1)|].
  split; [by apply (FakeBucket_get_blob_ok _ _ bk1)|].
  split; [exact Hval|]. split.
  - destruct Hval as [bl Hbl]. rewrite Hbl. subst h2. cbn [blob_store].
    by apply lookup_alloc_old.
  - split.
    + intros Hnone. unfold blob. rewrite Hnone. cbn [default].
      split; [done|]. subst h1. apply lookup_alloc.
    + intros l Hl. unfold blob. by rewrite Hl.
Qed.

Lemma FakeBucket_delete_blob_ok h self blob bl bk d :
  blob_store h !! blob = Some bl ->
  bucket_store h !! self = Some bk ->
  odict_del (FakeBlob_name bl) (FakeBucket_blobs bk) = Some d ->
  FakeBucket_delete_blob self blob h = (put_bucket self (set_blobs d bk) h, inr tt).
Proof.
  intros Hbl Hbk Hd. unfold FakeBucket_delete_blob.
  rewrite (bind_ok _ _ _ _ _ (load_blob_ok _ _ _ Hbl)).
  rewrite (bind_ok _ _ _ _ _ (load_bucket_ok _ _ _ Hbk)). by rewrite Hd.
Qed.

Lemma FakeBlob_delete_ok h self bl bk d :
  blob_store h !! self = Some bl ->
  bucket_store h !! FakeBlob__bucket bl = Some bk ->
  odict_del (FakeBlob_name bl) (FakeBucket_blobs bk) = Some d ->
  FakeBlob_delete self h
  = (put_blob self (set_blob__exists false bl)
       (put_bucket (FakeBlob__bucket bl) (set_blobs d bk) h),
     inr tt).
Proof.
  intros Hbl Hbk Hd. unfold FakeBlob_delete.
  rewrite (bind_ok _ _ _ _ _ (load_blob_ok _ _ _ Hbl)).
  rewrite (bind_ok _ _ _ _ _ (FakeBucket_delete_blob_ok _ _ _ _ _ _ Hbl Hbk Hd)).
  by rewrite (bind_ok _ _ _ _ _ (load_blob_ok (put_bucket _ _ h) _ _ Hbl)).
Qed.

(** Deleting a blob whose name is not registered in its bucket raises the
    dictionary's [KeyError] and changes nothing. *)
Lemma FakeBlob_delete_KeyError h self bl bk :
  blob_store h !! self = Some bl ->
  bucket_store h !! FakeBlob__bucket bl = Some bk ->
  odict_get (FakeBlob_name bl) (FakeBucket_blobs bk) = None ->
  FakeBlob_delete self h = (h, inl (KeyError (FakeBlob_name bl))).
Proof.
  intros Hbl Hbk Hd. unfold FakeBlob_delete, FakeBucket_delete_blob.
  rewrite (bind_ok _ _ _ _ _ (load_blob_ok _ _ _ Hbl)).
  erewrite bind_raise; [done|].
  rewrite (bind_ok _ _ _ _ _ (load_blob_ok _ _ _ Hbl)).
  rewrite (bind_ok _ _ _ _ _ (load_bucket_ok _ _ _ Hbk)).
  by rewrite (odict_del_None _ _ Hd).
Qed.

(** C10: a deleted blob comes back on access.  When the blob registered
    under [n] is deleted it stops existing and [n] is no longer registered
    in the bucket; the next [bucket.blob(n)] then constructs a new object,
    distinct from the deleted handle, registers it under [n] and returns
    it: it exists, its content is empty and its [size] is [None], while
    the deleted handle still reports [exists()] false. *)
Theorem C10_deleted_blob_resurrected h bucket bk n old :
  wf h ->
  bucket_store h !! bucket = Some bk ->
  odict_get n (FakeBucket_blobs bk) = Some old ->
  exists h1 h2 new,
    FakeBlob_delete old h = (h1, inr tt)
    /\ FakeBlob_exists old h1 = (h1, inr false)
    /\ FakeBucket_get_blob bucket n h1
       = (h1, inl (NotFound ("Blob " +:+ n +:+ " not found")))
    /\ FakeBucket_blob bucket n h1 = (h2, inr new)
    /\ new <> old
    /\ blob_store h !! new = None
    /\ FakeBucket_get_blob bucket n h2 = (h2, inr new)
    /\ FakeBlob_exists new h2 = (h2, inr true)
    /\ blob_content h2 new = Some []
    /\ FakeBlob_size new h2 = (h2, inr None)
    /\ FakeBlob_exists old h2 = (h2, inr false).
Proof.
  intros Hwf Hbk Hget.
  destruct (wf_bucket_blobs h Hwf bucket bk n old Hbk
              (odict_get_elem_of _ _ _ Hget)) as (bl & Hbl & Hname & Hbucket).
  pose proof (wf_bucket_keys h Hwf bucket bk Hbk) as Hnd.
  destruct (odict_del_is_Some n (FakeBucket_blobs bk)) as [d Hd]; [by eexists|].
  subst n bucket.
  pose proof (FakeBlob_delete_ok h old bl bk d Hbl Hbk Hd) as E1.
  set (bk1 := set_blobs d bk) in *.
  set (bl1 := set_blob__exists false bl) in *.
  set (h1 := put_blob old bl1 (put_bucket (FakeBlob__bucket bl) bk1 h)) in *.
  assert (Hbl1 : blob_store h1 !! old = Some bl1)
    by apply (lookup_insert_Some _ _ _ _ Hbl).
  assert (Hbk1 : bucket_store h1 !! FakeBlob__bucket bl = Some bk1)
    by apply (lookup_insert_Some _ _ _ _ Hbk).
  assert (Hget1 : odict_get (FakeBlob_name bl) (FakeBucket_blobs bk1) = None)
    by apply (odict_get_del _ _ _ Hnd Hd).
  destruct (FakeBucket_blob_ok h1 _ bk1 (FakeBlob_name bl) Hbk1) as (h2 & E2 & I2).
  rewrite (FakeBlob_init_ok _ _ _ _ Hbk1) in I2. injection I2 as I2.
  rewrite Hget1 in E2. cbn [default] in E2.
  assert (Hlen : length (blob_store h1) = length (blob_store h)).
  { unfold h1. cbn [blob_store put_blob put_bucket]. apply length_insert. }
  assert (Hlt : old < length (blob_store h)) by apply (lookup_lt_Some _ _ _ Hbl).
  set (new := mkFakeBlob (FakeBlob_name bl) (FakeBlob__bucket bl) true (BytesIO.new [])) in *.
  assert (Hnew2 : blob_store h2 !! length (blob_store h1) = Some new).
  { subst h2. apply lookup_alloc. }
  assert (Hold2 : blob_store h2 !! old = Some bl1).
  { subst h2. cbn [blob_store]. by apply lookup_alloc_old. }
  exists h1, h2, (length (blob_store h1)).
  split; [exact E1|].
  split; [apply (FakeBlob_exists_ok _ _ _ Hbl1)|].
  split; [by apply (FakeBucket_get_blob_NotFound _ _ bk1)|].
  split; [exact E2|].
  split; [lia|].
  split; [rewrite Hlen; apply lookup_ge_None; lia|].
  split.
  { eapply FakeBucket_get_blob_ok.
    - subst h2. cbn [bucket_store]. apply (lookup_insert_Some _ _ _ _ Hbk1).
    - cbn [FakeBucket_blobs set_blobs]. rewrite odict_get_setdefault.
      unfold bk1 in Hget1. cbn [FakeBucket_blobs set_blobs] in Hget1.
      by rewrite Hget1. }
  split; [apply (FakeBlob_exists_ok _ _ _ Hnew2)|].
  split; [unfold blob_content; by rewrite Hnew2|].
  split; [apply (FakeBlob_size_ok _ _ _ Hnew2)|].
  apply (FakeBlob_exists_ok _ _ _ Hold2).
Qed.

(** ** [FakeClient]: the registry of buckets *)

Lemma FakeClient_bucket_ok h self cl bucket_id b :
  client_store h !! self = Some cl ->
  odict_get bucket_id (FakeClient___buckets cl) = Some b ->
  FakeClient_bucket self bucket_id h = (h, inr b).
Proof.
  intros Hcl Hget. unfold FakeClient_bucket.
  rewrite (bind_ok _ _ _ _ _ (load_client_ok _ _ _ Hcl)). by rewrite Hget.
Qed.

Lemma FakeClient_bucket_NotFound h self cl bucket_id :
  client_store h !! self = Some cl ->
  odict_get bucket_id (FakeClient___buckets cl) = None ->
  FakeClient_bucket self bucket_id h
  = (h, inl (NotFound ("Bucket " +:+ bucket_id +:+ " not found"))).
Proof.
  intros Hcl Hget. unfold FakeClient_bucket.
  rewrite (bind_ok _ _ _ _ _ (load_client_ok _ _ _ Hcl)). by rewrite Hget.
Qed.

Lemma FakeBucket_init_Conflict h client cl name :
  client_store h !! client = Some cl ->
  is_Some (odict_get name (FakeClient___buckets cl)) ->
  FakeBucket_init client name h
  = (mkHeap (client_store h) (bucket_store h ++ [mkFakeBucket client name [] true])
            (blob_store h) (upload_store h),
     inl (Conflict ("Bucket " +:+ name +:+ " already exists"))).
Proof.
  intros Hcl Hget. unfold FakeBucket_init, alloc_bucket. unfold bind at 1.
  set (h0 := mkHeap _ (bucket_store h ++ _) _ _).
  erewrite bind_raise; [done|]. unfold FakeClient_register_bucket.
  erewrite bind_ok; [|apply load_bucket_ok, lookup_alloc].
  rewrite (bind_ok _ _ _ _ _ (load_client_ok h0 _ _ Hcl)).
  cbn [FakeBucket_name].
  by rewrite (proj2 (odict_contains_true _ _) Hget).
Qed.

Lemma FakeBucket_init_ok h client cl name :
  client_store h !! client = Some cl ->
  odict_get name (FakeClient___buckets cl) = None ->
  FakeBucket_init client name h
  = (mkHeap
       (<[client:=set___buckets
            (odict_set name (length (bucket_store h)) (FakeClient___buckets cl)) cl]>
          (client_store h))
       (bucket_store h ++ [mkFakeBucket client name [] true])
       (blob_store h) (upload_store h),
     inr (length (bucket_store h))).
Proof.
  intros Hcl Hget. unfold FakeBucket_init, alloc_bucket. unfold bind at 1.
  set (h0 := mkHeap _ (bucket_store h ++ _) _ _).
  erewrite bind_ok; [done|]. unfold FakeClient_register_bucket.
  erewrite bind_ok; [|apply load_bucket_ok, lookup_alloc].
  rewrite (bind_ok _ _ _ _ _ (load_client_ok h0 _ _ Hcl)).
  cbn [FakeBucket_name].
  by rewrite (proj2 (odict_contains_false _ _) Hget).
Qed.

(** C6: in every client, constructing a bucket under a name that is
    registered raises [Conflict] (through [FakeBucket(client, name)] and
    through [client.create_bucket(name)] alike) and leaves the client, the
    buckets, blobs and uploads that existed as they were, so the lookup
    still returns the original bucket; looking up a name that is not
    registered raises [NotFound]. *)
Theorem C6_duplicate_bucket_conflict_absent_not_found h client cl name :
  client_store h !! client = Some cl ->
  (forall original,
     odict_get name (FakeClient___buckets cl) = Some original ->
     exists h' msg,
       FakeBucket_init client name h = (h', inl (Conflict msg))
       /\ FakeClient_create_bucket client name h = (h', inl (Conflict msg))
       /\ client_store h' = client_store h
       /\ (forall b bk, bucket_store h !! b = Some bk ->
                        bucket_store h' !! b = Some bk)
       /\ blob_store h' = blob_store h
       /\ upload_store h' = upload_store h
       /\ FakeClient_bucket client name h' = (h', inr original)
       /\ FakeClient_get_bucket client name h' = (h', inr original))
  /\ (odict_get name (FakeClient___buckets cl) = None ->
      exists msg,
        FakeClient_bucket client name h = (h, inl (NotFound msg))
        /\ FakeClient_get_bucket client name h = (h, inl (NotFound msg))).
Proof.
  intros Hcl. split.
  - intros original Hget.
    pose proof (FakeBucket_init_Conflict h client cl name Hcl
                  (ex_intro _ original Hget)) as E.
    do 2 eexists. split; [exact E|].
    split; [unfold FakeClient_create_bucket; by rewrite (bind_raise _ _ _ _ _ E)|].
    split; [done|].
    split; [intros b bk Hb; by apply lookup_alloc_old|].
    split; [done|]. split; [done|].
    unfold FakeClient_get_bucket.
    split; by apply (FakeClient_bucket_ok _ _ cl).
  - intros Hget. eexists. unfold FakeClient_get_bucket.
    split; by apply (FakeClient_bucket_NotFound _ _ cl).
Qed.

Lemma C6_witness :
  (exists h' msg,
     FakeBucket_init 0 "test-bucket" (run script_blob) = (h', inl (Conflict msg))
     /\ FakeClient_bucket 0 "test-bucket" h' = (h', inr 0))
  /\ (exists msg,
        FakeClient_bucket 0 "other-bucket" (run script_blob)
        = (run script_blob, inl (NotFound msg))).
Proof.
  split.
  - destruct (C6_duplicate_bucket_conflict_absent_not_found
                (run script_blob) 0
                (mkFakeClient (mkFakeCredentials 0) [] [("test-bucket", 0)])
                "test-bucket" eq_refl) as [A _].
    destruct (A 0 eq_refl) as (h' & msg & E & _ & _ & _ & _ & _ & L & _).
    by exists h', msg.
  - destruct (C6_duplicate_bucket_conflict_absent_not_found
                (run script_blob) 0
                (mkFakeClient (mkFakeCredentials 0) [] [("test-bucket", 0)])
                "other-bucket" eq_refl) as [_ B].
    destruct (B eq_refl) as (msg & E & _). by exists msg.
Defined.

(** ** [FakeBucket.delete] and its cascade *)

Lemma FakeClient_delete_bucket_ok h self bucket bk cl d :
  bucket_store h !! bucket = Some bk ->
  client_store h !! self = Some cl ->
  odict_del (FakeBucket_name bk) (FakeClient___buckets cl) = Some d ->
  FakeClient_delete_bucket self bucket h
  = (put_client self (set___buckets d cl) h, inr tt).
Proof.
  intros Hbk Hcl Hd. unfold FakeClient_delete_bucket.
  rewrite (bind_ok _ _ _ _ _ (load_bucket_ok _ _ _ Hbk)).
  rewrite (bind_ok _ _ _ _ _ (load_client_ok _ _ _ Hcl)). by rewrite Hd.
Qed.

Lemma FakeClient_delete_bucket_KeyError h self bucket bk cl :
  bucket_store h !! bucket = Some bk ->
  client_store h !! self = Some cl ->
  odict_get (FakeBucket_name bk) (FakeClient___buckets cl) = None ->
  FakeClient_delete_bucket self bucket h
  = (h, inl (KeyError (FakeBucket_name bk))).
Proof.
  intros Hbk Hcl Hd. unfold FakeClient_delete_bucket.
  rewrite (bind_ok _ _ _ _ _ (load_bucket_ok _ _ _ Hbk)).
  rewrite (bind_ok _ _ _ _ _ (load_client_ok _ _ _ Hcl)).
  by rewrite (odict_del_None _ _ Hd).
Qed.

(** The loop over the snapshot of the bucket's blobs: each blob takes its
    own name out of the dictionary, so the loop runs to the end, empties
    the dictionary and marks exactly the listed blobs as not existing. *)
Lemma delete_each_ok d : forall h b bk,
  bucket_store h !! b = Some bk ->
  FakeBucket_blobs bk = d ->
  NoDup (odict_keys d) ->
  (forall n l, (n, l) ∈ d ->
     exists bl, blob_store h !! l = Some bl
                /\ FakeBlob_name bl = n /\ FakeBlob__bucket bl = b) ->
  exists h',
    delete_each (odict_values d) h = (h', inr tt)
    /\ client_store h' = client_store h
    /\ upload_store h' = upload_store h
    /\ bucket_store h' = <[b:=set_blobs [] bk]> (bucket_store h)
    /\ (forall l, blob_store h' !! l
                  = if decide (l ∈ odict_values d)
                    then set_blob__exists false <$> blob_store h !! l
                    else blob_store h !! l).
Proof.
  induction d as [|[n l] d IH]; intros h b bk Hbk Hblobs Hnd Hentries.
  - exists h. split; [done|]. split; [done|]. split; [done|]. split.
    + rewrite <- Hblobs, set_blobs_id. by rewrite (list_insert_id _ _ _ Hbk).
    + intros l. rewrite decide_False; [done|]. apply not_elem_of_nil.
  - destruct (Hentries n l (list_elem_of_here _ _)) as (bl & Hbl & Hname & Hbucket).
    subst n b.
    assert (Hd : odict_del (FakeBlob_name bl) (FakeBucket_blobs bk) = Some d).
    { rewrite Hblobs. simpl. by rewrite decide_True. }
    pose proof (FakeBlob_delete_ok h l bl bk d Hbl Hbk Hd) as E.
    set (bk1 := set_blobs d bk) in *.
    set (h1 := put_blob l _ (put_bucket _ bk1 h)) in *.
    assert (Hbk1 : bucket_store h1 !! FakeBlob__bucket bl = Some bk1)
      by apply (lookup_insert_Some _ _ _ _ Hbk).
    assert (Hlook : forall l0, blob_store h1 !! l0
                    = if decide (l0 = l) then Some (set_blob__exists false bl)
                      else blob_store h !! l0).
    { intros l0. unfold h1. cbn [blob_store put_blob put_bucket].
      destruct (decide (l0 = l)) as [->|Hne].
      - apply (lookup_insert_Some _ _ _ _ Hbl).
      - by apply list_lookup_insert_ne. }
    unfold odict_keys in Hnd. simpl in Hnd. apply NoDup_cons in Hnd as [Hn Hnd].
    destruct (IH h1 _ bk1 Hbk1 eq_refl Hnd) as (h' & E' & Hc & Hu & Hb & Hl).
    { intros n' l' Hin.
      destruct (Hentries n' l' (list_elem_of_further _ _ _ Hin))
        as (bl' & Hbl' & Hname' & Hbucket').
      rewrite Hlook. destruct (decide (l' = l)) as [->|Hne].
      - exists (set_blob__exists false bl). rewrite Hbl in Hbl'.
        injection Hbl' as <-. done.
      - by exists bl'. }
    exists h'. split.
    { simpl. by rewrite (bind_ok _ _ _ _ _ E). }
    split; [by rewrite Hc|]. split; [by rewrite Hu|]. split.
    { rewrite Hb. unfold h1. cbn [bucket_store put_blob put_bucket].
      by rewrite list_insert_insert_eq. }
    intros l0. rewrite Hl, Hlook. simpl.
    destruct (decide (l0 = l)) as [->|Hne].
    { rewrite (decide_True (P := l ∈ l :: _)) by apply list_elem_of_here.
      rewrite Hbl. by destruct (decide (l ∈ odict_values d)). }
    destruct (decide (l0 ∈ odict_values d)) as [Hin|Hnin].
    + rewrite decide_True; [done|]. by apply list_elem_of_further.
    + rewrite decide_False; [done|]. rewrite elem_of_cons. by intros [?|?].
Qed.

Lemma FakeBucket_exists_ok h self bk :
  bucket_store h !! self = Some bk ->
  FakeBucket_exists self h = (h, inr (FakeBucket__exists bk)).
Proof.
  intros H. unfold FakeBucket_exists.
  by rewrite (bind_ok _ _ _ _ _ (load_bucket_ok _ _ _ H)).
Qed.

Lemma FakeBucket_list_blobs_ok h self bk :
  bucket_store h !! self = Some bk ->
  FakeBucket_list_blobs self h = (h, inr (odict_values (FakeBucket_blobs bk))).
Proof.
  intros H. unfold FakeBucket_list_blobs.
  by rewrite (bind_ok _ _ _ _ _ (load_bucket_ok _ _ _ H)).
Qed.

(** C5 (amended): for every bucket whose name is registered in its
    client, [delete()] succeeds, makes the bucket's [exists()] false and
    makes [exists()] false on every blob the bucket contained, each of
    which is unregistered: the bucket lists no blob afterwards.  On a
    bucket whose name is not registered in its client (one deleted
    before) [delete()] raises [KeyError] at its first statement and
    changes nothing. *)
Theorem C5_bucket_delete_cascades h bucket bk cl :
  wf h ->
  bucket_store h !! bucket = Some bk ->
  client_store h !! FakeBucket_client bk = Some cl ->
  (is_Some (odict_get (FakeBucket_name bk) (FakeClient___buckets cl)) ->
   exists h',
     FakeBucket_delete bucket h = (h', inr tt)
     /\ FakeBucket_exists bucket h' = (h', inr false)
     /\ (forall n l, (n, l) ∈ FakeBucket_blobs bk ->
                     FakeBlob_exists l h' = (h', inr false))
     /\ FakeBucket_list_blobs bucket h' = (h', inr [])
     /\ (forall n, FakeBucket_get_blob bucket n h'
                   = (h', inl (NotFound ("Blob " +:+ n +:+ " not found")))))
  /\ (odict_get (FakeBucket_name bk) (FakeClient___buckets cl) = None ->
      FakeBucket_delete bucket h = (h, inl (KeyError (FakeBucket_name bk)))).
Proof.
  intros Hwf Hbk Hcl. split.
  - intros Hreg. destruct (odict_del_is_Some _ _ Hreg) as [d Hd].
    pose proof (FakeClient_delete_bucket_ok h _ bucket bk cl d Hbk Hcl Hd) as E1.
    set (h1 := put_client _ _ h) in E1.
    set (bk2 := set_bucket__exists false bk).
    set (h2 := put_bucket bucket bk2 h1).
    assert (Hbk2 : bucket_store h2 !! bucket = Some bk2)
      by apply (lookup_insert_Some _ _ _ _ Hbk).
    destruct (delete_each_ok (FakeBucket_blobs bk) h2 bucket bk2 Hbk2 eq_refl)
      as (h' & E' & Hc & Hu & Hb & Hl).
    { apply (wf_bucket_keys h Hwf bucket bk Hbk). }
    { intros n l Hin. apply (wf_bucket_blobs h Hwf bucket bk n l Hbk Hin). }
    assert (Hbk' : bucket_store h' !! bucket = Some (set_blobs [] bk2)).
    { rewrite Hb. apply (lookup_insert_Some _ _ _ _ Hbk2). }
    exists h'. split.
    { unfold FakeBucket_delete.
      rewrite (bind_ok _ _ _ _ _ (load_bucket_ok _ _ _ Hbk)).
      rewrite (bind_ok _ _ _ _ _ E1).
      rewrite (bind_ok _ _ _ _ _ (load_bucket_ok h1 _ _ Hbk)).
      unfold bind at 1, store_bucket. fold bk2. fold h2.
      by rewrite (bind_ok _ _ _ _ _ (load_bucket_ok h2 _ _ Hbk2)). }
    split; [apply (FakeBucket_exists_ok _ _ _ Hbk')|].
    split.
    { intros n l Hin.
      destruct (wf_bucket_blobs h Hwf bucket bk n l Hbk Hin) as (bl & Hbl & _).
      apply (FakeBlob_exists_ok h' l (set_blob__exists false bl)).
      rewrite Hl. rewrite decide_True.
      - unfold h2, h1. cbn [blob_store put_bucket put_client]. by rewrite Hbl.
      - unfold odict_values. apply list_elem_of_fmap. by exists (n, l). }
    split; [apply (FakeBucket_list_blobs_ok _ _ _ Hbk')|].
    intros n. by apply (FakeBucket_get_blob_NotFound _ _ _ _ Hbk').
  - intros Hnone. unfold FakeBucket_delete.
    rewrite (bind_ok _ _ _ _ _ (load_bucket_ok _ _ _ Hbk)).
    erewrite bind_raise; [done|].
    by apply (FakeClient_delete_bucket_KeyError _ _ _ _ cl).
Qed.

(** ** [FakeBlobUpload] *)

Lemma FakeBlobUpload_write_ok h self up io data :
  upload_store h !! self = Some up ->
  FakeBlobUpload___contents up = Some io ->
  FakeBlobUpload_write self data h
  = (put_upload self (set_upload___contents (Some (BytesIO.write data io)) up) h,
     inr tt).
Proof.
  intros Hup Hio. unfold FakeBlobUpload_write.
  rewrite (bind_ok _ _ _ _ _ (load_upload_ok _ _ _ Hup)). by rewrite Hio.
Qed.

Lemma FakeBlobUpload_finish_noop h self up :
  upload_store h !! self = Some up ->
  FakeBlobUpload__finished up = true ->
  FakeBlobUpload_finish self h = (h, inr tt).
Proof.
  intros Hup Hfin. unfold FakeBlobUpload_finish.
  rewrite (bind_ok _ _ _ _ _ (load_upload_ok _ _ _ Hup)). by rewrite Hfin.
Qed.

(** The first [finish()]: the blob receives the whole buffer, the session
    keeps it with the stream at its end and is marked finished. *)
Lemma FakeBlobUpload_finish_ok h self up io bl :
  upload_store h !! self = Some up ->
  FakeBlobUpload__finished up = false ->
  FakeBlobUpload___contents up = Some io ->
  blob_store h !! FakeBlobUpload_blob up = Some bl ->
  let v := BytesIO.getvalue io in
  FakeBlobUpload_finish self h
  = (put_upload self
       (mkFakeBlobUpload (FakeBlobUpload_url up) (FakeBlobUpload_blob up) true
          (Some (BytesIO.mk v (length v))))
       (put_blob (FakeBlobUpload_blob up)
          (set_blob___contents (BytesIO.mk v (length v)) bl) h),
     inr tt).
Proof.
  intros Hup Hfin Hio Hbl v. unfold FakeBlobUpload_finish.
  rewrite (bind_ok _ _ _ _ _ (load_upload_ok _ _ _ Hup)). rewrite Hfin, Hio.
  unfold lift. unfold bind at 1. cbn [BytesIO.seek Z.ltb Z.compare].
  rewrite (read_all io _ eq_refl). fold v.
  unfold bind at 1, store_upload.
  set (up1 := set_upload___contents _ up).
  set (h1 := put_upload self up1 h).
  rewrite (bind_ok _ _ _ _ _
             (FakeBlob_upload_from_string_ok h1 _ bl (PyBytes v) v Hbl eq_refl)).
  erewrite bind_ok; [|apply load_upload_ok; cbn [upload_store put_blob];
                       apply (lookup_insert_Some _ _ _ _ Hup)].
  unfold store_upload, put_upload, put_blob, h1, put_upload.
  cbn [client_store bucket_store blob_store upload_store].
  by rewrite list_insert_insert_eq.
Qed.


(** ** [FakeAuthorizedSession] *)

Lemma put_upload_id h u up :
  upload_store h !! u = Some up -> put_upload u up h = h.
Proof.
  intros H. unfold put_upload. rewrite (list_insert_id _ _ _ H). by destruct h.
Qed.

Lemma set_upload___contents_id up io :
  FakeBlobUpload___contents up = Some io ->
  set_upload___contents (Some io) up = up.
Proof. destruct up. simpl. by intros ->. Qed.

Section protocol_facts.
Variable RESUMABLE_SESSION_URI_TEMPLATE : string -> string -> string.
Variable _UNKNOWN : string.
Variable _UPLOAD_INCOMPLETE_STATUS_CODES : list Z.

Local Abbreviation put :=
  (FakeAuthorizedSession_put _UNKNOWN _UPLOAD_INCOMPLETE_STATUS_CODES).

Lemma put_KeyError h session cl url data headers :
  client_store h !! FakeCredentials_client (FakeAuthorizedSession__credentials session)
  = Some cl ->
  odict_get url (FakeClient_uploads cl) = None ->
  put session url data headers h = (h, inl (KeyError url)).
Proof.
  intros Hcl Hget. unfold FakeAuthorizedSession_put.
  rewrite (bind_ok _ _ _ _ _ (load_client_ok _ _ _ Hcl)). by rewrite Hget.
Qed.

Lemma delete_KeyError h session cl url :
  client_store h !! FakeCredentials_client (FakeAuthorizedSession__credentials session)
  = Some cl ->
  odict_get url (FakeClient_uploads cl) = None ->
  FakeAuthorizedSession_delete session url h = (h, inl (KeyError url)).
Proof.
  intros Hcl Hget. unfold FakeAuthorizedSession_delete.
  rewrite (bind_ok _ _ _ _ _ (load_client_ok _ _ _ Hcl)).
  unfold odict_pop. by rewrite Hget.
Qed.

(** The part of [put] that appends the chunk, when there is one. *)
Lemma put_appends h upload up io data :
  upload_store h !! upload = Some up ->
  FakeBlobUpload___contents up = Some io ->
  match data with
  | None => ret tt
  | Some (FileData f) => FakeBlobUpload_write upload (fst (BytesIO.read None f))
  | Some (RawData b) => FakeBlobUpload_write upload b
  end h
  = (put_upload upload
       (set_upload___contents (Some (BytesIO.write (chunk_of data) io)) up) h,
     inr tt).
Proof.
  intros Hup Hio. destruct data as [[b|f]|]; cbn [chunk_of].
  - by apply FakeBlobUpload_write_ok.
  - by apply FakeBlobUpload_write_ok.
  - cbn [BytesIO.write]. rewrite (set_upload___contents_id _ _ Hio).
    by rewrite (put_upload_id _ _ _ Hup).
Qed.

Lemma put_incomplete h session cl url upload up io data hd code rest :
  client_store h !! FakeCredentials_client (FakeAuthorizedSession__credentials session)
  = Some cl ->
  odict_get url (FakeClient_uploads cl) = Some upload ->
  upload_store h !! upload = Some up ->
  FakeBlobUpload___contents up = Some io ->
  declares_unknown _UNKNOWN hd = true ->
  _UPLOAD_INCOMPLETE_STATUS_CODES = code :: rest ->
  put session url data (Some hd) h
  = (put_upload upload
       (set_upload___contents (Some (BytesIO.write (chunk_of data) io)) up) h,
     inr (mkFakeResponse code None)).
Proof.
  intros Hcl Hget Hup Hio Hunk Hcodes. unfold FakeAuthorizedSession_put.
  rewrite (bind_ok _ _ _ _ _ (load_client_ok _ _ _ Hcl)). rewrite Hget.
  rewrite (bind_ok _ _ _ _ _ (put_appends h upload up io data Hup Hio)).
  unfold declares_unknown in Hunk. rewrite Hunk, Hcodes. done.
Qed.

Lemma put_finishes h session cl url upload up io bl data hd :
  client_store h !! FakeCredentials_client (FakeAuthorizedSession__credentials session)
  = Some cl ->
  odict_get url (FakeClient_uploads cl) = Some upload ->
  upload_store h !! upload = Some up ->
  FakeBlobUpload___contents up = Some io ->
  FakeBlobUpload__finished up = false ->
  blob_store h !! FakeBlobUpload_blob up = Some bl ->
  declares_unknown _UNKNOWN hd = false ->
  let v := BytesIO.getvalue (BytesIO.write (chunk_of data) io) in
  put session url data (Some hd) h
  = (put_upload upload
       (mkFakeBlobUpload (FakeBlobUpload_url up) (FakeBlobUpload_blob up) true
          (Some (BytesIO.mk v (length v))))
       (put_blob (FakeBlobUpload_blob up)
          (set_blob___contents (BytesIO.mk v (length v)) bl) h),
     inr (mkFakeResponse 200 None)).
Proof.
  intros Hcl Hget Hup Hio Hfin Hbl Hunk v. unfold FakeAuthorizedSession_put.
  rewrite (bind_ok _ _ _ _ _ (load_client_ok _ _ _ Hcl)). rewrite Hget.
  rewrite (bind_ok _ _ _ _ _ (put_appends h upload up io data Hup Hio)).
  unfold declares_unknown in Hunk. rewrite Hunk. cbn [negb].
  set (up1 := set_upload___contents _ up).
  set (h1 := put_upload upload up1 h).
  assert (Hup1 : upload_store h1 !! upload = Some up1)
    by apply (lookup_insert_Some _ _ _ _ Hup).
  rewrite (bind_ok _ _ _ _ _
             (FakeBlobUpload_finish_ok h1 upload up1 _ bl Hup1 Hfin eq_refl Hbl)).
  unfold ret, h1, put_upload, put_blob.
  cbn [client_store bucket_store blob_store upload_store].
  rewrite list_insert_insert_eq. done.
Qed.

End protocol_facts.

Section protocol_claims.
Variable _UNKNOWN : string.
Variable _UPLOAD_INCOMPLETE_STATUS_CODES : list Z.

Local Abbreviation put :=
  (FakeAuthorizedSession_put _UNKNOWN _UPLOAD_INCOMPLETE_STATUS_CODES).


End protocol_claims.

Lemma FakeBlobUpload_terminate_ok h self up bl bk d :
  upload_store h !! self = Some up ->
  blob_store h !! FakeBlobUpload_blob up = Some bl ->
  bucket_store h !! FakeBlob__bucket bl = Some bk ->
  odict_del (FakeBlob_name bl) (FakeBucket_blobs bk) = Some d ->
  FakeBlobUpload_terminate self h
  = (put_upload self (set_upload___contents None up)
       (put_blob (FakeBlobUpload_blob up) (set_blob__exists false bl)
          (put_bucket (FakeBlob__bucket bl) (set_blobs d bk) h)),
     inr tt).
Proof.
  intros Hup Hbl Hbk Hd. unfold FakeBlobUpload_terminate.
  rewrite (bind_ok _ _ _ _ _ (load_upload_ok _ _ _ Hup)).
  rewrite (bind_ok _ _ _ _ _ (FakeBlob_delete_ok _ _ _ _ _ Hbl Hbk Hd)).
  by rewrite (bind_ok _ _ _ _ _
                (load_upload_ok (put_blob _ _ (put_bucket _ _ h)) _ _ Hup)).
Qed.

Lemma FakeAuthorizedSession_delete_ok h session cl url upload d' up bl bk d :
  client_store h !! FakeCredentials_client (FakeAuthorizedSession__credentials session)
  = Some cl ->
  odict_get url (FakeClient_uploads cl) = Some upload ->
  odict_del url (FakeClient_uploads cl) = Some d' ->
  upload_store h !! upload = Some up ->
  blob_store h !! FakeBlobUpload_blob up = Some bl ->
  bucket_store h !! FakeBlob__bucket bl = Some bk ->
  odict_del (FakeBlob_name bl) (FakeBucket_blobs bk) = Some d ->
  FakeAuthorizedSession_delete session url h
  = (put_upload upload (set_upload___contents None up)
       (put_blob (FakeBlobUpload_blob up) (set_blob__exists false bl)
          (put_bucket (FakeBlob__bucket bl) (set_blobs d bk)
             (put_client
                (FakeCredentials_client (FakeAuthorizedSession__credentials session))
                (set_uploads d' cl) h))),
     inr tt).
Proof.
  intros Hcl Hget Hdel Hup Hbl Hbk Hd. unfold FakeAuthorizedSession_delete.
  rewrite (bind_ok _ _ _ _ _ (load_client_ok _ _ _ Hcl)).
  unfold odict_pop. rewrite Hget, Hdel.
  unfold bind at 1, store_client.
  by apply FakeBlobUpload_terminate_ok.
Qed.

Section protocol_errors.
Variable _UNKNOWN : string.
Variable _UPLOAD_INCOMPLETE_STATUS_CODES : list Z.

Local Abbreviation put :=
  (FakeAuthorizedSession_put _UNKNOWN _UPLOAD_INCOMPLETE_STATUS_CODES).

(** C3 (amended): for every registered session URL whose target blob
    is still registered under its name in its bucket, a [delete] on the
    URL removes the session from the client's upload registry and
    deletes the target blob: the blob's [exists()] becomes false and
    its name is unregistered from the bucket.  Every [put] and [delete]
    on a URL that is not in the registry, a second [delete] on the same
    URL included, fails with the dictionary's [KeyError] and changes
    nothing; the code does not turn that error into [NotFound]. *)
Theorem C3_session_delete_and_unknown_url h session cl url :
  wf h ->
  client_store h !! FakeCredentials_client (FakeAuthorizedSession__credentials session)
  = Some cl ->
  (forall upload up bl bk,
     odict_get url (FakeClient_uploads cl) = Some upload ->
     upload_store h !! upload = Some up ->
     blob_store h !! FakeBlobUpload_blob up = Some bl ->
     bucket_store h !! FakeBlob__bucket bl = Some bk ->
     is_Some (odict_get (FakeBlob_name bl) (FakeBucket_blobs bk)) ->
     exists h',
       FakeAuthorizedSession_delete session url h = (h', inr tt)
       /\ FakeAuthorizedSession__blob_with_url url
            (FakeCredentials_client (FakeAuthorizedSession__credentials session)) h'
          = (h', inr None)
       /\ FakeBlob_exists (FakeBlobUpload_blob up) h' = (h', inr false)
       /\ FakeBucket_get_blob (FakeBlob__bucket bl) (FakeBlob_name bl) h'
          = (h', inl (NotFound ("Blob " +:+ FakeBlob_name bl +:+ " not found")))
       /\ FakeAuthorizedSession_delete session url h' = (h', inl (KeyError url))
       /\ (forall data headers,
             put session url data headers h' = (h', inl (KeyError url))))
  /\ (odict_get url (FakeClient_uploads cl) = None ->
      FakeAuthorizedSession_delete session url h = (h, inl (KeyError url))
      /\ (forall data headers,
            put session url data headers h = (h, inl (KeyError url)))).
Proof.
  intros Hwf Hcl. split.
  - intros upload up bl bk Hget Hup Hbl Hbk Hreg.
    destruct (odict_del_is_Some url (FakeClient_uploads cl)) as [d' Hd'];
      [by eexists|].
    destruct (odict_del_is_Some _ _ Hreg) as [d Hd].
    pose proof (FakeAuthorizedSession_delete_ok h session cl url upload d'
                  up bl bk d Hcl Hget Hd' Hup Hbl Hbk Hd) as E.
    set (client := FakeCredentials_client _) in *.
    set (cl' := set_uploads d' cl) in E.
    match type of E with _ = (?x, _) => set (h' := x) in E end.
    assert (Hcl' : client_store h' !! client = Some cl')
      by apply (lookup_insert_Some _ _ _ _ Hcl).
    assert (Hgone : odict_get url (FakeClient_uploads cl') = None).
    { apply (odict_get_del _ _ _ (wf_uploads_keys h Hwf client cl Hcl) Hd'). }
    exists h'. split; [exact E|]. split.
    { unfold FakeAuthorizedSession__blob_with_url.
      rewrite (bind_ok _ _ _ _ _ (load_client_ok _ _ _ Hcl')).
      by rewrite Hgone. }
    split.
    { apply (FakeBlob_exists_ok h' _ (set_blob__exists false bl)).
      apply (lookup_insert_Some _ _ _ _ Hbl). }
    split.
    { apply (FakeBucket_get_blob_NotFound h' _ (set_blobs d bk)).
      - apply (lookup_insert_Some _ _ _ _ Hbk).
      - apply (odict_get_del _ _ _
                 (wf_bucket_keys h Hwf _ bk Hbk) Hd). }
    split; [by apply (delete_KeyError h' session cl')|].
    intros data headers. by apply (put_KeyError _ _ h' session cl').
  - intros Hnone. split; [by apply (delete_KeyError h session cl)|].
    intros data headers. by apply (put_KeyError _ _ h session cl).
Qed.

End protocol_errors.

(** ** Well-formedness is an invariant *)

Lemma extends_refl h : extends h h.
Proof. split; [done|intros b bk H; by exists bk|intros l bl H; by exists bl]. Qed.

Lemma extends_trans h1 h2 h3 : extends h1 h2 -> extends h2 h3 -> extends h1 h3.
Proof.
  intros [C1 B1 L1] [C2 B2 L2]. split.
  - intros c H. by apply C2, C1.
  - intros b bk H. destruct (B1 b bk H) as (bk' & H' & E1).
    destruct (B2 b bk' H') as (bk'' & H'' & E2). exists bk''. split; congruence.
  - intros l bl H. destruct (L1 l bl H) as (bl' & H' & E1 & F1).
    destruct (L2 l bl' H') as (bl'' & H'' & E2 & F2).
    exists bl''. repeat split; congruence.
Qed.

Lemma blob_at_extends h h' l n b :
  extends h h' -> blob_at h l n b -> blob_at h' l n b.
Proof.
  intros Hext (bl & Hbl & Hn & Hb).
  destruct (ext_blob h h' Hext l bl Hbl) as (bl' & Hbl' & Hn' & Hb').
  exists bl'. repeat split; congruence.
Qed.

Lemma upload_owner_extends h h' up c :
  extends h h' -> upload_owner h up = Some c -> upload_owner h' up = Some c.
Proof.
  intros Hext. unfold upload_owner.
  destruct (blob_store h !! FakeBlobUpload_blob up) as [bl|] eqn:Hbl; [|done].
  destruct (ext_blob h h' Hext _ bl Hbl) as (bl' & -> & _ & Hb').
  rewrite Hb'.
  destruct (bucket_store h !! FakeBlob__bucket bl) as [bk|] eqn:Hbk; [|done].
  destruct (ext_bucket h h' Hext _ bk Hbk) as (bk' & -> & Hc').
  simpl. congruence.
Qed.

Lemma upload_at_extends h h' u url c :
  extends h h' ->
  upload_store h' !! u = upload_store h !! u ->
  upload_at h u url c -> upload_at h' u url c.
Proof.
  intros Hext Hsame (up & Hup & Hurl & Hown & Hlive).
  exists up. split; [congruence|]. split; [done|].
  split; [by apply (upload_owner_extends h)|done].
Qed.

Lemma client_ok_extends h h' c cl :
  extends h h' ->
  (forall url u, (url, u) ∈ FakeClient_uploads cl ->
                 upload_store h' !! u = upload_store h !! u) ->
  client_ok h c cl -> client_ok h' c cl.
Proof.
  intros Hext Hsame (Hb & Hnd & Hu). split; [|split; [done|]].
  - intros n b Hin. destruct (Hb n b Hin) as [bk Hbk].
    destruct (ext_bucket h h' Hext b bk Hbk) as (bk' & Hbk' & _). by exists bk'.
  - intros url u Hin. apply (upload_at_extends h); [done|by apply (Hsame url)|].
    by apply Hu.
Qed.

Lemma bucket_ok_extends h h' b bk :
  extends h h' -> bucket_ok h b bk -> bucket_ok h' b bk.
Proof.
  intros Hext (Hc & Hnd & Hl). split; [|split; [done|]].
  - by apply (ext_client h h' Hext).
  - intros n l Hin. apply (blob_at_extends h); [done|by apply Hl].
Qed.

Lemma blob_ok_extends h h' bl : extends h h' -> blob_ok h bl -> blob_ok h' bl.
Proof.
  intros Hext [bk Hbk].
  destruct (ext_bucket h h' Hext _ bk Hbk) as (bk' & Hbk' & _). by exists bk'.
Qed.

Lemma upload_ok_extends h h' up :
  extends h h' -> upload_ok h up -> upload_ok h' up.
Proof.
  intros Hext [bl Hbl].
  destruct (ext_blob h h' Hext _ bl Hbl) as (bl' & Hbl' & _). by exists bl'.
Qed.

(** Assignments to an object. *)

Lemma extends_put_client h c cl : extends h (put_client c cl h).
Proof.
  split; [|intros b bk H; by exists bk|intros l bl H; by exists bl].
  intros c0 H. by apply list_lookup_insert_is_Some.
Qed.

Lemma extends_put_bucket h b bk bk' :
  bucket_store h !! b = Some bk ->
  FakeBucket_client bk' = FakeBucket_client bk ->
  extends h (put_bucket b bk' h).
Proof.
  intros Hbk Hc. split; [done| |intros l bl H; by exists bl].
  intros b0 bk0 H. simpl. destruct (decide (b0 = b)) as [->|Hne].
  - exists bk'. split; [apply (lookup_insert_Some _ _ _ _ Hbk)|congruence].
  - exists bk0. split; [by rewrite list_lookup_insert_ne|done].
Qed.

Lemma extends_put_blob h l bl bl' :
  blob_store h !! l = Some bl ->
  FakeBlob_name bl' = FakeBlob_name bl ->
  FakeBlob__bucket bl' = FakeBlob__bucket bl ->
  extends h (put_blob l bl' h).
Proof.
  intros Hbl Hn Hb. split; [done|intros b bk H; by exists bk|].
  intros l0 bl0 H. simpl. destruct (decide (l0 = l)) as [->|Hne].
  - exists bl'. split; [apply (lookup_insert_Some _ _ _ _ Hbl)|].
    split; congruence.
  - exists bl0. split; [by rewrite list_lookup_insert_ne|done].
Qed.

Lemma extends_put_upload h u up : extends h (put_upload u up h).
Proof. split; [done|intros b bk H; by exists bk|intros l bl H; by exists bl]. Qed.

Lemma wf_put_client h c cl cl' :
  wf h ->
  client_store h !! c = Some cl ->
  client_ok h c cl' ->
  wf (put_client c cl' h).
Proof.
  intros Hwf Hcl Hok. pose proof (extends_put_client h c cl') as Hext. split.
  - intros c0 cl0 H. simpl in H.
    apply list_lookup_insert_Some in H as [(-> & <- & _)|[Hne H]].
    + by apply (client_ok_extends h).
    + apply (client_ok_extends h); [done..|]. by apply (wf_clients h Hwf).
  - intros b bk H. apply (bucket_ok_extends h); [done|]. by apply (wf_buckets h Hwf).
  - intros l bl H. apply (blob_ok_extends h); [done|]. by apply (wf_blobs h Hwf l).
  - intros u up H. apply (upload_ok_extends h); [done|]. by apply (wf_uploads h Hwf u).
Qed.

Lemma wf_put_bucket h b bk bk' :
  wf h ->
  bucket_store h !! b = Some bk ->
  FakeBucket_client bk' = FakeBucket_client bk ->
  NoDup (odict_keys (FakeBucket_blobs bk')) ->
  (forall n l, (n, l) ∈ FakeBucket_blobs bk' -> blob_at h l n b) ->
  wf (put_bucket b bk' h).
Proof.
  intros Hwf Hbk Hc Hnd Hl.
  pose proof (extends_put_bucket h b bk bk' Hbk Hc) as Hext. split.
  - intros c cl H. apply (client_ok_extends h); [done..|]. by apply (wf_clients h Hwf).
  - intros b0 bk0 H. simpl in H.
    apply list_lookup_insert_Some in H as [(-> & <- & _)|[Hne H]].
    + split; [|split; [done|]].
      * rewrite Hc. apply (wf_buckets h Hwf b0 bk Hbk).
      * intros n l Hin. apply (blob_at_extends h); [done|by apply Hl].
    + apply (bucket_ok_extends h); [done|]. by apply (wf_buckets h Hwf).
  - intros l bl H. apply (blob_ok_extends h); [done|]. by apply (wf_blobs h Hwf l).
  - intros u up H. apply (upload_ok_extends h); [done|]. by apply (wf_uploads h Hwf u).
Qed.

Lemma wf_put_blob h l bl bl' :
  wf h ->
  blob_store h !! l = Some bl ->
  FakeBlob_name bl' = FakeBlob_name bl ->
  FakeBlob__bucket bl' = FakeBlob__bucket bl ->
  wf (put_blob l bl' h).
Proof.
  intros Hwf Hbl Hn Hb.
  pose proof (extends_put_blob h l bl bl' Hbl Hn Hb) as Hext. split.
  - intros c cl H. apply (client_ok_extends h); [done..|]. by apply (wf_clients h Hwf).
  - intros b bk H. apply (bucket_ok_extends h); [done|]. by apply (wf_buckets h Hwf).
  - intros l0 bl0 H. simpl in H.
    apply list_lookup_insert_Some in H as [(-> & <- & _)|[Hne H]].
    + unfold blob_ok. simpl. rewrite Hb. apply (wf_blobs h Hwf l0 bl Hbl).
    + apply (blob_ok_extends h); [done|]. by apply (wf_blobs h Hwf l0).
  - intros u up H. apply (upload_ok_extends h); [done|]. by apply (wf_uploads h Hwf u).
Qed.

Lemma wf_put_upload h u up up' :
  wf h ->
  upload_store h !! u = Some up ->
  FakeBlobUpload_url up' = FakeBlobUpload_url up ->
  FakeBlobUpload_blob up' = FakeBlobUpload_blob up ->
  live_upload up' \/ unregistered h u ->
  wf (put_upload u up' h).
Proof.
  intros Hwf Hup Hurl Hblob Hlive.
  pose proof (extends_put_upload h u up') as Hext. split.
  - intros c cl H. destruct (wf_clients h Hwf c cl H) as (Hb & Hnd & Hu).
    split; [done|]. split; [done|]. intros url u0 Hin.
    destruct (Hu url u0 Hin) as (up0 & Hup0 & Hurl0 & Hown0 & Hlive0).
    destruct (decide (u0 = u)) as [->|Hne].
    + destruct Hlive as [Hlive|Hunreg]; [|by destruct (Hunreg c cl url H)].
      exists up'. split; [apply (lookup_insert_Some _ _ _ _ Hup)|].
      rewrite Hup in Hup0. injection Hup0 as <-.
      split; [congruence|]. split; [|done].
      unfold upload_owner in *. simpl. by rewrite Hblob.
    + exists up0. split; [simpl; by rewrite list_lookup_insert_ne|done].
  - intros b bk H. by apply (wf_buckets h Hwf).
  - intros l bl H. by apply (wf_blobs h Hwf l).
  - intros u0 up0 H. simpl in H.
    apply list_lookup_insert_Some in H as [(-> & <- & _)|[Hne H]].
    + unfold upload_ok. simpl. rewrite Hblob. apply (wf_uploads h Hwf u0 up Hup).
    + by apply (wf_uploads h Hwf u0).
Qed.

(** Allocations. *)

Lemma is_Some_alloc_old {A : Type} (l : list A) x i :
  is_Some (l !! i) -> is_Some ((l ++ [x]) !! i).
Proof. intros [y H]. exists y. by apply lookup_alloc_old. Qed.

Lemma wf_alloc_client h cl :
  wf h ->
  FakeClient_uploads cl = [] ->
  FakeClient___buckets cl = [] ->
  wf (mkHeap (client_store h ++ [cl]) (bucket_store h) (blob_store h)
             (upload_store h)).
Proof.
  intros Hwf Hu Hb.
  set (h' := mkHeap _ _ _ _).
  assert (Hext : extends h h').
  { split; [|intros b bk H; by exists bk|intros l bl H; by exists bl].
    intros c H. by apply is_Some_alloc_old. }
  split.
  - intros c cl0 H. simpl in H.
    apply lookup_snoc_Some in H as [[_ H]|[_ <-]].
    + apply (client_ok_extends h); [done..|]. by apply (wf_clients h Hwf).
    + split; [|split].
      * intros n b Hin. rewrite Hb in Hin. by apply elem_of_nil in Hin.
      * rewrite Hu. apply NoDup_nil_2.
      * intros url u Hin. rewrite Hu in Hin. by apply elem_of_nil in Hin.
  - intros b bk H. apply (bucket_ok_extends h); [done|]. by apply (wf_buckets h Hwf).
  - intros l bl H. apply (blob_ok_extends h); [done|]. by apply (wf_blobs h Hwf l).
  - intros u up H. apply (upload_ok_extends h); [done|]. by apply (wf_uploads h Hwf u).
Qed.

Lemma wf_alloc_bucket h bk :
  wf h ->
  is_Some (client_store h !! FakeBucket_client bk) ->
  FakeBucket_blobs bk = [] ->
  wf (mkHeap (client_store h) (bucket_store h ++ [bk]) (blob_store h)
             (upload_store h)).
Proof.
  intros Hwf Hc Hb.
  set (h' := mkHeap _ _ _ _).
  assert (Hext : extends h h').
  { split; [done| |intros l bl H; by exists bl].
    intros b bk0 H. exists bk0. split; [by apply lookup_alloc_old|done]. }
  split.
  - intros c cl H. apply (client_ok_extends h); [done..|]. by apply (wf_clients h Hwf).
  - intros b bk0 H. simpl in H.
    apply lookup_snoc_Some in H as [[_ H]|[_ <-]].
    + apply (bucket_ok_extends h); [done|]. by apply (wf_buckets h Hwf).
    + split; [done|]. rewrite Hb. split; [apply NoDup_nil_2|].
      intros n l Hin. by apply elem_of_nil in Hin.
  - intros l bl H. apply (blob_ok_extends h); [done|]. by apply (wf_blobs h Hwf l).
  - intros u up H. apply (upload_ok_extends h); [done|]. by apply (wf_uploads h Hwf u).
Qed.

Lemma wf_alloc_blob h bl :
  wf h ->
  is_Some (bucket_store h !! FakeBlob__bucket bl) ->
  wf (mkHeap (client_store h) (bucket_store h) (blob_store h ++ [bl])
             (upload_store h)).
Proof.
  intros Hwf Hb.
  set (h' := mkHeap _ _ _ _).
  assert (Hext : extends h h').
  { split; [done|intros b bk H; by exists bk|].
    intros l bl0 H. exists bl0. split; [by apply lookup_alloc_old|done]. }
  split.
  - intros c cl H. apply (client_ok_extends h); [done..|]. by apply (wf_clients h Hwf).
  - intros b bk H. apply (bucket_ok_extends h); [done|]. by apply (wf_buckets h Hwf).
  - intros l bl0 H. simpl in H.
    apply lookup_snoc_Some in H as [[_ H]|[_ <-]]; [|done].
    apply (blob_ok_extends h); [done|]. by apply (wf_blobs h Hwf l).
  - intros u up H. apply (upload_ok_extends h); [done|]. by apply (wf_uploads h Hwf u).
Qed.

Lemma wf_alloc_upload h up :
  wf h ->
  is_Some (blob_store h !! FakeBlobUpload_blob up) ->
  wf (mkHeap (client_store h) (bucket_store h) (blob_store h)
             (upload_store h ++ [up])).
Proof.
  intros Hwf Hb.
  set (h' := mkHeap _ _ _ _).
  assert (Hext : extends h h').
  { split; [done|intros b bk H; by exists bk|intros l bl H; by exists bl]. }
  split.
  - intros c cl H. apply (client_ok_extends h); [done| |by apply (wf_clients h Hwf)].
    intros url u Hin.
    destruct (wf_client_uploads h Hwf c cl url u H Hin) as (up0 & Hup0 & _).
    simpl. rewrite Hup0. by apply lookup_alloc_old.
  - intros b bk H. by apply (wf_buckets h Hwf).
  - intros l bl H. by apply (wf_blobs h Hwf l).
  - intros u up0 H. simpl in H.
    apply lookup_snoc_Some in H as [[_ H]|[_ <-]]; [|done].
    by apply (wf_uploads h Hwf u).
Qed.

(** The constructors. *)

Lemma wf_FakeClient_init h : wf h -> wf (fst (FakeClient_init h)).
Proof. intros Hwf. by apply wf_alloc_client. Qed.

Lemma wf_FakeBucket_init h client name :
  wf h -> is_Some (client_store h !! client) ->
  wf (fst (FakeBucket_init client name h)).
Proof.
  intros Hwf [cl Hcl].
  assert (Hwf0 : wf (mkHeap (client_store h)
                       (bucket_store h ++ [mkFakeBucket client name [] true])
                       (blob_store h) (upload_store h))).
  { apply wf_alloc_bucket; [done|by exists cl|done]. }
  destruct (odict_get name (FakeClient___buckets cl)) as [b|] eqn:Hget.
  - by rewrite (FakeBucket_init_Conflict h client cl name Hcl (ex_intro _ b Hget)).
  - rewrite (FakeBucket_init_ok h client cl name Hcl Hget). cbn [fst].
    set (h0 := mkHeap _ _ _ _) in Hwf0.
    apply (wf_put_client h0 client cl); [done|done|].
    destruct (wf_clients h0 Hwf0 client cl Hcl) as (Hb & Hnd & Hu).
    split; [|by split]. intros n b Hin. cbn [FakeClient___buckets set___buckets] in Hin.
    apply odict_set_elem_of in Hin as [[-> ->]|Hin]; [|by apply (Hb n)].
    eexists. apply lookup_alloc.
Qed.

Lemma wf_FakeBlob_init h name bucket :
  wf h -> is_Some (bucket_store h !! bucket) ->
  wf (fst (FakeBlob_init name bucket h)).
Proof.
  intros Hwf [bk Hbk]. rewrite (FakeBlob_init_ok h name bucket bk Hbk). cbn [fst].
  set (new := mkFakeBlob name bucket true (BytesIO.new [])).
  set (h0 := mkHeap (client_store h) (bucket_store h) (blob_store h ++ [new])
               (upload_store h)).
  assert (Hwf0 : wf h0) by (apply wf_alloc_blob; [done|by exists bk]).
  apply (wf_put_bucket h0 bucket bk); [done|done|done| |].
  - apply odict_setdefault_keys_NoDup, (wf_bucket_keys h Hwf bucket bk Hbk).
  - intros n l Hin. cbn [FakeBucket_blobs set_blobs] in Hin.
    apply odict_setdefault_elem_of in Hin as [[-> ->]|Hin].
    + exists new. split; [apply lookup_alloc|done].
    + destruct (wf_buckets h0 Hwf0 bucket bk Hbk) as (_ & _ & H). by apply H.
Qed.

Lemma wf_FakeBucket_blob h bucket blob_id :
  wf h -> is_Some (bucket_store h !! bucket) ->
  wf (fst (FakeBucket_blob bucket blob_id h)).
Proof.
  intros Hwf [bk Hbk].
  destruct (FakeBucket_blob_ok h bucket bk blob_id Hbk) as (h' & -> & E).
  cbn [fst]. change h' with (fst (h', @inr exn nat (length (blob_store h)))).
  rewrite <- E. apply wf_FakeBlob_init; [done|by exists bk].
Qed.

(** Reading, writing and deleting a blob. *)

Lemma wf_FakeBlob_download_as_bytes h blob start end_ :
  wf h -> is_Some (blob_store h !! blob) ->
  wf (fst (FakeBlob_download_as_bytes blob start end_ h)).
Proof.
  intros Hwf [bl Hbl]. destruct (Z.lt_ge_cases start 0) as [Hneg|Hpos].
  - by rewrite (FakeBlob_download_as_bytes_negative h blob bl start end_ Hbl Hneg).
  - rewrite (FakeBlob_download_as_bytes_ok h blob bl start end_ Hbl Hpos).
    cbn [fst]. by apply (wf_put_blob h blob bl).
Qed.

Lemma FakeBlob_upload_from_string_raise h self data e :
  as_bytes data = inl e ->
  FakeBlob_upload_from_string self data h = (h, inl e).
Proof.
  intros Hd. unfold FakeBlob_upload_from_string, lift, bind. by rewrite Hd.
Qed.

Lemma wf_FakeBlob_upload_from_string h blob data :
  wf h -> is_Some (blob_store h !! blob) ->
  wf (fst (FakeBlob_upload_from_string blob data h)).
Proof.
  intros Hwf [bl Hbl]. destruct (as_bytes data) as [e|bs] eqn:Hd.
  - by rewrite (FakeBlob_upload_from_string_raise h blob data e Hd).
  - rewrite (FakeBlob_upload_from_string_ok h blob bl data bs Hbl Hd).
    cbn [fst]. by apply (wf_put_blob h blob bl).
Qed.

(** Both outcomes of [FakeBlob.delete] at once: the heap it leaves is
    well-formed and keeps every object in place. *)
Lemma FakeBlob_delete_cases h blob bl :
  wf h -> blob_store h !! blob = Some bl ->
  exists h' r, FakeBlob_delete blob h = (h', r) /\ wf h' /\ extends h h'
               /\ client_store h' = client_store h
               /\ upload_store h' = upload_store h.
Proof.
  intros Hwf Hbl. destruct (wf_blobs h Hwf blob bl Hbl) as [bk Hbk].
  destruct (odict_get (FakeBlob_name bl) (FakeBucket_blobs bk)) as [l|] eqn:Hget.
  - destruct (odict_del_is_Some (FakeBlob_name bl) (FakeBucket_blobs bk))
      as [d Hd]; [by eexists|].
    rewrite (FakeBlob_delete_ok h blob bl bk d Hbl Hbk Hd).
    set (h1 := put_bucket _ (set_blobs d bk) h).
    assert (Hwf1 : wf h1).
    { apply (wf_put_bucket h _ bk); [done|done|done| |].
      - apply (odict_del_keys_NoDup _ _ _ (wf_bucket_keys h Hwf _ bk Hbk) Hd).
      - intros n l0 Hin. destruct (wf_buckets h Hwf _ bk Hbk) as (_ & _ & H).
        apply H. by apply (odict_del_subseteq _ _ _ Hd). }
    assert (Hext1 : extends h h1) by by apply (extends_put_bucket h _ bk).
    do 2 eexists. split; [done|]. split; [|split; [|done]].
    + by apply (wf_put_blob h1 blob bl).
    + apply (extends_trans h h1); [done|]. by apply (extends_put_blob h1 blob bl).
  - rewrite (FakeBlob_delete_KeyError h blob bl bk Hbl Hbk Hget).
    do 2 eexists. split; [done|]. split; [done|]. split; [apply extends_refl|done].
Qed.

Lemma wf_FakeBlob_delete h blob :
  wf h -> is_Some (blob_store h !! blob) -> wf (fst (FakeBlob_delete blob h)).
Proof.
  intros Hwf [bl Hbl].
  destruct (FakeBlob_delete_cases h blob bl Hwf Hbl) as (h' & r & -> & Hwf' & _).
  done.
Qed.

Lemma wf_delete_each blobs : forall h,
  wf h ->
  (forall l, l ∈ blobs -> is_Some (blob_store h !! l)) ->
  wf (fst (delete_each blobs h)).
Proof.
  induction blobs as [|l blobs IH]; intros h Hwf Hvalid; [done|].
  destruct (Hvalid l (list_elem_of_here _ _)) as [bl Hbl].
  destruct (FakeBlob_delete_cases h l bl Hwf Hbl)
    as (h' & r & E & Hwf' & Hext & _).
  simpl. unfold bind. rewrite E. destruct r as [e|[]]; [done|].
  apply IH; [done|]. intros l0 Hin.
  destruct (Hvalid l0 (list_elem_of_further _ _ _ Hin)) as [bl0 Hbl0].
  destruct (ext_blob h h' Hext l0 bl0 Hbl0) as (bl0' & Hbl0' & _). by exists bl0'.
Qed.

Lemma FakeBucket_delete_unfold h bucket bk cl d :
  bucket_store h !! bucket = Some bk ->
  client_store h !! FakeBucket_client bk = Some cl ->
  odict_del (FakeBucket_name bk) (FakeClient___buckets cl) = Some d ->
  FakeBucket_delete bucket h
  = delete_each (odict_values (FakeBucket_blobs bk))
      (put_bucket bucket (set_bucket__exists false bk)
         (put_client (FakeBucket_client bk) (set___buckets d cl) h)).
Proof.
  intros Hbk Hcl Hd. unfold FakeBucket_delete.
  rewrite (bind_ok _ _ _ _ _ (load_bucket_ok _ _ _ Hbk)).
  rewrite (bind_ok _ _ _ _ _
             (FakeClient_delete_bucket_ok h _ bucket bk cl d Hbk Hcl Hd)).
  rewrite (bind_ok _ _ _ _ _ (load_bucket_ok (put_client _ _ h) _ _ Hbk)).
  unfold bind at 1, store_bucket.
  erewrite bind_ok; [|apply load_bucket_ok; apply (lookup_insert_Some _ _ _ _ Hbk)].
  done.
Qed.

Lemma wf_FakeBucket_delete h bucket :
  wf h -> is_Some (bucket_store h !! bucket) ->
  wf (fst (FakeBucket_delete bucket h)).
Proof.
  intros Hwf [bk Hbk].
  destruct (wf_buckets h Hwf bucket bk Hbk) as ([cl Hcl] & Hnd & Hblobs).
  destruct (odict_get (FakeBucket_name bk) (FakeClient___buckets cl)) as [b|] eqn:Hget.
  - destruct (odict_del_is_Some (FakeBucket_name bk) (FakeClient___buckets cl))
      as [d Hd]; [by eexists|].
    rewrite (FakeBucket_delete_unfold h bucket bk cl d Hbk Hcl Hd).
    set (h1 := put_client _ _ h).
    assert (Hwf1 : wf h1).
    { apply (wf_put_client h _ cl); [done|done|].
      destruct (wf_clients h Hwf _ cl Hcl) as (Hb & Hndu & Hu).
      split; [|by split]. intros n b0 Hin. apply (Hb n).
      by apply (odict_del_subseteq _ _ _ Hd). }
    set (h2 := put_bucket bucket _ h1).
    assert (Hwf2 : wf h2).
    { apply (wf_put_bucket h1 bucket bk); [done|done|done|done|].
      intros n l Hin. by apply Hblobs. }
    apply wf_delete_each; [done|]. intros l Hin.
    unfold odict_values in Hin.
    apply list_elem_of_fmap in Hin as [[n l0] [-> Hin]].
    destruct (Hblobs n l0 Hin) as (bl & Hbl & _). by exists bl.
  - unfold FakeBucket_delete.
    rewrite (bind_ok _ _ _ _ _ (load_bucket_ok _ _ _ Hbk)).
    by rewrite (bind_raise _ _ _ _ _
                  (FakeClient_delete_bucket_KeyError h _ bucket bk cl Hbk Hcl Hget)).
Qed.

(** The upload sessions. *)

Lemma FakeClient_register_upload_ok h self upload up cl :
  upload_store h !! upload = Some up ->
  client_store h !! self = Some cl ->
  FakeClient_register_upload self upload h
  = (put_client self
       (set_uploads (odict_set (FakeBlobUpload_url up) upload (FakeClient_uploads cl)) cl)
       h, inr tt).
Proof.
  intros Hup Hcl. unfold FakeClient_register_upload.
  rewrite (bind_ok _ _ _ _ _ (load_upload_ok _ _ _ Hup)).
  by rewrite (bind_ok _ _ _ _ _ (load_client_ok _ _ _ Hcl)).
Qed.

Section session_invariants.
Variable RESUMABLE_SESSION_URI_TEMPLATE : string -> string -> string.
Variable _UNKNOWN : string.
Variable _UPLOAD_INCOMPLETE_STATUS_CODES : list Z.

(** Opening a session allocates it and registers it under its URL in the
    client of the blob's bucket, in place of any session that had the
    same URL. *)
Lemma FakeBlob_create_resumable_upload_session_ok h self upload_id bl bk cl :
  blob_store h !! self = Some bl ->
  bucket_store h !! FakeBlob__bucket bl = Some bk ->
  client_store h !! FakeBucket_client bk = Some cl ->
  let url := RESUMABLE_SESSION_URI_TEMPLATE (FakeBucket_name bk) upload_id in
  FakeBlob_create_resumable_upload_session RESUMABLE_SESSION_URI_TEMPLATE
    self upload_id h
  = (put_client (FakeBucket_client bk)
       (set_uploads (odict_set url (length (upload_store h)) (FakeClient_uploads cl)) cl)
       (mkHeap (client_store h) (bucket_store h) (blob_store h)
          (upload_store h
             ++ [mkFakeBlobUpload url self false (Some (BytesIO.new []))])),
     inr url).
Proof.
  intros Hbl Hbk Hcl url. unfold FakeBlob_create_resumable_upload_session.
  rewrite (bind_ok _ _ _ _ _ (load_blob_ok _ _ _ Hbl)).
  rewrite (bind_ok _ _ _ _ _ (load_bucket_ok _ _ _ Hbk)).
  fold url. unfold FakeBlobUpload_init, alloc_upload. unfold bind at 1.
  set (up := mkFakeBlobUpload url self false _).
  set (h0 := mkHeap _ _ _ (upload_store h ++ [up])).
  erewrite bind_ok; [done|]. unfold FakeBucket_register_upload.
  rewrite (bind_ok _ _ _ _ _ (load_bucket_ok h0 _ _ Hbk)).
  apply (FakeClient_register_upload_ok h0 _ _ up cl); [apply lookup_alloc|done].
Qed.

Lemma wf_FakeBlob_create_resumable_upload_session h blob upload_id :
  wf h -> is_Some (blob_store h !! blob) ->
  wf (fst (FakeBlob_create_resumable_upload_session
             RESUMABLE_SESSION_URI_TEMPLATE blob upload_id h)).
Proof.
  intros Hwf [bl Hbl]. destruct (wf_blobs h Hwf blob bl Hbl) as [bk Hbk].
  destruct (wf_buckets h Hwf _ bk Hbk) as ([cl Hcl] & _).
  rewrite (FakeBlob_create_resumable_upload_session_ok h blob upload_id bl bk cl
             Hbl Hbk Hcl). cbv zeta. cbn [fst].
  set (url := RESUMABLE_SESSION_URI_TEMPLATE _ _).
  set (up := mkFakeBlobUpload url blob false _).
  set (h0 := mkHeap _ _ _ (upload_store h ++ [up])).
  assert (Hwf0 : wf h0) by (apply wf_alloc_upload; [done|by exists bl]).
  apply (wf_put_client h0 _ cl); [done|done|].
  destruct (wf_clients h0 Hwf0 _ cl Hcl) as (Hb & Hnd & Hu).
  split; [done|]. split; [by apply odict_set_keys_NoDup|].
  intros url' u Hin. cbn [FakeClient_uploads set_uploads] in Hin.
  apply odict_set_elem_of in Hin as [[-> ->]|Hin]; [|by apply Hu].
  exists up. split; [apply lookup_alloc|]. split; [done|]. split.
  - unfold upload_owner. cbn [FakeBlobUpload_blob up h0 blob_store bucket_store].
    by rewrite Hbl, Hbk.
  - by exists (BytesIO.new []).
Qed.

Lemma wf_FakeAuthorizedSession_put h session url data headers :
  wf h ->
  is_Some (client_store h
             !! FakeCredentials_client (FakeAuthorizedSession__credentials session)) ->
  wf (fst (FakeAuthorizedSession_put _UNKNOWN _UPLOAD_INCOMPLETE_STATUS_CODES
             session url data headers h)).
Proof.
  intros Hwf [cl Hcl].
  destruct (odict_get url (FakeClient_uploads cl)) as [upload|] eqn:Hget;
    [|by rewrite (put_KeyError _ _ h session cl url data headers Hcl Hget)].
  destruct (wf_client_uploads h Hwf _ cl url upload Hcl
              (odict_get_elem_of _ _ _ Hget))
    as (up & Hup & _ & _ & io & Hio & Htell).
  destruct (wf_upload_blob h Hwf upload up Hup) as [bl Hbl].
  unfold FakeAuthorizedSession_put.
  rewrite (bind_ok _ _ _ _ _ (load_client_ok _ _ _ Hcl)). rewrite Hget.
  rewrite (bind_ok _ _ _ _ _ (put_appends h upload up io data Hup Hio)).
  rewrite (write_at_end _ _ Htell).
  set (io1 := BytesIO.mk _ _).
  set (up1 := set_upload___contents (Some io1) up).
  set (h1 := put_upload upload up1 h).
  assert (Hwf1 : wf h1).
  { apply (wf_put_upload h upload up); [done..|]. left. by exists io1. }
  assert (Hup1 : upload_store h1 !! upload = Some up1)
    by apply (lookup_insert_Some _ _ _ _ Hup).
  destruct headers as [hd|]; [|done].
  destruct (negb _); [|by destruct _UPLOAD_INCOMPLETE_STATUS_CODES].
  destruct (FakeBlobUpload__finished up) eqn:Hfin.
  - by rewrite (bind_ok _ _ _ _ _ (FakeBlobUpload_finish_noop h1 upload up1 Hup1 Hfin)).
  - rewrite (bind_ok _ _ _ _ _
               (FakeBlobUpload_finish_ok h1 upload up1 io1 bl Hup1 Hfin eq_refl Hbl)).
    cbn [fst ret].
    set (h2 := put_blob _ _ h1).
    assert (Hwf2 : wf h2) by by apply (wf_put_blob h1 _ bl).
    apply (wf_put_upload h2 upload up1); [done..|]. left. by eexists.
Qed.

Lemma wf_FakeAuthorizedSession_delete h session url :
  wf h ->
  is_Some (client_store h
             !! FakeCredentials_client (FakeAuthorizedSession__credentials session)) ->
  wf (fst (FakeAuthorizedSession_delete session url h)).
Proof.
  intros Hwf [cl Hcl]. set (client := FakeCredentials_client _) in *.
  destruct (odict_get url (FakeClient_uploads cl)) as [upload|] eqn:Hget;
    [|by rewrite (delete_KeyError h session cl url Hcl Hget)].
  destruct (odict_del_is_Some url (FakeClient_uploads cl)) as [d' Hd'];
    [by eexists|].
  pose proof (wf_uploads_keys h Hwf client cl Hcl) as Hnd.
  destruct (wf_client_uploads h Hwf client cl url upload Hcl
              (odict_get_elem_of _ _ _ Hget))
    as (up & Hup & Hurl & Hown & Hlive).
  destruct (wf_upload_blob h Hwf upload up Hup) as [bl Hbl].
  unfold FakeAuthorizedSession_delete. fold client.
  rewrite (bind_ok _ _ _ _ _ (load_client_ok _ _ _ Hcl)).
  unfold odict_pop. rewrite Hget, Hd'. unfold bind at 1, store_client.
  set (cl' := set_uploads d' cl).
  set (h0 := put_client client cl' h).
  assert (Hwf0 : wf h0).
  { apply (wf_put_client h client cl); [done|done|].
    destruct (wf_clients h Hwf client cl Hcl) as (Hb & _ & Hu).
    split; [done|]. split; [by apply (odict_del_keys_NoDup url (FakeClient_uploads cl) d')|].
    intros url' u Hin. apply Hu. by apply (odict_del_subseteq _ _ _ Hd'). }
  assert (Hunreg : unregistered h0 upload).
  { intros c0 cl0 url0 Hcl0 Hin.
    destruct (wf_client_uploads h0 Hwf0 c0 cl0 url0 upload Hcl0 Hin)
      as (up0 & Hup0 & Hurl0 & Hown0 & _).
    assert (up0 = up) as -> by (simpl in Hup0; congruence).
    assert (c0 = client) as -> by (unfold upload_owner in *; simpl in Hown0; congruence).
    assert (cl0 = cl') as ->.
    { unfold h0 in Hcl0. simpl in Hcl0.
      rewrite (lookup_insert_Some _ _ _ _ Hcl) in Hcl0. congruence. }
    assert (url0 = url) as -> by congruence.
    apply (elem_of_keys url upload) in Hin.
    by apply (odict_get_None_keys url d'); [apply (odict_get_del _ _ _ Hnd Hd')|]. }
  unfold FakeBlobUpload_terminate.
  rewrite (bind_ok _ _ _ _ _ (load_upload_ok h0 _ _ Hup)).
  destruct (FakeBlob_delete_cases h0 _ bl Hwf0 Hbl)
    as (h1 & r & E & Hwf1 & Hext & Hc1 & Hu1).
  unfold bind at 1. rewrite E. destruct r as [e|[]]; [done|].
  assert (Hup1 : upload_store h1 !! upload = Some up) by by rewrite Hu1.
  rewrite (bind_ok _ _ _ _ _ (load_upload_ok h1 _ _ Hup1)). cbn [fst store_upload].
  apply (wf_put_upload h1 upload up); [done..|]. right.
  intros c0 cl0 url0 Hcl0. rewrite Hc1 in Hcl0. by apply (Hunreg c0).
Qed.

(** Every heap that the interface can produce is well-formed. *)
Theorem reachable_wf h :
  reachable RESUMABLE_SESSION_URI_TEMPLATE _UNKNOWN
            _UPLOAD_INCOMPLETE_STATUS_CODES h ->
  wf h.
Proof.
  induction 1 as [|h c Hreach IH Hok].
  - split; intros i o H; by destruct i.
  - destruct c; cbn [exec]; cbn [call_ok] in Hok.
    + by apply wf_FakeClient_init.
    + by apply wf_FakeBucket_init.
    + by apply wf_FakeBlob_init.
    + by apply wf_FakeBucket_blob.
    + by apply wf_FakeBucket_delete.
    + by apply wf_FakeBlob_delete.
    + by apply wf_FakeBlob_download_as_bytes.
    + by apply wf_FakeBlob_upload_from_string.
    + by apply wf_FakeBlob_create_resumable_upload_session.
    + by apply wf_FakeAuthorizedSession_put.
    + by apply wf_FakeAuthorizedSession_delete.
Qed.

End session_invariants.

Lemma reachable_run_from T U C calls : forall h,
  reachable T U C h -> calls_ok T U C h calls ->
  reachable T U C (run_from T U C h calls).
Proof.
  induction calls as [|c calls IH]; intros h Hreach Hok; [done|].
  destruct Hok as [Hc Hok]. simpl. apply IH; [|done]. by apply reachable_step.
Qed.

(** The heap of a script whose calls are made on existing references is
    well-formed. *)
Lemma wf_run calls :
  calls_ok example_template example_UNKNOWN example_STATUS_CODES empty_heap calls ->
  wf (run calls).
Proof.
  intros Hok. eapply reachable_wf, reachable_run_from; [apply reachable_empty|done].
Qed.

Ltac solve_calls_ok := cbv; repeat split; eexists; reflexivity.

Lemma wf_script_blob : wf (run script_blob).
Proof. apply wf_run. solve_calls_ok. Qed.

Lemma wf_script_session : wf (run script_session).
Proof. apply wf_run. solve_calls_ok. Qed.

(** ** The claims on the example scripts *)



Lemma C3_witness :
  exists h',
    FakeAuthorizedSession_delete example_session example_url (run script_session)
    = (h', inr tt)
    /\ FakeBlob_exists 0 h' = (h', inr false)
    /\ FakeAuthorizedSession_delete example_session example_url h'
       = (h', inl (KeyError example_url))
    /\ example_put example_url None (Some headers_known) h'
       = (h', inl (KeyError example_url)).
Proof.
  destruct (C3_session_delete_and_unknown_url example_UNKNOWN example_STATUS_CODES
              (run script_session) example_session
              (mkFakeClient (mkFakeCredentials 0) [(example_url, 0)]
                 [("test-bucket", 0)])
              example_url wf_script_session eq_refl) as [A _].
  destruct (A 0 (mkFakeBlobUpload example_url 0 false (Some (BytesIO.new [])))
              (mkFakeBlob "test-blob" 0 true (BytesIO.new []))
              (mkFakeBucket 0 "test-bucket" [("test-blob", 0)] true)
              eq_refl eq_refl eq_refl eq_refl (ex_intro _ 0 eq_refl))
    as (h' & E & _ & Hex & _ & Hdel & Hput).
  exists h'. split; [exact E|]. split; [exact Hex|]. split; [exact Hdel|].
  apply Hput.
Defined.

(** C3, as stated, fails.  A [put] and a [delete] on a URL that is not
    registered raise [KeyError], which is not a [NotFound]; and a
    [delete] on a registered URL whose target blob was deleted before
    raises [KeyError] from [FakeBlob.delete] instead of completing. *)
Lemma C3_counterexample :
  snd (example_put "no-such-url" None (Some headers_known) (run script_session))
  = inl (KeyError "no-such-url")
  /\ snd (FakeAuthorizedSession_delete example_session "no-such-url"
            (run script_session))
     = inl (KeyError "no-such-url")
  /\ snd (FakeAuthorizedSession_delete example_session example_url
            (run script_orphan_session))
     = inl (KeyError "test-blob").
Proof. repeat split; reflexivity. Qed.


Lemma C5_witness :
  exists h',
    FakeBucket_delete 0 (run script_blob) = (h', inr tt)
    /\ FakeBucket_exists 0 h' = (h', inr false)
    /\ FakeBlob_exists 0 h' = (h', inr false)
    /\ FakeBucket_list_blobs 0 h' = (h', inr []).
Proof.
  destruct (C5_bucket_delete_cascades (run script_blob) 0
              (mkFakeBucket 0 "test-bucket" [("test-blob", 0)] true)
              (mkFakeClient (mkFakeCredentials 0) [] [("test-bucket", 0)])
              wf_script_blob eq_refl eq_refl) as [A _].
  destruct (A (ex_intro _ 0 eq_refl)) as (h' & E & Hex & Hblobs & Hlist & _).
  exists h'. split; [exact E|]. split; [exact Hex|]. split; [|exact Hlist].
  apply (Hblobs "test-blob" 0). apply list_elem_of_here.
Defined.

(** C5, as stated, fails on a bucket whose name is not registered.  On a
    bucket that was deleted before, the blob [blob.txt] constructed in it
    afterwards is contained in the bucket, the second [delete()] raises
    [KeyError] at its first statement, and the blob still exists.  The
    same happens to a bucket that was never deleted and whose [exists()]
    is true, once a second [delete()] of a deleted bucket of the same
    name has taken the name out of the client: its [delete()] raises, and
    the bucket and its blob still exist. *)
Lemma C5_counterexample :
  (snd (FakeBucket_list_blobs 0 (run script_deleted_bucket)) = inr [0]
   /\ snd (FakeBucket_delete 0 (run script_deleted_bucket))
      = inl (KeyError "test-bucket")
   /\ snd (FakeBlob_exists 0 (fst (FakeBucket_delete 0 (run script_deleted_bucket))))
      = inr true)
  /\ (snd (FakeBucket_exists 1 (run script_shadowed_bucket)) = inr true
      /\ snd (FakeBucket_list_blobs 1 (run script_shadowed_bucket)) = inr [0]
      /\ snd (FakeBucket_delete 1 (run script_shadowed_bucket))
         = inl (KeyError "test-bucket")
      /\ snd (FakeBucket_exists 1 (fst (FakeBucket_delete 1 (run script_shadowed_bucket))))
         = inr true
      /\ snd (FakeBlob_exists 0 (fst (FakeBucket_delete 1 (run script_shadowed_bucket))))
         = inr true).
Proof. repeat split; reflexivity. Qed.

Lemma C8_witness :
  exists h1 h2 blob,
    FakeBucket_blob 0 "blob.txt" (run script_blob) = (h1, inr blob)
    /\ FakeBucket_blob 0 "blob.txt" h1 = (h2, inr blob)
    /\ FakeBucket_get_blob 0 "blob.txt" h2 = (h2, inr blob).
Proof.
  destruct (C8_blob_twice_same_handle (run script_blob) 0
              (mkFakeBucket 0 "test-bucket" [("test-blob", 0)] true)
              "blob.txt" wf_script_blob eq_refl)
    as (h1 & h2 & blob & E1 & E2 & _ & G2 & _).
  exists h1, h2, blob. split; [exact E1|]. split; [exact E2|exact G2].
Defined.

Lemma C10_witness :
  exists h1 h2 new,
    FakeBlob_delete 0 (run script_blob) = (h1, inr tt)
    /\ FakeBucket_blob 0 "test-blob" h1 = (h2, inr new)
    /\ new <> 0
    /\ FakeBlob_exists new h2 = (h2, inr true)
    /\ FakeBlob_size new h2 = (h2, inr None)
    /\ FakeBlob_exists 0 h2 = (h2, inr false).
Proof.
  destruct (C10_deleted_blob_resurrected (run script_blob) 0
              (mkFakeBucket 0 "test-bucket" [("test-blob", 0)] true)
              "test-blob" 0 wf_script_blob eq_refl eq_refl)
    as (h1 & h2 & new & E1 & _ & _ & E2 & Hne & _ & _ & Hex & _ & Hsz & Hold).
  exists h1, h2, new. split; [exact E1|]. split; [exact E2|]. split; [exact Hne|].
  split; [exact Hex|]. split; [exact Hsz|exact Hold].
Defined.

(** * Further properties of the code *)

(** ** Blobs in a bucket *)

(** X1: constructing a blob under a name that is free in the bucket
    appends it to the bucket's listing, which keeps insertion order, and
    makes [get_blob] return it under that name, while every other name
    resolves as before; under a name that is taken the listing stays as
    it was. *)
Theorem X1_new_blob_listed_last h bucket bk name :
  bucket_store h !! bucket = Some bk ->
  exists h' new,
    FakeBlob_init name bucket h = (h', inr new)
    /\ blob_store h !! new = None
    /\ FakeBlob_exists new h' = (h', inr true)
    /\ (odict_get name (FakeBucket_blobs bk) = None ->
        FakeBucket_list_blobs bucket h'
        = (h', inr (odict_values (FakeBucket_blobs bk) ++ [new]))
        /\ FakeBucket_get_blob bucket name h' = (h', inr new))
    /\ (is_Some (odict_get name (FakeBucket_blobs bk)) ->
        FakeBucket_list_blobs bucket h'
        = (h', inr (odict_values (FakeBucket_blobs bk))))
    /\ (forall other, other <> name ->
          snd (FakeBucket_get_blob bucket other h')
          = snd (FakeBucket_get_blob bucket other h)).
Proof.
  intros Hbk. pose proof (FakeBlob_init_ok h name bucket bk Hbk) as E.
  set (new := length (blob_store h)) in *.
  set (bk' := set_blobs (odict_setdefault name new (FakeBucket_blobs bk)) bk) in E.
  match type of E with _ = (?x, _) => set (h' := x) in E end.
  assert (Hbk' : bucket_store h' !! bucket = Some bk')
    by apply (lookup_insert_Some _ _ _ _ Hbk).
  exists h', new. split; [exact E|].
  split; [apply lookup_ge_None; unfold new; lia|].
  split; [apply (FakeBlob_exists_ok h' new (mkFakeBlob name bucket true (BytesIO.new [])));
          apply lookup_alloc|].
  split; [|split].
  - intros Hfree. split.
    + rewrite (FakeBucket_list_blobs_ok h' bucket bk' Hbk').
      unfold bk', odict_setdefault. cbn [FakeBucket_blobs set_blobs].
      rewrite (proj2 (odict_contains_false _ _) Hfree).
      rewrite (odict_set_absent _ _ _ Hfree).
      unfold odict_values. by rewrite map_app.
    + apply (FakeBucket_get_blob_ok h' bucket bk' name new Hbk').
      unfold bk'. cbn [FakeBucket_blobs set_blobs].
      rewrite odict_get_setdefault. by rewrite Hfree.
  - intros Htaken. rewrite (FakeBucket_list_blobs_ok h' bucket bk' Hbk').
    unfold bk'. cbn [FakeBucket_blobs set_blobs].
    by rewrite (odict_setdefault_present _ _ _ Htaken).
  - intros other Hne. unfold FakeBucket_get_blob.
    rewrite (bind_ok _ _ _ _ _ (load_bucket_ok _ _ _ Hbk')).
    rewrite (bind_ok _ _ _ _ _ (load_bucket_ok _ _ _ Hbk)).
    unfold bk'. cbn [FakeBucket_blobs set_blobs].
    rewrite (odict_get_setdefault_ne name other) by done.
    by destruct (odict_get other (FakeBucket_blobs bk)).
Qed.

Lemma X1_witness :
  exists h' new,
    FakeBlob_init "blob_two.parquet" 0 (run script_blob) = (h', inr new)
    /\ FakeBucket_list_blobs 0 h' = (h', inr [0; new])
    /\ FakeBucket_get_blob 0 "blob_two.parquet" h' = (h', inr new).
Proof.
  destruct (X1_new_blob_listed_last (run script_blob) 0
              (mkFakeBucket 0 "test-bucket" [("test-blob", 0)] true)
              "blob_two.parquet" eq_refl)
    as (h' & new & E & _ & _ & Hfree & _).
  destruct (Hfree eq_refl) as [Hlist Hget].
  exists h', new. split; [exact E|]. split; [exact Hlist|exact Hget].
Defined.

(** X2: constructing a blob under a name that is taken yields a second
    handle that exists but is not the registered one; deleting that
    second handle removes the name from the bucket, so the original blob
    can no longer be looked up although it is itself unchanged and still
    reports that it exists. *)
Theorem X2_duplicate_handle_unregisters_original h bucket bk n old :
  wf h ->
  bucket_store h !! bucket = Some bk ->
  odict_get n (FakeBucket_blobs bk) = Some old ->
  exists h1 dup h2 bl,
    FakeBlob_init n bucket h = (h1, inr dup)
    /\ dup <> old
    /\ FakeBlob_exists dup h1 = (h1, inr true)
    /\ FakeBucket_get_blob bucket n h1 = (h1, inr old)
    /\ FakeBlob_delete dup h1 = (h2, inr tt)
    /\ FakeBucket_get_blob bucket n h2
       = (h2, inl (NotFound ("Blob " +:+ n +:+ " not found")))
    /\ FakeBlob_exists dup h2 = (h2, inr false)
    /\ blob_store h !! old = Some bl
    /\ blob_store h2 !! old = Some bl.
Proof.
  intros Hwf Hbk Hget.
  destruct (wf_bucket_blobs h Hwf bucket bk n old Hbk
              (odict_get_elem_of _ _ _ Hget)) as (bl & Hbl & _).
  pose proof (wf_bucket_keys h Hwf bucket bk Hbk) as Hnd.
  pose proof (FakeBlob_init_ok h n bucket bk Hbk) as E1.
  rewrite (odict_setdefault_present n _ (FakeBucket_blobs bk)) in E1
    by by eexists.
  rewrite set_blobs_id, (list_insert_id _ _ _ Hbk) in E1.
  set (dup := length (blob_store h)) in *.
  set (new := mkFakeBlob n bucket true (BytesIO.new [])) in *.
  match type of E1 with _ = (?x, _) => set (h1 := x) in E1 end.
  assert (Hdup : blob_store h1 !! dup = Some new) by apply lookup_alloc.
  assert (Hold1 : blob_store h1 !! old = Some bl) by by apply lookup_alloc_old.
  destruct (odict_del_is_Some n (FakeBucket_blobs bk)) as [d Hd]; [by eexists|].
  pose proof (FakeBlob_delete_ok h1 dup new bk d Hdup Hbk Hd) as E2.
  match type of E2 with _ = (?x, _) => set (h2 := x) in E2 end.
  assert (Hlt : old < dup) by apply (lookup_lt_Some _ _ _ Hbl).
  exists h1, dup, h2, bl. split; [exact E1|]. split; [lia|].
  split; [apply (FakeBlob_exists_ok h1 dup new Hdup)|].
  split; [by apply (FakeBucket_get_blob_ok h1 bucket bk)|].
  split; [exact E2|]. split.
  { apply (FakeBucket_get_blob_NotFound h2 bucket (set_blobs d bk)).
    - apply (lookup_insert_Some _ _ _ _ Hbk).
    - apply (odict_get_del _ _ _ Hnd Hd). }
  split.
  { apply (FakeBlob_exists_ok h2 dup (set_blob__exists false new)).
    apply (lookup_insert_Some _ _ _ _ Hdup). }
  split; [exact Hbl|].
  unfold h2. cbn [blob_store put_blob put_bucket].
  rewrite list_lookup_insert_ne by lia. exact Hold1.
Qed.

Lemma X2_witness :
  exists h1 dup h2,
    FakeBlob_init "test-blob" 0 (run script_blob) = (h1, inr dup)
    /\ FakeBucket_get_blob 0 "test-blob" h1 = (h1, inr 0)
    /\ FakeBlob_delete dup h1 = (h2, inr tt)
    /\ FakeBucket_get_blob 0 "test-blob" h2
       = (h2, inl (NotFound "Blob test-blob not found"))
    /\ FakeBlob_exists 0 h2 = (h2, inr true).
Proof.
  destruct (X2_duplicate_handle_unregisters_original (run script_blob) 0
              (mkFakeBucket 0 "test-bucket" [("test-blob", 0)] true)
              "test-blob" 0 wf_script_blob eq_refl eq_refl)
    as (h1 & dup & h2 & bl & E1 & _ & _ & G1 & E2 & G2 & _ & Hbl & Hbl2).
  exists h1, dup, h2. split; [exact E1|]. split; [exact G1|]. split; [exact E2|].
  split; [exact G2|].
  injection Hbl as <-. apply (FakeBlob_exists_ok h2 0 _ Hbl2).
Defined.

(** X3: a blob can be deleted once.  After [delete()] has succeeded, a
    second [delete()] on the same handle raises [KeyError] with the
    blob's name and changes nothing. *)
Theorem X3_second_blob_delete_raises h bucket bk n blob :
  wf h ->
  bucket_store h !! bucket = Some bk ->
  odict_get n (FakeBucket_blobs bk) = Some blob ->
  exists h1,
    FakeBlob_delete blob h = (h1, inr tt)
    /\ FakeBlob_delete blob h1 = (h1, inl (KeyError n)).
Proof.
  intros Hwf Hbk Hget.
  destruct (wf_bucket_blobs h Hwf bucket bk n blob Hbk
              (odict_get_elem_of _ _ _ Hget)) as (bl & Hbl & Hn & Hb).
  pose proof (wf_bucket_keys h Hwf bucket bk Hbk) as Hnd.
  destruct (odict_del_is_Some n (FakeBucket_blobs bk)) as [d Hd]; [by eexists|].
  subst n bucket.
  pose proof (FakeBlob_delete_ok h blob bl bk d Hbl Hbk Hd) as E1.
  match type of E1 with _ = (?x, _) => set (h1 := x) in E1 end.
  exists h1. split; [exact E1|].
  apply (FakeBlob_delete_KeyError h1 blob (set_blob__exists false bl) (set_blobs d bk)).
  - apply (lookup_insert_Some _ _ _ _ Hbl).
  - apply (lookup_insert_Some _ _ _ _ Hbk).
  - apply (odict_get_del _ _ _ Hnd Hd).
Qed.

Lemma X3_witness :
  exists h1,
    FakeBlob_delete 0 (run script_blob) = (h1, inr tt)
    /\ FakeBlob_delete 0 h1 = (h1, inl (KeyError "test-blob")).
Proof.
  apply (X3_second_blob_delete_raises (run script_blob) 0
           (mkFakeBucket 0 "test-bucket" [("test-blob", 0)] true)
           "test-blob" 0 wf_script_blob eq_refl eq_refl).
Defined.

(** ** Writing and reading a blob *)

(** X4: a write replaces the content instead of appending to it, and a
    read with the default arguments right after a write returns exactly
    what was written: after two writes [download_as_bytes()] returns the
    bytes of the second one. *)
Theorem X4_write_replaces_and_reads_back h self bl data1 data2 bs1 bs2 :
  blob_store h !! self = Some bl ->
  as_bytes data1 = inr bs1 ->
  as_bytes data2 = inr bs2 ->
  exists h1 h2 h3,
    FakeBlob_upload_from_string self data1 h = (h1, inr tt)
    /\ FakeBlob_upload_from_string self data2 h1 = (h2, inr tt)
    /\ FakeBlob_download_as_bytes self 0 None h2 = (h3, inr bs2)
    /\ blob_content h3 self = Some bs2.
Proof.
  intros Hbl Hd1 Hd2.
  pose proof (FakeBlob_upload_from_string_ok h self bl data1 bs1 Hbl Hd1) as E1.
  set (bl1 := set_blob___contents _ bl) in E1.
  set (h1 := put_blob self bl1 h) in E1.
  assert (Hbl1 : blob_store h1 !! self = Some bl1)
    by apply (lookup_insert_Some _ _ _ _ Hbl).
  pose proof (FakeBlob_upload_from_string_ok h1 self bl1 data2 bs2 Hbl1 Hd2) as E2.
  set (bl2 := set_blob___contents _ bl1) in E2.
  set (h2 := put_blob self bl2 h1) in E2.
  assert (Hbl2 : blob_store h2 !! self = Some bl2)
    by apply (lookup_insert_Some _ _ _ _ Hbl1).
  pose proof (FakeBlob_download_as_bytes_ok h2 self bl2 0 None Hbl2) as E3.
  cbv zeta in E3. specialize (E3 ltac:(lia)).
  match type of E3 with _ = (?x, inr ?c) => set (h3 := x) in E3;
                                            assert (Hc : c = bs2) end.
  { unfold BytesIO.read, bl2. cbn [fst BytesIO.tell BytesIO.getvalue
      FakeBlob___contents set_blob___contents Z.to_nat].
    destruct (Z.ltb_spec (Z.of_nat (length bs2) - 0) 0) as [Hlt|_]; [lia|].
    rewrite drop_0. apply take_ge. lia. }
  pose proof (eq_trans E3 (f_equal (fun c => (h3, inr c)) Hc)) as E3'.
  exists h1, h2, h3.
  split; [exact E1|]. split; [exact E2|]. split; [exact E3'|].
  unfold blob_content, h3. cbn [blob_store put_blob].
  by rewrite (lookup_insert_Some _ _ _ _ Hbl2).
Qed.

Lemma X4_witness :
  exists h1 h2 h3,
    FakeBlob_upload_from_string 0 (PyBytes (b_ "first, longer")) (run script_blob)
    = (h1, inr tt)
    /\ FakeBlob_upload_from_string 0 (PyStr [116; 101; 115; 116]%N) h1 = (h2, inr tt)
    /\ FakeBlob_download_as_bytes 0 0 None h2 = (h3, inr (b_ "test")).
Proof.
  destruct (X4_write_replaces_and_reads_back (run script_blob) 0
              (mkFakeBlob "test-blob" 0 true (BytesIO.new []))
              (PyBytes (b_ "first, longer")) (PyStr [116; 101; 115; 116]%N)
              (b_ "first, longer") (b_ "test") eq_refl eq_refl eq_refl)
    as (h1 & h2 & h3 & E1 & E2 & E3 & _).
  exists h1, h2, h3. split; [exact E1|]. split; [exact E2|exact E3].
Defined.

(** X5: the default [end] of [download_as_bytes] is the stream position,
    not the length of the content.  After a range read that ended at
    [end], a read [download_as_bytes(start2)] with [end] omitted returns
    [content[start2:end]] only, whatever lies behind [end]. *)
Theorem X5_default_end_is_stream_position h self bl start end_ start2 :
  blob_store h !! self = Some bl ->
  let v := BytesIO.getvalue (FakeBlob___contents bl) in
  (0 <= start <= end_)%Z ->
  (end_ <= Z.of_nat (length v))%Z ->
  (0 <= start2 <= end_)%Z ->
  exists h1 chunk h2,
    FakeBlob_download_as_bytes self start (Some end_) h = (h1, inr chunk)
    /\ FakeBlob_download_as_bytes self start2 None h1
       = (h2, inr (slice (Z.to_nat start2) (Z.to_nat end_) v)).
Proof.
  intros Hbl v [Hs He] HeL [Hs2 He2].
  pose proof (FakeBlob_download_as_bytes_ok h self bl start (Some end_) Hbl Hs) as E1.
  cbv zeta in E1.
  set (r := BytesIO.read _ _) in E1.
  set (bl1 := set_blob___contents (snd r) bl) in E1.
  set (h1 := put_blob self bl1 h) in E1.
  assert (Ht : BytesIO.tell (snd r) = Z.to_nat end_).
  { unfold r. rewrite read_tell; simpl; fold v; lia. }
  assert (Hbl1 : blob_store h1 !! self = Some bl1)
    by apply (lookup_insert_Some _ _ _ _ Hbl).
  pose proof (FakeBlob_download_as_bytes_ok h1 self bl1 start2 None Hbl1 Hs2) as E2.
  cbv zeta in E2.
  match type of E2 with _ = (?x, inr ?c) =>
    set (h2 := x) in E2;
    assert (Hc : c = slice (Z.to_nat start2) (Z.to_nat end_) v) end.
  { unfold bl1. cbn [FakeBlob___contents set_blob___contents]. rewrite Ht.
    unfold BytesIO.read, slice. cbn [fst BytesIO.tell BytesIO.getvalue].
    rewrite Z2Nat.id by lia.
    destruct (Z.ltb_spec (end_ - start2) 0) as [Hlt|_]; [lia|].
    replace (BytesIO.getvalue (snd r)) with v by reflexivity.
    f_equal. lia. }
  pose proof (eq_trans E2 (f_equal (fun c => (h2, inr c)) Hc)) as E2'.
  exists h1, (fst r), h2. split; [exact E1|exact E2'].
Qed.

Lemma X5_witness :
  exists h1 chunk h2,
    FakeBlob_download_as_bytes 0 0 (Some 2%Z) (run script_written) = (h1, inr chunk)
    /\ FakeBlob_download_as_bytes 0 0 None h1 = (h2, inr (b_ "te")).
Proof.
  apply (X5_default_end_is_stream_position (run script_written) 0
           (mkFakeBlob "test-blob" 0 true (BytesIO.mk (b_ "test") 4))
           0 2 0 eq_refl); simpl; lia.
Defined.



(** ** Buckets in a client *)

(** X7: constructing a bucket under a name that is free in its client
    succeeds whatever the other clients hold: the new bucket is a new
    object, exists, lists no blob and is what the client returns for the
    name; the client resolves every other name as before and no other
    client changes. *)
Theorem X7_new_bucket_registered_in_its_client_only h client cl name :
  client_store h !! client = Some cl ->
  odict_get name (FakeClient___buckets cl) = None ->
  exists h' bucket,
    FakeBucket_init client name h = (h', inr bucket)
    /\ bucket_store h !! bucket = None
    /\ FakeClient_bucket client name h' = (h', inr bucket)
    /\ FakeBucket_exists bucket h' = (h', inr true)
    /\ FakeBucket_list_blobs bucket h' = (h', inr [])
    /\ (forall other, other <> name ->
          snd (FakeClient_bucket client other h')
          = snd (FakeClient_bucket client other h))
    /\ (forall c, c <> client -> client_store h' !! c = client_store h !! c).
Proof.
  intros Hcl Hfree. pose proof (FakeBucket_init_ok h client cl name Hcl Hfree) as E.
  set (bucket := length (bucket_store h)) in *.
  set (cl' := set___buckets _ cl) in E.
  match type of E with _ = (?x, _) => set (h' := x) in E end.
  assert (Hcl' : client_store h' !! client = Some cl')
    by apply (lookup_insert_Some _ _ _ _ Hcl).
  assert (Hbk' : bucket_store h' !! bucket = Some (mkFakeBucket client name [] true))
    by apply lookup_alloc.
  exists h', bucket. split; [exact E|].
  split; [apply lookup_ge_None; unfold bucket; lia|].
  split; [apply (FakeClient_bucket_ok h' client cl' name bucket Hcl');
          apply odict_get_set|].
  split; [apply (FakeBucket_exists_ok h' bucket _ Hbk')|].
  split; [apply (FakeBucket_list_blobs_ok h' bucket _ Hbk')|].
  split.
  - intros other Hne. unfold FakeClient_bucket.
    rewrite (bind_ok _ _ _ _ _ (load_client_ok _ _ _ Hcl')).
    rewrite (bind_ok _ _ _ _ _ (load_client_ok _ _ _ Hcl)).
    unfold cl'. cbn [FakeClient___buckets set___buckets].
    rewrite (odict_get_set_ne name other) by done.
    by destruct (odict_get other (FakeClient___buckets cl)).
  - intros c Hne. unfold h'. cbn [client_store].
    by apply list_lookup_insert_ne.
Qed.

Lemma X7_witness :
  exists h' bucket,
    FakeBucket_init 1 "test-bucket"
      (run (script_blob ++ [NewClient])) = (h', inr bucket)
    /\ FakeClient_bucket 1 "test-bucket" h' = (h', inr bucket)
    /\ FakeClient_bucket 0 "test-bucket" h' = (h', inr 0)
    /\ bucket <> 0.
Proof.
  destruct (X7_new_bucket_registered_in_its_client_only
              (run (script_blob ++ [NewClient])) 1
              (mkFakeClient (mkFakeCredentials 1) [] [])
              "test-bucket" eq_refl eq_refl)
    as (h' & bucket & E & Hnew & Hget & _ & _ & _ & Hother).
  exists h', bucket. split; [exact E|]. split; [exact Hget|]. split.
  - apply (FakeClient_bucket_ok h' 0
             (mkFakeClient (mkFakeCredentials 0) [] [("test-bucket", 0)])).
    + rewrite (Hother 0) by lia. reflexivity.
    + reflexivity.
  - intros ->. discriminate Hnew.
Defined.

(** ** Upload sessions *)

(** X8: opening a resumable upload session on a blob returns the URL made
    from the name of the blob's bucket and the upload id, and registers
    under that URL, in the client of the bucket, a new session that
    targets the blob, is not finished and has an empty staging buffer;
    the registry resolves every other URL as before and no blob or
    bucket changes. *)
Theorem X8_session_opened_and_registered
    (T : string -> string -> string) h blob bl bk cl upload_id :
  blob_store h !! blob = Some bl ->
  bucket_store h !! FakeBlob__bucket bl = Some bk ->
  client_store h !! FakeBucket_client bk = Some cl ->
  exists h' upload,
    FakeBlob_create_resumable_upload_session T blob upload_id h
    = (h', inr (T (FakeBucket_name bk) upload_id))
    /\ upload_store h !! upload = None
    /\ FakeAuthorizedSession__blob_with_url (T (FakeBucket_name bk) upload_id)
         (FakeBucket_client bk) h'
       = (h', inr (Some upload))
    /\ upload_store h' !! upload
       = Some (mkFakeBlobUpload (T (FakeBucket_name bk) upload_id) blob false
                 (Some (BytesIO.new [])))
    /\ blob_store h' = blob_store h
    /\ bucket_store h' = bucket_store h
    /\ (forall url r, url <> T (FakeBucket_name bk) upload_id ->
          FakeAuthorizedSession__blob_with_url url (FakeBucket_client bk) h
          = (h, inr r) ->
          FakeAuthorizedSession__blob_with_url url (FakeBucket_client bk) h'
          = (h', inr r)).
Proof.
  intros Hbl Hbk Hcl.
  pose proof (FakeBlob_create_resumable_upload_session_ok T h blob upload_id
                bl bk cl Hbl Hbk Hcl) as E.
  cbv zeta in E.
  set (url := T (FakeBucket_name bk) upload_id) in *.
  set (upload := length (upload_store h)) in *.
  set (cl' := set_uploads _ cl) in E.
  match type of E with _ = (?x, _) => set (h' := x) in E end.
  assert (Hcl' : client_store h' !! FakeBucket_client bk = Some cl')
    by apply (lookup_insert_Some _ _ _ _ Hcl).
  exists h', upload. split; [exact E|].
  split; [apply lookup_ge_None; unfold upload; lia|].
  split.
  { unfold FakeAuthorizedSession__blob_with_url.
    rewrite (bind_ok _ _ _ _ _ (load_client_ok _ _ _ Hcl')).
    unfold cl'. cbn [FakeClient_uploads set_uploads]. by rewrite odict_get_set. }
  split; [apply lookup_alloc|]. split; [done|]. split; [done|].
  intros url' r Hne. unfold FakeAuthorizedSession__blob_with_url.
  rewrite (bind_ok _ _ _ _ _ (load_client_ok _ _ _ Hcl')).
  rewrite (bind_ok _ _ _ _ _ (load_client_ok _ _ _ Hcl)).
  unfold cl'. cbn [FakeClient_uploads set_uploads].
  rewrite (odict_get_set_ne url url') by done.
  unfold ret. congruence.
Qed.

Lemma X8_witness :
  exists h' upload,
    FakeBlob_create_resumable_upload_session example_template 0 "0002"
      (run script_session)
    = (h', inr (example_template "test-bucket" "0002"))
    /\ FakeAuthorizedSession__blob_with_url
         (example_template "test-bucket" "0002") 0 h'
       = (h', inr (Some upload))
    /\ FakeAuthorizedSession__blob_with_url example_url 0 h' = (h', inr (Some 0))
    /\ upload <> 0.
Proof.
  destruct (X8_session_opened_and_registered example_template
              (run script_session) 0
              (mkFakeBlob "test-blob" 0 true (BytesIO.new []))
              (mkFakeBucket 0 "test-bucket" [("test-blob", 0)] true)
              (mkFakeClient (mkFakeCredentials 0) [(example_url, 0)]
                 [("test-bucket", 0)])
              "0002" eq_refl eq_refl eq_refl)
    as (h' & upload & E & Hnew & Hget & _ & _ & _ & Hother).
  exists h', upload. split; [exact E|]. split; [exact Hget|]. split.
  - apply (Hother example_url (Some 0)); [discriminate|reflexivity].
  - intros ->. discriminate Hnew.
Defined.

(** ** The transport adapter *)

Lemma str_endswith_empty suffix : suffix <> "" -> str_endswith "" suffix = false.
Proof. destruct suffix; [done|reflexivity]. Qed.

Lemma put_without_headers U C h session cl url upload up io data :
  client_store h !! FakeCredentials_client (FakeAuthorizedSession__credentials session)
  = Some cl ->
  odict_get url (FakeClient_uploads cl) = Some upload ->
  upload_store h !! upload = Some up ->
  FakeBlobUpload___contents up = Some io ->
  FakeAuthorizedSession_put U C session url data None h
  = (put_upload upload
       (set_upload___contents (Some (BytesIO.write (chunk_of data) io)) up) h,
     inl (AttributeError "'NoneType' object has no attribute 'get'")).
Proof.
  intros Hcl Hget Hup Hio. unfold FakeAuthorizedSession_put.
  rewrite (bind_ok _ _ _ _ _ (load_client_ok _ _ _ Hcl)). rewrite Hget.
  by rewrite (bind_ok _ _ _ _ _ (put_appends h upload up io data Hup Hio)).
Qed.

Lemma put_after_finish U C h session cl url upload up io data hd :
  client_store h !! FakeCredentials_client (FakeAuthorizedSession__credentials session)
  = Some cl ->
  odict_get url (FakeClient_uploads cl) = Some upload ->
  upload_store h !! upload = Some up ->
  FakeBlobUpload___contents up = Some io ->
  FakeBlobUpload__finished up = true ->
  declares_unknown U hd = false ->
  FakeAuthorizedSession_put U C session url data (Some hd) h
  = (put_upload upload
       (set_upload___contents (Some (BytesIO.write (chunk_of data) io)) up) h,
     inr (mkFakeResponse 200 None)).
Proof.
  intros Hcl Hget Hup Hio Hfin Hunk. unfold FakeAuthorizedSession_put.
  rewrite (bind_ok _ _ _ _ _ (load_client_ok _ _ _ Hcl)). rewrite Hget.
  rewrite (bind_ok _ _ _ _ _ (put_appends h upload up io data Hup Hio)).
  unfold declares_unknown in Hunk. rewrite Hunk. cbn [negb].
  erewrite bind_ok; [done|].
  eapply FakeBlobUpload_finish_noop; [apply (lookup_insert_Some _ _ _ _ Hup)|done].
Qed.

(** X9: [put] called without headers, the default of the parameter,
    fails on every registered session with an [AttributeError], and it
    fails after the chunk was appended: the staging buffer has grown by
    the chunk although the call raised, and no blob has changed. *)
Theorem X9_put_without_headers_raises_after_appending
    (U : string) (C : list Z) h session cl url upload data :
  wf h ->
  client_store h !! FakeCredentials_client (FakeAuthorizedSession__credentials session)
  = Some cl ->
  odict_get url (FakeClient_uploads cl) = Some upload ->
  exists buf h1 msg,
    upload_buffer h upload = Some buf
    /\ FakeAuthorizedSession_put U C session url data None h
       = (h1, inl (AttributeError msg))
    /\ upload_buffer h1 upload = Some (buf ++ chunk_of data)
    /\ blob_store h1 = blob_store h.
Proof.
  intros Hwf Hcl Hget.
  destruct (wf_client_uploads h Hwf _ cl url upload Hcl
              (odict_get_elem_of _ _ _ Hget))
    as (up & Hup & _ & _ & io & Hio & Htell).
  pose proof (put_without_headers U C h session cl url upload up io data
                Hcl Hget Hup Hio) as E.
  rewrite (write_at_end _ _ Htell) in E.
  match type of E with _ = (?x, _) => set (h1 := x) in E end.
  exists (BytesIO.getvalue io), h1. eexists. split.
  { unfold upload_buffer. by rewrite Hup, Hio. }
  split; [exact E|]. split; [|done].
  unfold upload_buffer, h1. cbn [upload_store put_upload].
  by rewrite (lookup_insert_Some _ _ _ _ Hup).
Qed.

Lemma X9_witness :
  exists h1 msg,
    example_put example_url (Some (RawData (b_ "test"))) None (run script_session)
    = (h1, inl (AttributeError msg))
    /\ upload_buffer h1 0 = Some (b_ "test").
Proof.
  destruct (X9_put_without_headers_raises_after_appending
              example_UNKNOWN example_STATUS_CODES (run script_session)
              example_session
              (mkFakeClient (mkFakeCredentials 0) [(example_url, 0)]
                 [("test-bucket", 0)])
              example_url 0 (Some (RawData (b_ "test")))
              wf_script_session eq_refl eq_refl)
    as (buf & h1 & msg & Hbuf & E & Hb1 & _).
  injection Hbuf as <-. exists h1, msg. split; [exact E|exact Hb1].
Defined.

(** X10: a [put] whose headers carry no [Content-Range] counts as the
    final chunk.  With a non-empty [_UNKNOWN] marker, such a [put] on a
    registered, unfinished session appends its chunk, commits the whole
    staging buffer to the target blob and answers 200. *)
Theorem X10_put_without_content_range_finishes
    (U : string) (C : list Z) h session cl url upload up data hd :
  wf h ->
  client_store h !! FakeCredentials_client (FakeAuthorizedSession__credentials session)
  = Some cl ->
  odict_get url (FakeClient_uploads cl) = Some upload ->
  upload_store h !! upload = Some up ->
  FakeBlobUpload__finished up = false ->
  U <> "" ->
  odict_get "Content-Range" hd = None ->
  exists buf h',
    upload_buffer h upload = Some buf
    /\ FakeAuthorizedSession_put U C session url data (Some hd) h
       = (h', inr (mkFakeResponse 200 None))
    /\ blob_content h' (FakeBlobUpload_blob up) = Some (buf ++ chunk_of data).
Proof.
  intros Hwf Hcl Hget Hup Hfin HU Hhd.
  destruct (wf_client_uploads h Hwf _ cl url upload Hcl
              (odict_get_elem_of _ _ _ Hget))
    as (up' & Hup' & _ & _ & io & Hio & Htell).
  rewrite Hup in Hup'. injection Hup' as <-.
  destruct (wf_upload_blob h Hwf upload up Hup) as [bl Hbl].
  assert (Hunk : declares_unknown U hd = false).
  { unfold declares_unknown. rewrite Hhd. by apply str_endswith_empty. }
  pose proof (put_finishes U C h session cl url upload up io bl data hd
                Hcl Hget Hup Hio Hfin Hbl Hunk) as E.
  cbv zeta in E. rewrite (write_at_end _ _ Htell) in E.
  cbn [BytesIO.getvalue] in E.
  match type of E with _ = (?x, _) => set (h' := x) in E end.
  exists (BytesIO.getvalue io), h'. split.
  { unfold upload_buffer. by rewrite Hup, Hio. }
  split; [exact E|].
  unfold blob_content, h'. cbn [blob_store put_upload put_blob].
  by rewrite (lookup_insert_Some _ _ _ _ Hbl).
Qed.

Lemma X10_witness :
  exists h',
    example_put example_url (Some (RawData (b_ "test")))
      (Some [("Content-Length", "4")]) (run script_session)
    = (h', inr (mkFakeResponse 200 None))
    /\ blob_content h' 0 = Some (b_ "test").
Proof.
  destruct (X10_put_without_content_range_finishes
              example_UNKNOWN example_STATUS_CODES (run script_session)
              example_session
              (mkFakeClient (mkFakeCredentials 0) [(example_url, 0)]
                 [("test-bucket", 0)])
              example_url 0
              (mkFakeBlobUpload example_url 0 false (Some (BytesIO.new [])))
              (Some (RawData (b_ "test"))) [("Content-Length", "4")]
              wf_script_session eq_refl eq_refl eq_refl eq_refl)
    as (buf & h' & Hbuf & E & Hc); [discriminate|reflexivity|].
  injection Hbuf as <-. exists h'. split; [exact E|exact Hc].
Defined.

(** X11: once a session has finished, a further [put] that declares the
    total length known still appends its chunk and still answers 200,
    but commits nothing: no blob changes. *)
Theorem X11_put_on_finished_session_commits_nothing
    (U : string) (C : list Z) h session cl url upload up data hd :
  wf h ->
  client_store h !! FakeCredentials_client (FakeAuthorizedSession__credentials session)
  = Some cl ->
  odict_get url (FakeClient_uploads cl) = Some upload ->
  upload_store h !! upload = Some up ->
  FakeBlobUpload__finished up = true ->
  declares_unknown U hd = false ->
  exists buf h1,
    upload_buffer h upload = Some buf
    /\ FakeAuthorizedSession_put U C session url data (Some hd) h
       = (h1, inr (mkFakeResponse 200 None))
    /\ upload_buffer h1 upload = Some (buf ++ chunk_of data)
    /\ blob_store h1 = blob_store h.
Proof.
  intros Hwf Hcl Hget Hup Hfin Hunk.
  destruct (wf_client_uploads h Hwf _ cl url upload Hcl
              (odict_get_elem_of _ _ _ Hget))
    as (up' & Hup' & _ & _ & io & Hio & Htell).
  rewrite Hup in Hup'. injection Hup' as <-.
  pose proof (put_after_finish U C h session cl url upload up io data hd
                Hcl Hget Hup Hio Hfin Hunk) as E.
  rewrite (write_at_end _ _ Htell) in E.
  match type of E with _ = (?x, _) => set (h1 := x) in E end.
  exists (BytesIO.getvalue io), h1. split.
  { unfold upload_buffer. by rewrite Hup, Hio. }
  split; [exact E|]. split; [|done].
  unfold upload_buffer, h1. cbn [upload_store put_upload].
  by rewrite (lookup_insert_Some _ _ _ _ Hup).
Qed.

Lemma X11_witness :
  exists h1,
    example_put example_url (Some (RawData (b_ "more"))) (Some headers_known)
      (run script_finished)
    = (h1, inr (mkFakeResponse 200 None))
    /\ upload_buffer h1 0 = Some (b_ "amore")
    /\ blob_content h1 0 = Some (b_ "a").
Proof.
  destruct (X11_put_on_finished_session_commits_nothing
              example_UNKNOWN example_STATUS_CODES (run script_finished)
              example_session
              (mkFakeClient (mkFakeCredentials 0) [(example_url, 0)]
                 [("test-bucket", 0)])
              example_url 0
              (mkFakeBlobUpload example_url 0 true (Some (BytesIO.mk (b_ "a") 1)))
              (Some (RawData (b_ "more"))) headers_known)
    as (buf & h1 & Hbuf & E & Hb1 & Hbl);
    [apply wf_run; solve_calls_ok|reflexivity..|].
  injection Hbuf as <-. exists h1. split; [exact E|]. split; [exact Hb1|].
  unfold blob_content. rewrite Hbl. reflexivity.
Defined.

(** X12: on a registered URL a [put] that is given headers never raises,
    whatever the data, the headers and the state of the session, as long
    as the tuple of incomplete status codes is not empty: it answers
    either 200 or the first incomplete code, and it changes neither the
    clients nor the buckets. *)
Theorem X12_put_on_registered_url_never_raises
    (U : string) (C : list Z) h session cl url upload data hd :
  wf h ->
  client_store h !! FakeCredentials_client (FakeAuthorizedSession__credentials session)
  = Some cl ->
  odict_get url (FakeClient_uploads cl) = Some upload ->
  C <> [] ->
  exists h' response,
    FakeAuthorizedSession_put U C session url data (Some hd) h = (h', inr response)
    /\ (status_code response = 200%Z \/ head C = Some (status_code response))
    /\ client_store h' = client_store h
    /\ bucket_store h' = bucket_store h.
Proof.
  intros Hwf Hcl Hget HC.
  destruct (wf_client_uploads h Hwf _ cl url upload Hcl
              (odict_get_elem_of _ _ _ Hget))
    as (up & Hup & _ & _ & io & Hio & Htell).
  destruct (wf_upload_blob h Hwf upload up Hup) as [bl Hbl].
  destruct C as [|code rest]; [done|].
  destruct (declares_unknown U hd) eqn:Hunk.
  - rewrite (put_incomplete U (code :: rest) h session cl url upload up io data hd
               code rest Hcl Hget Hup Hio Hunk eq_refl).
    do 2 eexists. split; [done|]. split; [by right|done].
  - destruct (FakeBlobUpload__finished up) eqn:Hfin.
    + rewrite (put_after_finish U (code :: rest) h session cl url upload up io
                 data hd Hcl Hget Hup Hio Hfin Hunk).
      do 2 eexists. split; [done|]. split; [by left|done].
    + rewrite (put_finishes U (code :: rest) h session cl url upload up io bl
                 data hd Hcl Hget Hup Hio Hfin Hbl Hunk).
      do 2 eexists. split; [done|]. split; [by left|done].
Qed.

Lemma X12_witness :
  exists h' response,
    example_put example_url None (Some []) (run script_finished)
    = (h', inr response)
    /\ (status_code response = 200%Z
        \/ head example_STATUS_CODES = Some (status_code response)).
Proof.
  destruct (X12_put_on_registered_url_never_raises
              example_UNKNOWN example_STATUS_CODES (run script_finished)
              example_session
              (mkFakeClient (mkFakeCredentials 0) [(example_url, 0)]
                 [("test-bucket", 0)])
              example_url 0 None [])
    as (h' & response & E & Hs & _);
    [apply wf_run; solve_calls_ok|reflexivity|reflexivity|discriminate|].
  exists h', response. split; [exact E|exact Hs].
Defined.

Lemma set_upload___contents_twice io io' up :
  set_upload___contents io' (set_upload___contents io up)
  = set_upload___contents io' up.
Proof. reflexivity. Qed.

(** A run of unknown-length [put]s appends the chunks in order, answers
    each with the first incomplete code and leaves the rest of the heap
    alone. *)
Lemma put_each_ok U C session cl url upload hd code rest chunks :
  forall h up v,
  client_store h !! FakeCredentials_client (FakeAuthorizedSession__credentials session)
  = Some cl ->
  odict_get url (FakeClient_uploads cl) = Some upload ->
  upload_store h !! upload = Some up ->
  FakeBlobUpload___contents up = Some (BytesIO.mk v (length v)) ->
  declares_unknown U hd = true ->
  C = code :: rest ->
  put_each U C session url hd chunks h
  = (put_upload upload
       (set_upload___contents
          (Some (BytesIO.mk (v ++ concat (map chunk_of chunks))
                            (length (v ++ concat (map chunk_of chunks))))) up) h,
     inr (replicate (length chunks) (mkFakeResponse code None))).
Proof.
  induction chunks as [|data chunks IH]; intros h up v Hcl Hget Hup Hio Hunk HC.
  - simpl. rewrite app_nil_r, (set_upload___contents_id _ _ Hio).
    by rewrite (put_upload_id _ _ _ Hup).
  - cbn [put_each].
    rewrite (bind_ok _ _ _ _ _
               (put_incomplete U C h session cl url upload up _ data hd code rest
                  Hcl Hget Hup Hio Hunk HC)).
    rewrite (write_at_end (chunk_of data) (BytesIO.mk v (length v)) eq_refl).
    cbn [BytesIO.getvalue].
    set (up1 := set_upload___contents _ up).
    set (h1 := put_upload upload up1 h).
    assert (Hup1 : upload_store h1 !! upload = Some up1)
      by apply (lookup_insert_Some _ _ _ _ Hup).
    rewrite (bind_ok _ _ _ _ _
               (IH h1 up1 (v ++ chunk_of data) Hcl Hget Hup1 eq_refl Hunk HC)).
    unfold ret, h1, up1, put_upload. cbn [upload_store client_store bucket_store
      blob_store map concat length replicate].
    rewrite list_insert_insert_eq, set_upload___contents_twice.
    by rewrite <- !app_assoc.
Qed.

(** X13: a chunked upload commits the concatenation of its chunks.  On a
    registered, unfinished session, any number of unknown-length [put]s
    are each answered with an incomplete code and change no blob; the
    known-length [put] that follows answers 200 and makes the content of
    the target blob the buffer as it was, followed by all the chunks in
    the order they were sent. *)
Theorem X13_chunked_upload_commits_concatenation
    (U : string) (C : list Z) h session cl url upload up hd hd' chunks last :
  wf h ->
  client_store h !! FakeCredentials_client (FakeAuthorizedSession__credentials session)
  = Some cl ->
  odict_get url (FakeClient_uploads cl) = Some upload ->
  upload_store h !! upload = Some up ->
  FakeBlobUpload__finished up = false ->
  declares_unknown U hd = true ->
  declares_unknown U hd' = false ->
  C <> [] ->
  exists buf h1 responses h2,
    upload_buffer h upload = Some buf
    /\ put_each U C session url hd chunks h = (h1, inr responses)
    /\ length responses = length chunks
    /\ Forall (fun r => head C = Some (status_code r)) responses
    /\ blob_store h1 = blob_store h
    /\ FakeAuthorizedSession_put U C session url last (Some hd') h1
       = (h2, inr (mkFakeResponse 200 None))
    /\ blob_content h2 (FakeBlobUpload_blob up)
       = Some (buf ++ concat (map chunk_of chunks) ++ chunk_of last).
Proof.
  intros Hwf Hcl Hget Hup Hfin Hunk Hunk' HC.
  destruct (wf_client_uploads h Hwf _ cl url upload Hcl
              (odict_get_elem_of _ _ _ Hget))
    as (up' & Hup' & _ & _ & [v p] & Hio & Htell).
  rewrite Hup in Hup'. injection Hup' as <-. simpl in Htell. subst p.
  destruct (wf_upload_blob h Hwf upload up Hup) as [bl Hbl].
  destruct C as [|code rest]; [done|].
  pose proof (put_each_ok U (code :: rest) session cl url upload hd code rest
                chunks h up v Hcl Hget Hup Hio Hunk eq_refl) as E1.
  set (io1 := BytesIO.mk (v ++ concat (map chunk_of chunks)) _) in E1.
  set (up1 := set_upload___contents (Some io1) up) in E1.
  set (h1 := put_upload upload up1 h) in E1.
  assert (Hup1 : upload_store h1 !! upload = Some up1)
    by apply (lookup_insert_Some _ _ _ _ Hup).
  pose proof (put_finishes U (code :: rest) h1 session cl url upload up1 io1 bl
                last hd' Hcl Hget Hup1 eq_refl Hfin Hbl Hunk') as E2.
  cbv zeta in E2. rewrite (write_at_end _ io1 eq_refl) in E2.
  cbn [BytesIO.getvalue io1] in E2. rewrite <- app_assoc in E2.
  match type of E2 with _ = (?x, _) => set (h2 := x) in E2 end.
  exists v, h1, (replicate (length chunks) (mkFakeResponse code None)), h2.
  split; [unfold upload_buffer; by rewrite Hup, Hio|].
  split; [exact E1|]. split; [apply length_replicate|].
  split; [by apply Forall_replicate|]. split; [done|]. split; [exact E2|].
  unfold blob_content, h2. cbn [blob_store put_upload put_blob].
  by rewrite (lookup_insert_Some _ _ _ _ Hbl).
Qed.

Lemma X13_witness :
  exists h1 responses h2,
    put_each example_UNKNOWN example_STATUS_CODES example_session example_url
      headers_unknown
      [Some (RawData (b_ "te")); None; Some (FileData (BytesIO.new (b_ "s")))]
      (run script_session)
    = (h1, inr responses)
    /\ length responses = 3
    /\ example_put example_url (Some (RawData (b_ "t"))) (Some headers_known) h1
       = (h2, inr (mkFakeResponse 200 None))
    /\ blob_content h2 0 = Some (b_ "test").
Proof.
  destruct (X13_chunked_upload_commits_concatenation
              example_UNKNOWN example_STATUS_CODES (run script_session)
              example_session
              (mkFakeClient (mkFakeCredentials 0) [(example_url, 0)]
                 [("test-bucket", 0)])
              example_url 0
              (mkFakeBlobUpload example_url 0 false (Some (BytesIO.new [])))
              headers_unknown headers_known
              [Some (RawData (b_ "te")); None; Some (FileData (BytesIO.new (b_ "s")))]
              (Some (RawData (b_ "t")))
              wf_script_session eq_refl eq_refl eq_refl eq_refl eq_refl eq_refl)
    as (buf & h1 & responses & h2 & Hbuf & E1 & Hlen & _ & _ & E2 & Hc);
    [discriminate|].
  injection Hbuf as <-. exists h1, responses, h2.
  split; [exact E1|]. split; [exact Hlen|]. split; [exact E2|exact Hc].
Defined.




(** X15: deleting a bucket leaves the upload sessions alone.  When
    [delete()] succeeds, every session object is as it was and every
    client resolves every URL as before, also the sessions that target
    blobs of the deleted bucket. *)
Theorem X15_bucket_delete_keeps_upload_sessions h bucket bk cl :
  wf h ->
  bucket_store h !! bucket = Some bk ->
  client_store h !! FakeBucket_client bk = Some cl ->
  is_Some (odict_get (FakeBucket_name bk) (FakeClient___buckets cl)) ->
  exists h',
    FakeBucket_delete bucket h = (h', inr tt)
    /\ upload_store h' = upload_store h
    /\ (forall client url r,
          FakeAuthorizedSession__blob_with_url url client h = (h, inr r) ->
          FakeAuthorizedSession__blob_with_url url client h' = (h', inr r)).
Proof.
  intros Hwf Hbk Hcl Hreg. destruct (odict_del_is_Some _ _ Hreg) as [d Hd].
  rewrite (FakeBucket_delete_unfold h bucket bk cl d Hbk Hcl Hd).
  set (cl1 := set___buckets d cl).
  set (h1 := put_client (FakeBucket_client bk) cl1 h).
  set (bk2 := set_bucket__exists false bk).
  set (h2 := put_bucket bucket bk2 h1).
  assert (Hbk2 : bucket_store h2 !! bucket = Some bk2)
    by apply (lookup_insert_Some _ _ _ _ Hbk).
  destruct (delete_each_ok (FakeBucket_blobs bk) h2 bucket bk2 Hbk2 eq_refl)
    as (h' & E' & Hc & Hu & _).
  { apply (wf_bucket_keys h Hwf bucket bk Hbk). }
  { intros n l Hin. apply (wf_bucket_blobs h Hwf bucket bk n l Hbk Hin). }
  exists h'. split; [exact E'|]. split; [by rewrite Hu|].
  intros client url r. unfold FakeAuthorizedSession__blob_with_url, bind, load_client.
  rewrite Hc. unfold h2, h1. cbn [client_store put_bucket put_client].
  destruct (decide (client = FakeBucket_client bk)) as [->|Hne].
  - rewrite (lookup_insert_Some _ _ _ _ Hcl), Hcl. cbn [from_option].
    unfold ret, cl1. cbn [FakeClient_uploads set___buckets]. congruence.
  - rewrite list_lookup_insert_ne by done.
    destruct (client_store h !! client); cbn [from_option]; unfold ret; congruence.
Qed.

Lemma X15_witness :
  exists h',
    FakeBucket_delete 0 (run script_session) = (h', inr tt)
    /\ FakeAuthorizedSession__blob_with_url example_url 0 h' = (h', inr (Some 0))
    /\ upload_buffer h' 0 = Some [].
Proof.
  destruct (X15_bucket_delete_keeps_upload_sessions (run script_session) 0
              (mkFakeBucket 0 "test-bucket" [("test-blob", 0)] true)
              (mkFakeClient (mkFakeCredentials 0) [(example_url, 0)]
                 [("test-bucket", 0)])
              wf_script_session eq_refl eq_refl (ex_intro _ 0 eq_refl))
    as (h' & E & Hu & Hurl).
  exists h'. split; [exact E|]. split; [by apply Hurl|].
  unfold upload_buffer. rewrite Hu. reflexivity.
Defined.

(** ** The registries hold live objects only *)

Lemma live_put_upload h u up : live h -> live (put_upload u up h).
Proof. intros [H1 H2 H3]. by split. Qed.

Lemma live_alloc_upload h up :
  live h ->
  live (mkHeap (client_store h) (bucket_store h) (blob_store h)
               (upload_store h ++ [up])).
Proof. intros [H1 H2 H3]. by split. Qed.

Lemma live_put_client h c cl' :
  live h ->
  NoDup (odict_keys (FakeClient___buckets cl')) ->
  (forall n b, (n, b) ∈ FakeClient___buckets cl' -> bucket_at h b n c) ->
  live (put_client c cl' h).
Proof.
  intros Hl Hnd Hb. split.
  - intros c0 cl0 H. simpl in H.
    apply list_lookup_insert_Some in H as [(-> & <- & _)|[Hne H]]; [done|].
    by apply (live_keys h Hl c0).
  - intros c0 cl0 n b H Hin. simpl in H.
    apply list_lookup_insert_Some in H as [(-> & <- & _)|[Hne H]].
    + by apply Hb.
    + by apply (live_buckets h Hl c0 cl0).
  - apply (live_blobs h Hl).
Qed.

Lemma live_put_bucket h b bk bk' :
  live h ->
  bucket_store h !! b = Some bk ->
  FakeBucket_name bk' = FakeBucket_name bk ->
  FakeBucket_client bk' = FakeBucket_client bk ->
  FakeBucket__exists bk' = FakeBucket__exists bk
  \/ (forall c cl n, client_store h !! c = Some cl ->
                     (n, b) ∉ FakeClient___buckets cl) ->
  (forall n l, (n, l) ∈ FakeBucket_blobs bk' -> blob_live h l) ->
  live (put_bucket b bk' h).
Proof.
  intros Hl Hbk Hn Hc Hor Hblobs. split.
  - apply (live_keys h Hl).
  - intros c cl n b0 Hcl Hin.
    destruct (live_buckets h Hl c cl n b0 Hcl Hin) as (bk0 & Hbk0 & Hn0 & Hc0 & He0).
    destruct (decide (b0 = b)) as [->|Hne].
    + destruct Hor as [He|Hunreg]; [|by destruct (Hunreg c cl n Hcl)].
      rewrite Hbk in Hbk0. injection Hbk0 as <-.
      exists bk'. split; [apply (lookup_insert_Some _ _ _ _ Hbk)|].
      by rewrite Hn, Hc, He.
    + exists bk0. split; [simpl; by rewrite list_lookup_insert_ne|done].
  - intros b0 bk0 n l H Hin. simpl in H.
    apply list_lookup_insert_Some in H as [(-> & <- & _)|[Hne H]].
    + by apply (Hblobs n).
    + by apply (live_blobs h Hl b0 bk0 n).
Qed.

Lemma live_put_blob h l bl' :
  live h ->
  (forall bl, blob_store h !! l = Some bl ->
              FakeBlob__exists bl' = FakeBlob__exists bl)
  \/ (forall b bk n, bucket_store h !! b = Some bk ->
                     (n, l) ∉ FakeBucket_blobs bk) ->
  live (put_blob l bl' h).
Proof.
  intros Hl Hor. split.
  - apply (live_keys h Hl).
  - apply (live_buckets h Hl).
  - intros b bk n l0 Hbk Hin.
    destruct (live_blobs h Hl b bk n l0 Hbk Hin) as (bl0 & Hbl0 & He0).
    destruct (decide (l0 = l)) as [->|Hne].
    + destruct Hor as [He|Hunreg]; [|by destruct (Hunreg b bk n Hbk)].
      exists bl'. split; [apply (lookup_insert_Some _ _ _ _ Hbl0)|].
      by rewrite (He bl0 Hbl0).
    + exists bl0. split; [simpl; by rewrite list_lookup_insert_ne|done].
Qed.

Lemma live_alloc_client h cl :
  live h ->
  FakeClient___buckets cl = [] ->
  live (mkHeap (client_store h ++ [cl]) (bucket_store h) (blob_store h)
               (upload_store h)).
Proof.
  intros Hl Hb. split.
  - intros c cl0 H. simpl in H.
    apply lookup_snoc_Some in H as [[_ H]|[_ <-]]; [by apply (live_keys h Hl c)|].
    rewrite Hb. apply NoDup_nil_2.
  - intros c cl0 n b H Hin. simpl in H.
    apply lookup_snoc_Some in H as [[_ H]|[_ <-]].
    + by apply (live_buckets h Hl c cl0).
    + rewrite Hb in Hin. by apply elem_of_nil in Hin.
  - apply (live_blobs h Hl).
Qed.

Lemma live_alloc_bucket h bk :
  live h ->
  FakeBucket_blobs bk = [] ->
  live (mkHeap (client_store h) (bucket_store h ++ [bk]) (blob_store h)
               (upload_store h)).
Proof.
  intros Hl Hb. split.
  - apply (live_keys h Hl).
  - intros c cl n b Hcl Hin.
    destruct (live_buckets h Hl c cl n b Hcl Hin) as (bk0 & Hbk0 & H).
    exists bk0. split; [by apply lookup_alloc_old|done].
  - intros b bk0 n l H Hin. simpl in H.
    apply lookup_snoc_Some in H as [[_ H]|[_ <-]].
    + by apply (live_blobs h Hl b bk0 n).
    + rewrite Hb in Hin. by apply elem_of_nil in Hin.
Qed.

Lemma live_alloc_blob h bl :
  live h ->
  live (mkHeap (client_store h) (bucket_store h) (blob_store h ++ [bl])
               (upload_store h)).
Proof.
  intros Hl. split.
  - apply (live_keys h Hl).
  - apply (live_buckets h Hl).
  - intros b bk n l Hbk Hin.
    destruct (live_blobs h Hl b bk n l Hbk Hin) as (bl0 & Hbl0 & H).
    exists bl0. split; [by apply lookup_alloc_old|done].
Qed.

Lemma live_FakeClient_init h : live h -> live (fst (FakeClient_init h)).
Proof. intros Hl. by apply live_alloc_client. Qed.

Lemma live_FakeBucket_init h client name :
  live h -> is_Some (client_store h !! client) ->
  live (fst (FakeBucket_init client name h)).
Proof.
  intros Hl [cl Hcl].
  assert (Hl0 : live (mkHeap (client_store h)
                        (bucket_store h ++ [mkFakeBucket client name [] true])
                        (blob_store h) (upload_store h)))
    by by apply live_alloc_bucket.
  destruct (odict_get name (FakeClient___buckets cl)) as [b|] eqn:Hget.
  - by rewrite (FakeBucket_init_Conflict h client cl name Hcl (ex_intro _ b Hget)).
  - rewrite (FakeBucket_init_ok h client cl name Hcl Hget). cbn [fst].
    set (h0 := mkHeap _ _ _ _) in Hl0.
    apply (live_put_client h0 client); [done| |].
    + apply odict_set_keys_NoDup, (live_keys h Hl client cl Hcl).
    + intros n b Hin. cbn [FakeClient___buckets set___buckets] in Hin.
      apply odict_set_elem_of in Hin as [[-> ->]|Hin].
      * eexists. split; [apply lookup_alloc|done].
      * by apply (live_buckets h0 Hl0 client cl).
Qed.

Lemma live_FakeBlob_init h name bucket :
  live h -> is_Some (bucket_store h !! bucket) ->
  live (fst (FakeBlob_init name bucket h)).
Proof.
  intros Hl [bk Hbk]. rewrite (FakeBlob_init_ok h name bucket bk Hbk). cbn [fst].
  set (new := mkFakeBlob name bucket true (BytesIO.new [])).
  set (h0 := mkHeap (client_store h) (bucket_store h) (blob_store h ++ [new])
               (upload_store h)).
  assert (Hl0 : live h0) by by apply live_alloc_blob.
  apply (live_put_bucket h0 bucket bk); [done|done|done|done|by left|].
  intros n l Hin. cbn [FakeBucket_blobs set_blobs] in Hin.
  apply odict_setdefault_elem_of in Hin as [[-> ->]|Hin].
  - exists new. split; [apply lookup_alloc|done].
  - by apply (live_blobs h0 Hl0 bucket bk n).
Qed.

Lemma live_FakeBucket_blob h bucket blob_id :
  live h -> is_Some (bucket_store h !! bucket) ->
  live (fst (FakeBucket_blob bucket blob_id h)).
Proof.
  intros Hl [bk Hbk].
  destruct (FakeBucket_blob_ok h bucket bk blob_id Hbk) as (h' & -> & E).
  cbn [fst]. change h' with (fst (h', @inr exn nat (length (blob_store h)))).
  rewrite <- E. apply live_FakeBlob_init; [done|by exists bk].
Qed.

Lemma live_FakeBlob_download_as_bytes h blob start end_ :
  live h -> is_Some (blob_store h !! blob) ->
  live (fst (FakeBlob_download_as_bytes blob start end_ h)).
Proof.
  intros Hl [bl Hbl]. destruct (Z.lt_ge_cases start 0) as [Hneg|Hpos].
  - by rewrite (FakeBlob_download_as_bytes_negative h blob bl start end_ Hbl Hneg).
  - rewrite (FakeBlob_download_as_bytes_ok h blob bl start end_ Hbl Hpos).
    cbn [fst]. apply live_put_blob; [done|]. left. intros bl0 Hbl0.
    rewrite Hbl in Hbl0. by injection Hbl0 as <-.
Qed.

Lemma live_FakeBlob_upload_from_string h blob data :
  live h -> is_Some (blob_store h !! blob) ->
  live (fst (FakeBlob_upload_from_string blob data h)).
Proof.
  intros Hl [bl Hbl]. destruct (as_bytes data) as [e|bs] eqn:Hd.
  - by rewrite (FakeBlob_upload_from_string_raise h blob data e Hd).
  - rewrite (FakeBlob_upload_from_string_ok h blob bl data bs Hbl Hd).
    cbn [fst]. apply live_put_blob; [done|]. left. intros bl0 Hbl0.
    rewrite Hbl in Hbl0. by injection Hbl0 as <-.
Qed.

(** A blob that deletes itself was the one registered under its name, or
    none was: no bucket lists it afterwards. *)
Lemma live_FakeBlob_delete h blob :
  wf h -> live h -> is_Some (blob_store h !! blob) ->
  live (fst (FakeBlob_delete blob h)).
Proof.
  intros Hwf Hl [bl Hbl]. destruct (wf_blobs h Hwf blob bl Hbl) as [bk Hbk].
  pose proof (wf_bucket_keys h Hwf _ bk Hbk) as Hnd.
  destruct (odict_get (FakeBlob_name bl) (FakeBucket_blobs bk)) as [l|] eqn:Hget;
    [|by rewrite (FakeBlob_delete_KeyError h blob bl bk Hbl Hbk Hget)].
  destruct (odict_del_is_Some (FakeBlob_name bl) (FakeBucket_blobs bk))
    as [d Hd]; [by eexists|].
  rewrite (FakeBlob_delete_ok h blob bl bk d Hbl Hbk Hd). cbn [fst].
  set (h1 := put_bucket _ (set_blobs d bk) h).
  assert (Hwf1 : wf h1).
  { apply (wf_put_bucket h _ bk); [done|done|done| |].
    - apply (odict_del_keys_NoDup _ _ _ Hnd Hd).
    - intros n l0 Hin. destruct (wf_buckets h Hwf _ bk Hbk) as (_ & _ & H).
      apply H. by apply (odict_del_subseteq _ _ _ Hd). }
  assert (Hl1 : live h1).
  { apply (live_put_bucket h _ bk); [done|done|done|done|by left|].
    intros n l0 Hin. apply (live_blobs h Hl _ bk n l0 Hbk).
    by apply (odict_del_subseteq _ _ _ Hd). }
  apply live_put_blob; [done|]. right. intros b0 bk0 n Hbk0 Hin.
  destruct (wf_bucket_blobs h1 Hwf1 b0 bk0 n blob Hbk0 Hin)
    as (bl0 & Hbl0 & Hn0 & Hb0).
  assert (bl0 = bl) as -> by (simpl in Hbl0; congruence). subst n b0.
  assert (bk0 = set_blobs d bk) as ->.
  { unfold h1 in Hbk0. simpl in Hbk0.
    rewrite (lookup_insert_Some _ _ _ _ Hbk) in Hbk0. congruence. }
  apply (elem_of_keys (FakeBlob_name bl) blob) in Hin.
  by apply (odict_get_None_keys (FakeBlob_name bl) d);
    [apply (odict_get_del _ _ _ Hnd Hd)|].
Qed.

Lemma live_delete_each blobs : forall h,
  wf h -> live h ->
  (forall l, l ∈ blobs -> is_Some (blob_store h !! l)) ->
  live (fst (delete_each blobs h)).
Proof.
  induction blobs as [|l blobs IH]; intros h Hwf Hl Hvalid; [done|].
  destruct (Hvalid l (list_elem_of_here _ _)) as [bl Hbl].
  pose proof (live_FakeBlob_delete h l Hwf Hl (ex_intro _ bl Hbl)) as Hl'.
  destruct (FakeBlob_delete_cases h l bl Hwf Hbl)
    as (h' & r & E & Hwf' & Hext & _).
  rewrite E in Hl'. cbn [fst] in Hl'.
  simpl. unfold bind. rewrite E. destruct r as [e|[]]; [done|].
  apply IH; [done|done|]. intros l0 Hin.
  destruct (Hvalid l0 (list_elem_of_further _ _ _ Hin)) as [bl0 Hbl0].
  destruct (ext_blob h h' Hext l0 bl0 Hbl0) as (bl0' & Hbl0' & _). by exists bl0'.
Qed.

(** A bucket that deletes itself took its name out of its client: no
    client lists it when its flag is cleared. *)
Lemma live_FakeBucket_delete h bucket :
  wf h -> live h -> is_Some (bucket_store h !! bucket) ->
  live (fst (FakeBucket_delete bucket h)).
Proof.
  intros Hwf Hl [bk Hbk].
  destruct (wf_buckets h Hwf bucket bk Hbk) as ([cl Hcl] & Hndb & Hblobs).
  pose proof (live_keys h Hl _ cl Hcl) as Hnd.
  destruct (odict_get (FakeBucket_name bk) (FakeClient___buckets cl)) as [b|] eqn:Hget.
  - destruct (odict_del_is_Some (FakeBucket_name bk) (FakeClient___buckets cl))
      as [d Hd]; [by eexists|].
    rewrite (FakeBucket_delete_unfold h bucket bk cl d Hbk Hcl Hd).
    set (h1 := put_client _ _ h).
    assert (Hwf1 : wf h1).
    { apply (wf_put_client h _ cl); [done|done|].
      destruct (wf_clients h Hwf _ cl Hcl) as (Hb & Hndu & Hu).
      split; [|by split]. intros n b0 Hin. apply (Hb n).
      by apply (odict_del_subseteq _ _ _ Hd). }
    assert (Hl1 : live h1).
    { apply live_put_client; [done| |].
      - apply (odict_del_keys_NoDup _ _ _ Hnd Hd).
      - intros n b0 Hin. apply (live_buckets h Hl _ cl n b0 Hcl).
        by apply (odict_del_subseteq _ _ _ Hd). }
    set (h2 := put_bucket bucket _ h1).
    assert (Hwf2 : wf h2).
    { apply (wf_put_bucket h1 bucket bk); [done|done|done|done|].
      intros n l Hin. by apply Hblobs. }
    assert (Hl2 : live h2).
    { apply (live_put_bucket h1 bucket bk); [done|done|done|done| |].
      - right. intros c0 cl0 n Hcl0 Hin.
        destruct (live_buckets h1 Hl1 c0 cl0 n bucket Hcl0 Hin)
          as (bk0 & Hbk0 & Hn0 & Hc0 & _).
        assert (bk0 = bk) as -> by (simpl in Hbk0; congruence). subst n c0.
        assert (cl0 = set___buckets d cl) as ->.
        { unfold h1 in Hcl0. simpl in Hcl0.
          rewrite (lookup_insert_Some _ _ _ _ Hcl) in Hcl0. congruence. }
        apply (elem_of_keys (FakeBucket_name bk) bucket) in Hin.
        by apply (odict_get_None_keys (FakeBucket_name bk) d);
          [apply (odict_get_del _ _ _ Hnd Hd)|].
      - intros n l Hin. by apply (live_blobs h Hl bucket bk n l Hbk). }
    apply live_delete_each; [done|done|]. intros l Hin.
    unfold odict_values in Hin.
    apply list_elem_of_fmap in Hin as [[n l0] [-> Hin]].
    destruct (Hblobs n l0 Hin) as (bl & Hbl & _). by exists bl.
  - unfold FakeBucket_delete.
    rewrite (bind_ok _ _ _ _ _ (load_bucket_ok _ _ _ Hbk)).
    by rewrite (bind_raise _ _ _ _ _
                  (FakeClient_delete_bucket_KeyError h _ bucket bk cl Hbk Hcl Hget)).
Qed.

Section live_sessions.
Variable RESUMABLE_SESSION_URI_TEMPLATE : string -> string -> string.
Variable _UNKNOWN : string.
Variable _UPLOAD_INCOMPLETE_STATUS_CODES : list Z.

Lemma live_FakeBlob_create_resumable_upload_session h blob upload_id :
  wf h -> live h -> is_Some (blob_store h !! blob) ->
  live (fst (FakeBlob_create_resumable_upload_session
               RESUMABLE_SESSION_URI_TEMPLATE blob upload_id h)).
Proof.
  intros Hwf Hl [bl Hbl]. destruct (wf_blobs h Hwf blob bl Hbl) as [bk Hbk].
  destruct (wf_buckets h Hwf _ bk Hbk) as ([cl Hcl] & _).
  rewrite (FakeBlob_create_resumable_upload_session_ok
             RESUMABLE_SESSION_URI_TEMPLATE h blob upload_id bl bk cl Hbl Hbk Hcl).
  cbv zeta. cbn [fst]. apply live_put_client.
  - by apply live_alloc_upload.
  - apply (live_keys h Hl _ cl Hcl).
  - intros n b Hin. by apply (live_buckets h Hl _ cl n b Hcl).
Qed.

Lemma live_FakeAuthorizedSession_put h session url data headers :
  wf h -> live h ->
  is_Some (client_store h
             !! FakeCredentials_client (FakeAuthorizedSession__credentials session)) ->
  live (fst (FakeAuthorizedSession_put _UNKNOWN _UPLOAD_INCOMPLETE_STATUS_CODES
               session url data headers h)).
Proof.
  intros Hwf Hl [cl Hcl].
  destruct (odict_get url (FakeClient_uploads cl)) as [upload|] eqn:Hget;
    [|by rewrite (put_KeyError _ _ h session cl url data headers Hcl Hget)].
  destruct (wf_client_uploads h Hwf _ cl url upload Hcl
              (odict_get_elem_of _ _ _ Hget))
    as (up & Hup & _ & _ & io & Hio & Htell).
  destruct (wf_upload_blob h Hwf upload up Hup) as [bl Hbl].
  unfold FakeAuthorizedSession_put.
  rewrite (bind_ok _ _ _ _ _ (load_client_ok _ _ _ Hcl)). rewrite Hget.
  rewrite (bind_ok _ _ _ _ _ (put_appends h upload up io data Hup Hio)).
  set (up1 := set_upload___contents _ up).
  set (h1 := put_upload upload up1 h).
  assert (Hl1 : live h1) by by apply live_put_upload.
  assert (Hup1 : upload_store h1 !! upload = Some up1)
    by apply (lookup_insert_Some _ _ _ _ Hup).
  destruct headers as [hd|]; [|done].
  destruct (negb _); [|by destruct _UPLOAD_INCOMPLETE_STATUS_CODES].
  destruct (FakeBlobUpload__finished up) eqn:Hfin.
  - by rewrite (bind_ok _ _ _ _ _ (FakeBlobUpload_finish_noop h1 upload up1 Hup1 Hfin)).
  - rewrite (bind_ok _ _ _ _ _
               (FakeBlobUpload_finish_ok h1 upload up1 _ bl Hup1 Hfin eq_refl Hbl)).
    cbn [fst ret]. apply live_put_upload, live_put_blob; [done|].
    left. intros bl0 Hbl0. simpl in Hbl0. rewrite Hbl in Hbl0. by injection Hbl0 as <-.
Qed.

Lemma live_FakeAuthorizedSession_delete h session url :
  wf h -> live h ->
  is_Some (client_store h
             !! FakeCredentials_client (FakeAuthorizedSession__credentials session)) ->
  live (fst (FakeAuthorizedSession_delete session url h)).
Proof.
  intros Hwf Hl [cl Hcl]. set (client := FakeCredentials_client _) in *.
  destruct (odict_get url (FakeClient_uploads cl)) as [upload|] eqn:Hget;
    [|by rewrite (delete_KeyError h session cl url Hcl Hget)].
  destruct (odict_del_is_Some url (FakeClient_uploads cl)) as [d' Hd'];
    [by eexists|].
  destruct (wf_client_uploads h Hwf client cl url upload Hcl
              (odict_get_elem_of _ _ _ Hget))
    as (up & Hup & Hurl & Hown & Hlive).
  destruct (wf_upload_blob h Hwf upload up Hup) as [bl Hbl].
  unfold FakeAuthorizedSession_delete. fold client.
  rewrite (bind_ok _ _ _ _ _ (load_client_ok _ _ _ Hcl)).
  unfold odict_pop. rewrite Hget, Hd'. unfold bind at 1, store_client.
  set (cl' := set_uploads d' cl).
  set (h0 := put_client client cl' h).
  assert (Hwf0 : wf h0).
  { apply (wf_put_client h client cl); [done|done|].
    destruct (wf_clients h Hwf client cl Hcl) as (Hb & Hnd & Hu).
    split; [done|].
    split; [by apply (odict_del_keys_NoDup url (FakeClient_uploads cl) d')|].
    intros url' u Hin. apply Hu. by apply (odict_del_subseteq _ _ _ Hd'). }
  assert (Hl0 : live h0).
  { apply live_put_client; [done|apply (live_keys h Hl _ cl Hcl)|].
    intros n b Hin. by apply (live_buckets h Hl _ cl n b Hcl). }
  unfold FakeBlobUpload_terminate.
  rewrite (bind_ok _ _ _ _ _ (load_upload_ok h0 _ _ Hup)).
  pose proof (live_FakeBlob_delete h0 _ Hwf0 Hl0 (ex_intro _ bl Hbl)) as Hl1.
  destruct (FakeBlob_delete_cases h0 _ bl Hwf0 Hbl)
    as (h1 & r & E & Hwf1 & Hext & Hc1 & Hu1).
  rewrite E in Hl1. cbn [fst] in Hl1.
  unfold bind at 1. rewrite E. destruct r as [e|[]]; [done|].
  assert (Hup1 : upload_store h1 !! upload = Some up) by by rewrite Hu1.
  rewrite (bind_ok _ _ _ _ _ (load_upload_ok h1 _ _ Hup1)). cbn [fst store_upload].
  by apply live_put_upload.
Qed.

Lemma live_exec h c :
  wf h -> live h -> call_ok h c ->
  live (exec RESUMABLE_SESSION_URI_TEMPLATE _UNKNOWN
             _UPLOAD_INCOMPLETE_STATUS_CODES c h).
Proof.
  intros Hwf Hl Hok. destruct c; cbn [exec]; cbn [call_ok] in Hok.
  - by apply live_FakeClient_init.
  - by apply live_FakeBucket_init.
  - by apply live_FakeBlob_init.
  - by apply live_FakeBucket_blob.
  - by apply live_FakeBucket_delete.
  - by apply live_FakeBlob_delete.
  - by apply live_FakeBlob_download_as_bytes.
  - by apply live_FakeBlob_upload_from_string.
  - by apply live_FakeBlob_create_resumable_upload_session.
  - by apply live_FakeAuthorizedSession_put.
  - by apply live_FakeAuthorizedSession_delete.
Qed.

Lemma reachable_live h :
  reachable RESUMABLE_SESSION_URI_TEMPLATE _UNKNOWN
            _UPLOAD_INCOMPLETE_STATUS_CODES h ->
  live h.
Proof.
  induction 1 as [|h c Hreach IH Hok].
  - split; intros i o; intros; by destruct i.
  - apply live_exec; [by eapply reachable_wf|done|done].
Qed.

End live_sessions.

(** ** Invariants of the reachable heaps *)



(** X17: in every reachable heap, a blob that a bucket lists exists,
    points back to that bucket through its [bucket] property and is what
    [get_blob] returns for the blob's own name: listing and lookup agree,
    and neither shows a deleted blob. *)
Theorem X17_listed_blob_exists_and_is_found_under_its_name
    T U C h bucket blobs blob :
  reachable T U C h ->
  FakeBucket_list_blobs bucket h = (h, inr blobs) ->
  blob ∈ blobs ->
  exists bl,
    blob_store h !! blob = Some bl
    /\ FakeBlob_exists blob h = (h, inr true)
    /\ FakeBlob_bucket blob h = (h, inr bucket)
    /\ FakeBucket_get_blob bucket (FakeBlob_name bl) h = (h, inr blob).
Proof.
  intros Hreach Hlist Hin.
  pose proof (reachable_wf T U C h Hreach) as Hwf.
  pose proof (reachable_live T U C h Hreach) as Hl.
  unfold FakeBucket_list_blobs, bind, load_bucket in Hlist.
  destruct (bucket_store h !! bucket) as [bk|] eqn:Hbk; [|done].
  cbn [from_option] in Hlist. injection Hlist as <-.
  unfold odict_values in Hin. apply list_elem_of_fmap in Hin as [[n l] [-> Hin]].
  destruct (wf_bucket_blobs h Hwf bucket bk n l Hbk Hin) as (bl & Hbl & Hn & Hb).
  destruct (live_blobs h Hl bucket bk n l Hbk Hin) as (bl' & Hbl' & He).
  assert (bl' = bl) as -> by congruence.
  cbn [snd]. exists bl. split; [exact Hbl|]. split; [|split].
  - rewrite (FakeBlob_exists_ok h l bl Hbl). by rewrite He.
  - unfold FakeBlob_bucket.
    rewrite (bind_ok _ _ _ _ _ (load_blob_ok _ _ _ Hbl)). by rewrite Hb.
  - apply (FakeBucket_get_blob_ok h bucket bk _ l Hbk). rewrite Hn.
    apply elem_of_odict_get; [apply (wf_bucket_keys h Hwf bucket bk Hbk)|done].
Qed.

Lemma X17_witness :
  exists bl,
    blob_store (run script_blob) !! 0 = Some bl
    /\ FakeBlob_exists 0 (run script_blob) = (run script_blob, inr true)
    /\ FakeBlob_bucket 0 (run script_blob) = (run script_blob, inr 0)
    /\ FakeBucket_get_blob 0 (FakeBlob_name bl) (run script_blob)
       = (run script_blob, inr 0).
Proof.
  apply (X17_listed_blob_exists_and_is_found_under_its_name
           example_template example_UNKNOWN example_STATUS_CODES
           (run script_blob) 0 [0] 0).
  - apply reachable_run_from; [apply reachable_empty|]. solve_calls_ok.
  - reflexivity.
  - apply list_elem_of_here.
Defined.

(** X18: in every reachable heap, the bucket that a client returns for a
    name exists, carries that name and belongs to that client: a deleted
    bucket is never handed out. *)
Theorem X18_client_returns_existing_bucket_of_that_name
    T U C h client name bucket :
  reachable T U C h ->
  FakeClient_bucket client name h = (h, inr bucket) ->
  FakeClient_get_bucket client name h = (h, inr bucket)
  /\ FakeBucket_exists bucket h = (h, inr true)
  /\ exists bk,
       bucket_store h !! bucket = Some bk
       /\ FakeBucket_name bk = name
       /\ FakeBucket_client bk = client.
Proof.
  intros Hreach Hget. pose proof (reachable_live T U C h Hreach) as Hl.
  split; [exact Hget|].
  unfold FakeClient_bucket, bind, load_client in Hget.
  destruct (client_store h !! client) as [cl|] eqn:Hcl; [|done].
  cbn [from_option] in Hget.
  destruct (odict_get name (FakeClient___buckets cl)) as [b|] eqn:Hb; [|done].
  injection Hget as ->.
  destruct (live_buckets h Hl client cl name bucket Hcl (odict_get_elem_of _ _ _ Hb))
    as (bk & Hbk & Hn & Hc & He).
  split; [|by exists bk].
  rewrite (FakeBucket_exists_ok h bucket bk Hbk). by rewrite He.
Qed.

Lemma X18_witness :
  FakeClient_get_bucket 0 "test-bucket" (run script_blob) = (run script_blob, inr 0)
  /\ FakeBucket_exists 0 (run script_blob) = (run script_blob, inr true)
  /\ exists bk,
       bucket_store (run script_blob) !! 0 = Some bk
       /\ FakeBucket_name bk = "test-bucket"
       /\ FakeBucket_client bk = 0.
Proof.
  apply (X18_client_returns_existing_bucket_of_that_name
           example_template example_UNKNOWN example_STATUS_CODES).
  - apply reachable_run_from; [apply reachable_empty|]. solve_calls_ok.
  - reflexivity.
Defined.

(** X19: the name of a deleted bucket is free again.  In a reachable
    heap, after a [delete()] that succeeded the client no longer knows
    the name, and a bucket constructed under it is a new object that the
    client returns from then on, while the deleted bucket stays deleted. *)
Theorem X19_bucket_name_is_free_after_delete T U C h bucket bk cl :
  reachable T U C h ->
  bucket_store h !! bucket = Some bk ->
  client_store h !! FakeBucket_client bk = Some cl ->
  is_Some (odict_get (FakeBucket_name bk) (FakeClient___buckets cl)) ->
  exists h1 h2 new,
    FakeBucket_delete bucket h = (h1, inr tt)
    /\ FakeClient_bucket (FakeBucket_client bk) (FakeBucket_name bk) h1
       = (h1, inl (NotFound ("Bucket " +:+ FakeBucket_name bk +:+ " not found")))
    /\ FakeBucket_init (FakeBucket_client bk) (FakeBucket_name bk) h1
       = (h2, inr new)
    /\ new <> bucket
    /\ FakeClient_bucket (FakeBucket_client bk) (FakeBucket_name bk) h2
       = (h2, inr new)
    /\ FakeBucket_exists new h2 = (h2, inr true)
    /\ FakeBucket_exists bucket h2 = (h2, inr false).
Proof.
  intros Hreach Hbk Hcl Hreg.
  pose proof (reachable_wf T U C h Hreach) as Hwf.
  pose proof (reachable_live T U C h Hreach) as Hl.
  destruct (odict_del_is_Some _ _ Hreg) as [d Hd].
  pose proof (odict_get_del _ _ _ (live_keys h Hl _ cl Hcl) Hd) as Hfree.
  rewrite (FakeBucket_delete_unfold h bucket bk cl d Hbk Hcl Hd).
  set (client := FakeBucket_client bk) in *.
  set (name := FakeBucket_name bk) in *.
  set (cl1 := set___buckets d cl).
  set (h1 := put_client client cl1 h).
  set (bk2 := set_bucket__exists false bk).
  set (h2 := put_bucket bucket bk2 h1).
  assert (Hbk2 : bucket_store h2 !! bucket = Some bk2)
    by apply (lookup_insert_Some _ _ _ _ Hbk).
  destruct (delete_each_ok (FakeBucket_blobs bk) h2 bucket bk2 Hbk2 eq_refl)
    as (h' & E' & Hc & _ & Hb & _).
  { apply (wf_bucket_keys h Hwf bucket bk Hbk). }
  { intros n l Hin. apply (wf_bucket_blobs h Hwf bucket bk n l Hbk Hin). }
  assert (Hcl' : client_store h' !! client = Some cl1).
  { rewrite Hc. apply (lookup_insert_Some _ _ _ _ Hcl). }
  assert (Hbk' : bucket_store h' !! bucket = Some (set_blobs [] bk2)).
  { rewrite Hb. apply (lookup_insert_Some _ _ _ _ Hbk2). }
  pose proof (FakeBucket_init_ok h' client cl1 name Hcl' Hfree) as E.
  set (new := length (bucket_store h')) in *.
  match type of E with _ = (?x, _) => set (h'' := x) in E end.
  exists h', h'', new. split; [exact E'|].
  split; [apply (FakeClient_bucket_NotFound h' client cl1 name Hcl' Hfree)|].
  split; [exact E|].
  split; [intros Hnew; apply lookup_lt_Some in Hbk'; unfold new in Hnew; lia|].
  split.
  - apply (FakeClient_bucket_ok h'' client (set___buckets (odict_set name new d) cl1)).
    + apply (lookup_insert_Some _ _ _ _ Hcl').
    + apply odict_get_set.
  - split.
    + apply (FakeBucket_exists_ok h'' new (mkFakeBucket client name [] true)).
      apply lookup_alloc.
    + apply (FakeBucket_exists_ok h'' bucket (set_blobs [] bk2)).
      by apply lookup_alloc_old.
Qed.

Lemma X19_witness :
  exists h1 h2 new,
    FakeBucket_delete 0 (run script_blob) = (h1, inr tt)
    /\ FakeBucket_init 0 "test-bucket" h1 = (h2, inr new)
    /\ FakeClient_bucket 0 "test-bucket" h2 = (h2, inr new)
    /\ FakeBucket_exists 0 h2 = (h2, inr false).
Proof.
  destruct (X19_bucket_name_is_free_after_delete
              example_template example_UNKNOWN example_STATUS_CODES
              (run script_blob) 0
              (mkFakeBucket 0 "test-bucket" [("test-blob", 0)] true)
              (mkFakeClient (mkFakeCredentials 0) [] [("test-bucket", 0)]))
    as (h1 & h2 & new & E1 & _ & E2 & _ & Hget & _ & Hex).
  - apply reachable_run_from; [apply reachable_empty|]. solve_calls_ok.
  - reflexivity.
  - reflexivity.
  - by exists 0.
  - by exists h1, h2, new.
Defined.
